(** * PulseAudio source outputs (src/pulsecore/source-output.c)

    A shallow embedding of the source-output core: the object life cycle
    (new / disconnect / ref / unref / free), the push path, corking,
    renaming and the move to another source.

    C objects live in explicit heaps addressed by pointers; every function
    of the C file is a computation in a small monad that threads the heap,
    collects the calls made to the collaborators (event bus, log, source
    wake-up, resampler, hooks) in a trace, and stops at a failed assertion
    or at a null or dangling dereference. *)

From Stdlib Require Import ZArith NArith Lia Bool.
From stdpp Require Import gmap strings list fin_maps.

Local Open Scope Z_scope.

(** ** Plain data *)

Definition ptr := positive.

Record pa_sample_spec := {
  ss_format : Z;
  ss_rate : Z;
  ss_channels : Z
}.

Record pa_channel_map := {
  cm_channels : Z;
  cm_map : list Z
}.

Definition pa_memblock := list Byte.byte.

Record pa_memchunk := {
  mc_memblock : option pa_memblock;
  mc_index : Z;
  mc_length : Z
}.

Inductive pa_source_state_t :=
| PA_SOURCE_RUNNING
| PA_SOURCE_DISCONNECTED.

Inductive pa_source_output_state_t :=
| PA_SOURCE_OUTPUT_RUNNING
| PA_SOURCE_OUTPUT_CORKED
| PA_SOURCE_OUTPUT_DISCONNECTED.

Definition source_state_eqb (a b : pa_source_state_t) : bool :=
  match a, b with
  | PA_SOURCE_RUNNING, PA_SOURCE_RUNNING => true
  | PA_SOURCE_DISCONNECTED, PA_SOURCE_DISCONNECTED => true
  | _, _ => false
  end.

Definition output_state_eqb (a b : pa_source_output_state_t) : bool :=
  match a, b with
  | PA_SOURCE_OUTPUT_RUNNING, PA_SOURCE_OUTPUT_RUNNING => true
  | PA_SOURCE_OUTPUT_CORKED, PA_SOURCE_OUTPUT_CORKED => true
  | PA_SOURCE_OUTPUT_DISCONNECTED, PA_SOURCE_OUTPUT_DISCONNECTED => true
  | _, _ => false
  end.

(** A pointer that may be NULL. *)
Definition ptr_eqb (a b : option ptr) : bool :=
  match a, b with
  | None, None => true
  | Some x, Some y => Pos.eqb x y
  | _, _ => false
  end.

(** ** The index set

    Modelled from the spec: the registry container (pulsecore/idxset.c is
    not among the sources).  The spec describes it as "a keyed container
    supporting insert-with-assigned-key, remove-by-value, and size query;
    used both globally and per-source".  Each container hands out its own
    keys from its own 32-bit counter; an insert of a value that is already
    present fails with -1 and reports the key the value already has. *)

Definition PA_IDXSET_INVALID : N := 4294967295%N.

Record pa_idxset := {
  ix_entries : list (N * ptr);
  ix_next : N
}.

Definition pa_idxset_empty : pa_idxset :=
  {| ix_entries := []; ix_next := 0%N |}.

Fixpoint ix_find (p : ptr) (l : list (N * ptr)) : option N :=
  match l with
  | [] => None
  | (k, q) :: l' => if Pos.eqb q p then Some k else ix_find p l'
  end.

Fixpoint ix_drop (p : ptr) (l : list (N * ptr)) : list (N * ptr) :=
  match l with
  | [] => []
  | (k, q) :: l' => if Pos.eqb q p then ix_drop p l' else (k, q) :: ix_drop p l'
  end.

Definition pa_idxset_get_index (s : pa_idxset) (p : ptr) : option N :=
  ix_find p (ix_entries s).

Definition pa_idxset_contains (s : pa_idxset) (p : ptr) : bool :=
  match pa_idxset_get_index s p with Some _ => true | None => false end.

Definition pa_idxset_size (s : pa_idxset) : nat := length (ix_entries s).

(** [pa_idxset_put s p] is the return code, the key written through the
    index out-parameter, and the container afterwards. *)
Definition pa_idxset_put (s : pa_idxset) (p : ptr) : Z * N * pa_idxset :=
  match pa_idxset_get_index s p with
  | Some k => (-1, k, s)
  | None =>
      (0, ix_next s,
       {| ix_entries := ix_entries s ++ [(ix_next s, p)];
          ix_next := ((ix_next s + 1) mod 4294967296)%N |})
  end.

Definition pa_idxset_remove_by_data (s : pa_idxset) (p : ptr) : pa_idxset :=
  {| ix_entries := ix_drop p (ix_entries s); ix_next := ix_next s |}.

(** ** Objects *)

Record pa_resampler := {
  r_i_ss : pa_sample_spec;
  r_i_cm : pa_channel_map;
  r_o_ss : pa_sample_spec;
  r_o_cm : pa_channel_map;
  r_method : Z;
  r_fed : list pa_memchunk
}.

Record pa_core := {
  c_source_outputs : pa_idxset;
  c_resample_method : Z;
  c_memblock_stat : ptr
}.

Record pa_source := {
  s_index : N;
  s_state : pa_source_state_t;
  s_sample_spec : pa_sample_spec;
  s_channel_map : pa_channel_map;
  s_outputs : pa_idxset
}.

(** ** Machine integers

    [INT_MAX] and [INT_MIN] of a 32-bit [int], and the value such an
    [int] holds after an arithmetic result [z]: the two's complement
    wrap-around the compiled code performs (ISO C leaves the overflow of
    a signed operation undefined). *)
Definition INT_MAX : Z := 2147483647.
Definition INT_MIN : Z := -2147483648.

Definition int_wrap (z : Z) : Z :=
  (z + 2147483648) mod 4294967296 - 2147483648.

(** The declaration of the struct (source-output.h) is not among the
    sources; the fields are those the C file reads and writes.  Pointers
    to hooks, owner, client and user data are opaque addresses; the
    reference count is a C [int] of 32 bits, held as a [Z] that the
    increment wraps around (see [int_wrap]). *)
Record pa_source_output := {
  so_ref : Z;
  so_index : N;
  so_state : pa_source_output_state_t;
  so_name : string;
  so_driver : option string;
  so_owner : option ptr;
  so_source : option ptr;
  so_client : option ptr;
  so_sample_spec : pa_sample_spec;
  so_channel_map : pa_channel_map;
  so_push : option ptr;
  so_kill : option ptr;
  so_get_latency : option ptr;
  so_userdata : option ptr;
  so_resampler : option ptr;
  so_resample_method : Z
}.

Definition set_ref (v : Z) (o : pa_source_output) : pa_source_output :=
  {| so_ref := v; so_index := so_index o; so_state := so_state o;
     so_name := so_name o; so_driver := so_driver o; so_owner := so_owner o;
     so_source := so_source o; so_client := so_client o;
     so_sample_spec := so_sample_spec o; so_channel_map := so_channel_map o;
     so_push := so_push o; so_kill := so_kill o;
     so_get_latency := so_get_latency o; so_userdata := so_userdata o;
     so_resampler := so_resampler o;
     so_resample_method := so_resample_method o |}.

Definition set_index (v : N) (o : pa_source_output) : pa_source_output :=
  {| so_ref := so_ref o; so_index := v; so_state := so_state o;
     so_name := so_name o; so_driver := so_driver o; so_owner := so_owner o;
     so_source := so_source o; so_client := so_client o;
     so_sample_spec := so_sample_spec o; so_channel_map := so_channel_map o;
     so_push := so_push o; so_kill := so_kill o;
     so_get_latency := so_get_latency o; so_userdata := so_userdata o;
     so_resampler := so_resampler o;
     so_resample_method := so_resample_method o |}.

Definition set_state (v : pa_source_output_state_t) (o : pa_source_output)
  : pa_source_output :=
  {| so_ref := so_ref o; so_index := so_index o; so_state := v;
     so_name := so_name o; so_driver := so_driver o; so_owner := so_owner o;
     so_source := so_source o; so_client := so_client o;
     so_sample_spec := so_sample_spec o; so_channel_map := so_channel_map o;
     so_push := so_push o; so_kill := so_kill o;
     so_get_latency := so_get_latency o; so_userdata := so_userdata o;
     so_resampler := so_resampler o;
     so_resample_method := so_resample_method o |}.

Definition set_name (v : string) (o : pa_source_output) : pa_source_output :=
  {| so_ref := so_ref o; so_index := so_index o; so_state := so_state o;
     so_name := v; so_driver := so_driver o; so_owner := so_owner o;
     so_source := so_source o; so_client := so_client o;
     so_sample_spec := so_sample_spec o; so_channel_map := so_channel_map o;
     so_push := so_push o; so_kill := so_kill o;
     so_get_latency := so_get_latency o; so_userdata := so_userdata o;
     so_resampler := so_resampler o;
     so_resample_method := so_resample_method o |}.

Definition set_source (v : option ptr) (o : pa_source_output) : pa_source_output :=
  {| so_ref := so_ref o; so_index := so_index o; so_state := so_state o;
     so_name := so_name o; so_driver := so_driver o; so_owner := so_owner o;
     so_source := v; so_client := so_client o;
     so_sample_spec := so_sample_spec o; so_channel_map := so_channel_map o;
     so_push := so_push o; so_kill := so_kill o;
     so_get_latency := so_get_latency o; so_userdata := so_userdata o;
     so_resampler := so_resampler o;
     so_resample_method := so_resample_method o |}.

Definition clear_hooks (o : pa_source_output) : pa_source_output :=
  {| so_ref := so_ref o; so_index := so_index o; so_state := so_state o;
     so_name := so_name o; so_driver := so_driver o; so_owner := so_owner o;
     so_source := so_source o; so_client := so_client o;
     so_sample_spec := so_sample_spec o; so_channel_map := so_channel_map o;
     so_push := None; so_kill := None;
     so_get_latency := None; so_userdata := so_userdata o;
     so_resampler := so_resampler o;
     so_resample_method := so_resample_method o |}.

Definition set_resampler (v : option ptr) (o : pa_source_output) : pa_source_output :=
  {| so_ref := so_ref o; so_index := so_index o; so_state := so_state o;
     so_name := so_name o; so_driver := so_driver o; so_owner := so_owner o;
     so_source := so_source o; so_client := so_client o;
     so_sample_spec := so_sample_spec o; so_channel_map := so_channel_map o;
     so_push := so_push o; so_kill := so_kill o;
     so_get_latency := so_get_latency o; so_userdata := so_userdata o;
     so_resampler := v;
     so_resample_method := so_resample_method o |}.

Definition set_outputs (v : pa_idxset) (s : pa_source) : pa_source :=
  {| s_index := s_index s; s_state := s_state s;
     s_sample_spec := s_sample_spec s; s_channel_map := s_channel_map s;
     s_outputs := v |}.

Definition set_source_outputs (v : pa_idxset) (c : pa_core) : pa_core :=
  {| c_source_outputs := v; c_resample_method := c_resample_method c;
     c_memblock_stat := c_memblock_stat c |}.

(** ** The world: one core, its sources, and the two heaps

    There is one [pa_core]; every source belongs to it, so the [s->core]
    and [o->source->core] the C code asserts or follows are never NULL
    once the source pointer itself is good. *)

Record world := {
  w_core : pa_core;
  w_sources : gmap ptr pa_source;
  w_outputs : gmap ptr pa_source_output;
  w_resamplers : gmap ptr pa_resampler;
  w_next : ptr
}.

(** ** Calls to the collaborators, as they appear in a trace *)

Inductive subscription_event :=
| PA_SUBSCRIPTION_EVENT_NEW
| PA_SUBSCRIPTION_EVENT_CHANGE
| PA_SUBSCRIPTION_EVENT_REMOVE.

Inductive log_level := LOG_ERROR | LOG_WARN | LOG_INFO.

Inductive event :=
| EvSubscription (t : subscription_event) (idx : N)
| EvSourceNotify (s : ptr)
| EvLog (lvl : log_level) (msg : string)
| EvResamplerNew (a : pa_sample_spec) (am : pa_channel_map)
    (b : pa_sample_spec) (bm : pa_channel_map) (method : Z) (r : option ptr)
| EvResamplerFree (r : ptr)
| EvResamplerRun (r : ptr) (input output : pa_memchunk)
| EvMemblockUnref (b : pa_memblock)
| EvHookPush (hook o : ptr) (chunk : pa_memchunk)
| EvHookKill (hook o : ptr)
| EvHookGetLatency (hook o : ptr)
| EvXfree (o : ptr)
| EvXfreeString (s : option string).

Inductive fault :=
| AssertionFailed (what : string)
| NullDereference
| DanglingPointer.

Inductive outcome (A : Type) :=
| Done (a : A) (w : world) (tr : list event)
| Crash (f : fault).
Arguments Done {A} a w tr.
Arguments Crash {A} f.

(** ** The monad *)

Definition M (A : Type) : Type := world -> outcome A.

Definition ret {A} (a : A) : M A := fun w => Done a w [].

Definition bind {A B} (m : M A) (k : A -> M B) : M B :=
  fun w =>
    match m w with
    | Done a w1 t1 =>
        match k a w1 with
        | Done b w2 t2 => Done b w2 (t1 ++ t2)
        | Crash f => Crash f
        end
    | Crash f => Crash f
    end.

Declare Scope pa_scope.
Delimit Scope pa_scope with pa.
Notation "x <- m ;; k" := (bind m (fun x => k))
  (at level 100, m at next level, right associativity) : pa_scope.
Notation "m ;;; k" := (bind m (fun _ => k))
  (at level 100, right associativity) : pa_scope.
Local Open Scope pa_scope.

Definition crash {A} (f : fault) : M A := fun _ => Crash f.

Definition emit (e : event) : M unit := fun w => Done tt w [e].

Definition assert (b : bool) (what : string) : M unit :=
  if b then ret tt else crash (AssertionFailed what).

Definition get_core : M pa_core := fun w => Done (w_core w) w [].

Definition put_core (c : pa_core) : M unit :=
  fun w =>
    Done tt {| w_core := c; w_sources := w_sources w; w_outputs := w_outputs w;
               w_resamplers := w_resamplers w; w_next := w_next w |} [].

Definition load_source (s : ptr) : M pa_source :=
  fun w =>
    match w_sources w !! s with
    | Some src => Done src w []
    | None => Crash DanglingPointer
    end.

Definition store_source (s : ptr) (src : pa_source) : M unit :=
  fun w =>
    Done tt {| w_core := w_core w; w_sources := <[s := src]> (w_sources w);
               w_outputs := w_outputs w; w_resamplers := w_resamplers w;
               w_next := w_next w |} [].

Definition load_output (p : ptr) : M pa_source_output :=
  fun w =>
    match w_outputs w !! p with
    | Some o => Done o w []
    | None => Crash DanglingPointer
    end.

Definition store_output (p : ptr) (o : pa_source_output) : M unit :=
  fun w =>
    Done tt {| w_core := w_core w; w_sources := w_sources w;
               w_outputs := <[p := o]> (w_outputs w);
               w_resamplers := w_resamplers w; w_next := w_next w |} [].

(** [pa_xnew]: a fresh address. *)
Definition alloc : M ptr :=
  fun w =>
    Done (w_next w)
         {| w_core := w_core w; w_sources := w_sources w;
            w_outputs := w_outputs w; w_resamplers := w_resamplers w;
            w_next := Pos.succ (w_next w) |} [].

(** [pa_xfree] of the object itself. *)
Definition free_output (p : ptr) : M unit :=
  fun w =>
    Done tt {| w_core := w_core w; w_sources := w_sources w;
               w_outputs := delete p (w_outputs w);
               w_resamplers := w_resamplers w; w_next := w_next w |}
         [EvXfree p].

(** [pa_xfree] of a string the object owns ([None] for a NULL pointer,
    which [pa_xfree] accepts). *)
Definition xfree_string (s : option string) : M unit :=
  fun w => Done tt w [EvXfreeString s].

(** Dereference of a pointer that may be NULL. *)
Definition deref {A} (p : option A) : M A :=
  match p with
  | Some a => ret a
  | None => crash NullDereference
  end.

(** ** Collaborators

    The headers and helper modules that source-output.c calls into are not
    part of this file's sources (sample.h, channelmap.h, utf8.h, source.h,
    resampler.h).  Their constants and pure functions are taken as
    parameters; nothing is assumed about them. *)

Class Collaborators := {
  PA_MAX_OUTPUTS_PER_SOURCE : nat;
  PA_RESAMPLER_INVALID : Z;
  pa_sample_spec_valid : pa_sample_spec -> bool;
  pa_sample_spec_equal : pa_sample_spec -> pa_sample_spec -> bool;
  pa_channel_map_valid : pa_channel_map -> bool;
  pa_channel_map_equal : pa_channel_map -> pa_channel_map -> bool;
  pa_channel_map_init_auto : Z -> option pa_channel_map;
  pa_utf8_valid : string -> bool;
  (** whether the resampler implementation can convert between two shapes *)
  resampler_supported :
    pa_sample_spec -> pa_channel_map -> pa_sample_spec -> pa_channel_map ->
    ptr -> Z -> bool;
  (** what a stage, given all it was fed so far, makes of the next chunk *)
  resampler_convert : pa_resampler -> pa_memchunk -> pa_memchunk;
  (** the method a stage reports when it is asked for it *)
  resampler_method : pa_resampler -> Z;
  (** the value a latency hook reports *)
  hook_latency : ptr -> ptr -> Z
}.

Definition is_some {A} (o : option A) : bool :=
  match o with Some _ => true | None => false end.

Section SourceOutput.
Context {collab : Collaborators}.

(** *** Calls into other modules *)

Definition pa_log (msg : string) : M unit := emit (EvLog LOG_ERROR msg).
Definition pa_log_warn (msg : string) : M unit := emit (EvLog LOG_WARN msg).
Definition pa_log_info (msg : string) : M unit := emit (EvLog LOG_INFO msg).

(** [pa_subscription_post(core, SOURCE_OUTPUT|t, idx)] *)
Definition pa_subscription_post (t : subscription_event) (idx : N) : M unit :=
  emit (EvSubscription t idx).

(** [pa_source_notify(s)]: the wake-up poke of a source. *)
Definition pa_source_notify (s : option ptr) : M unit :=
  s' <- deref s ;;
  _ <- load_source s' ;;
  emit (EvSourceNotify s').

Definition store_resampler (r : ptr) (v : pa_resampler) : M unit :=
  fun w =>
    Done tt {| w_core := w_core w; w_sources := w_sources w;
               w_outputs := w_outputs w;
               w_resamplers := <[r := v]> (w_resamplers w);
               w_next := w_next w |} [].

Definition load_resampler (r : ptr) : M pa_resampler :=
  fun w =>
    match w_resamplers w !! r with
    | Some v => Done v w []
    | None => Crash DanglingPointer
    end.

(** Modelled from the spec: the resampler factory (pulsecore/resampler.c is
    not among the sources), "build(from_shape, from_map, to_shape, to_map,
    method) -> stage | failure": a new stage object on success, NULL when
    the conversion is not supported. *)
Definition pa_resampler_new (a : pa_sample_spec) (am : pa_channel_map)
    (b : pa_sample_spec) (bm : pa_channel_map) (stat : ptr) (method : Z)
  : M (option ptr) :=
  if resampler_supported a am b bm stat method then
    r <- alloc ;;
    store_resampler r {| r_i_ss := a; r_i_cm := am; r_o_ss := b; r_o_cm := bm;
                         r_method := method; r_fed := [] |} ;;;
    emit (EvResamplerNew a am b bm method (Some r)) ;;;
    ret (Some r)
  else
    emit (EvResamplerNew a am b bm method None) ;;;
    ret None.

Definition pa_resampler_free (r : ptr) : M unit :=
  _ <- load_resampler r ;;
  (fun w =>
     Done tt {| w_core := w_core w; w_sources := w_sources w;
                w_outputs := w_outputs w;
                w_resamplers := delete r (w_resamplers w);
                w_next := w_next w |} [EvResamplerFree r]).

Definition pa_resampler_run (r : ptr) (chunk : pa_memchunk) : M pa_memchunk :=
  v <- load_resampler r ;;
  let out := resampler_convert v chunk in
  store_resampler r {| r_i_ss := r_i_ss v; r_i_cm := r_i_cm v;
                       r_o_ss := r_o_ss v; r_o_cm := r_o_cm v;
                       r_method := r_method v;
                       r_fed := r_fed v ++ [chunk] |} ;;;
  emit (EvResamplerRun r chunk out) ;;;
  ret out.

(** Modelled from the spec: "method() -> method_id" of the resampling
    stage (pulsecore/resampler.c is not among the sources).  What a stage
    answers is left to the collaborators. *)
Definition pa_resampler_get_method (r : ptr) : M Z :=
  v <- load_resampler r ;;
  ret (resampler_method v).

Definition pa_memblock_unref (b : pa_memblock) : M unit :=
  emit (EvMemblockUnref b).

(** *** source-output.c *)

Definition msg_too_many_create : string :=
  "Failed to create source output: too many outputs per source.".
Definition msg_too_many_move : string :=
  "Failed to move source output: too many outputs per source.".
Definition msg_unsupported : string := "Unsupported resampling operation.".
Definition msg_created : string := "created".
Definition msg_freed : string := "freed".

Definition shape_differs (a : pa_sample_spec) (am : pa_channel_map)
    (b : pa_sample_spec) (bm : pa_channel_map) : bool :=
  negb (pa_sample_spec_equal a b) || negb (pa_channel_map_equal am bm).

(** The tail of [pa_source_output_new], from the allocation of the object
    to the end, once the stage (or NULL) is settled. *)
Definition new_commit (s : ptr) (driver : option string) (name : string)
    (spec : pa_sample_spec) (map : pa_channel_map) (resample_method : Z)
    (resampler : option ptr) : M (option ptr) :=
  o <- alloc ;;
  let obj := {| so_ref := 1; so_index := 0%N;
                so_state := PA_SOURCE_OUTPUT_RUNNING;
                so_name := name; so_driver := driver; so_owner := None;
                so_source := Some s; so_client := None;
                so_sample_spec := spec; so_channel_map := map;
                so_push := None; so_kill := None; so_get_latency := None;
                so_userdata := None;
                so_resampler := resampler;
                so_resample_method := resample_method |} in
  c <- get_core ;;
  let '(r, idx, reg) := pa_idxset_put (c_source_outputs c) o in
  put_core (set_source_outputs reg c) ;;;
  store_output o (set_index idx obj) ;;;
  assert ((r =? 0) && negb (N.eqb idx PA_IDXSET_INVALID))
         "r == 0 && o->index != PA_IDXSET_INVALID" ;;;
  src <- load_source s ;;
  let '(r, _, outs) := pa_idxset_put (s_outputs src) o in
  store_source s (set_outputs outs src) ;;;
  assert (r =? 0) "r == 0" ;;;
  pa_log_info msg_created ;;;
  pa_subscription_post PA_SUBSCRIPTION_EVENT_NEW idx ;;;
  ret (Some o).

Definition pa_source_output_new (s : ptr) (driver : option string)
    (name : string) (spec : pa_sample_spec) (map : option pa_channel_map)
    (resample_method : Z) : M (option ptr) :=
  src <- load_source s ;;
  assert (source_state_eqb (s_state src) PA_SOURCE_RUNNING)
         "s->state == PA_SOURCE_RUNNING" ;;;
  if negb (pa_sample_spec_valid spec) then ret None else
  let map := match map with
             | Some m => Some m
             | None => pa_channel_map_init_auto (ss_channels spec)
             end in
  match map with
  | None => ret None
  | Some map =>
  if negb (pa_channel_map_valid map) then ret None else
  if negb (cm_channels map =? ss_channels spec) then ret None else
  if negb (match driver with None => true | Some d => pa_utf8_valid d end)
  then ret None else
  if negb (pa_utf8_valid name) then ret None else
  if (PA_MAX_OUTPUTS_PER_SOURCE <=? pa_idxset_size (s_outputs src))%nat then
    pa_log msg_too_many_create ;;;
    ret None
  else
  c <- get_core ;;
  let resample_method :=
    if resample_method =? PA_RESAMPLER_INVALID
    then c_resample_method c else resample_method in
  if shape_differs (s_sample_spec src) (s_channel_map src) spec map then
    resampler <- pa_resampler_new (s_sample_spec src) (s_channel_map src)
                   spec map (c_memblock_stat c) resample_method ;;
    match resampler with
    | None => pa_log_warn msg_unsupported ;;; ret None
    | Some _ => new_commit s driver name spec map resample_method resampler
    end
  else new_commit s driver name spec map resample_method None
  end.

Definition pa_source_output_disconnect (p : ptr) : M unit :=
  o <- load_output p ;;
  assert (negb (output_state_eqb (so_state o) PA_SOURCE_OUTPUT_DISCONNECTED))
         "o->state != PA_SOURCE_OUTPUT_DISCONNECTED" ;;;
  assert (is_some (so_source o)) "o->source" ;;;
  s <- deref (so_source o) ;;
  _ <- load_source s ;;
  c <- get_core ;;
  put_core (set_source_outputs
              (pa_idxset_remove_by_data (c_source_outputs c) p) c) ;;;
  src <- load_source s ;;
  store_source s (set_outputs (pa_idxset_remove_by_data (s_outputs src) p) src) ;;;
  pa_subscription_post PA_SUBSCRIPTION_EVENT_REMOVE (so_index o) ;;;
  store_output p
    (set_state PA_SOURCE_OUTPUT_DISCONNECTED (clear_hooks (set_source None o))).

Definition source_output_free (p : ptr) : M unit :=
  o <- load_output p ;;
  (if negb (output_state_eqb (so_state o) PA_SOURCE_OUTPUT_DISCONNECTED)
   then pa_source_output_disconnect p else ret tt) ;;;
  o <- load_output p ;;
  pa_log_info msg_freed ;;;
  match so_resampler o with
  | Some r => pa_resampler_free r
  | None => ret tt
  end ;;;
  xfree_string (Some (so_name o)) ;;;
  xfree_string (so_driver o) ;;;
  free_output p.

(** [--o->ref] cannot overflow: the assertion has the count at 1 or
    more. *)
Definition pa_source_output_unref (p : ptr) : M unit :=
  o <- load_output p ;;
  assert (1 <=? so_ref o) "o->ref >= 1" ;;;
  store_output p (set_ref (so_ref o - 1) o) ;;;
  if so_ref o - 1 =? 0 then source_output_free p else ret tt.

(** [o->ref++] wraps around at INT_MAX. *)
Definition pa_source_output_ref (p : ptr) : M ptr :=
  o <- load_output p ;;
  assert (1 <=? so_ref o) "o->ref >= 1" ;;;
  store_output p (set_ref (int_wrap (so_ref o + 1)) o) ;;;
  ret p.

Definition pa_source_output_kill (p : ptr) : M unit :=
  o <- load_output p ;;
  assert (1 <=? so_ref o) "o->ref >= 1" ;;;
  match so_kill o with
  | Some h => emit (EvHookKill h p)
  | None => ret tt
  end.

Definition pa_source_output_push (p : ptr) (chunk : pa_memchunk) : M unit :=
  o <- load_output p ;;
  assert (negb (mc_length chunk =? 0)) "chunk->length" ;;;
  assert (is_some (so_push o)) "o->push" ;;;
  if output_state_eqb (so_state o) PA_SOURCE_OUTPUT_CORKED then ret tt else
  match so_resampler o with
  | None =>
      h <- deref (so_push o) ;;
      emit (EvHookPush h p chunk)
  | Some r =>
      rchunk <- pa_resampler_run r chunk ;;
      if mc_length rchunk =? 0 then ret tt else
      assert (is_some (mc_memblock rchunk)) "rchunk.memblock" ;;;
      h <- deref (so_push o) ;;
      emit (EvHookPush h p rchunk) ;;;
      b <- deref (mc_memblock rchunk) ;;
      pa_memblock_unref b
  end.

Definition pa_source_output_set_name (p : ptr) (name : string) : M unit :=
  o <- load_output p ;;
  assert (1 <=? so_ref o) "o->ref >= 1" ;;;
  xfree_string (Some (so_name o)) ;;;
  store_output p (set_name name o) ;;;
  s <- deref (so_source o) ;;
  _ <- load_source s ;;
  pa_subscription_post PA_SUBSCRIPTION_EVENT_CHANGE (so_index o).

Definition pa_source_output_get_latency (p : ptr) : M Z :=
  o <- load_output p ;;
  assert (1 <=? so_ref o) "o->ref >= 1" ;;;
  match so_get_latency o with
  | Some h => emit (EvHookGetLatency h p) ;;; ret (hook_latency h p)
  | None => ret 0
  end.

Definition pa_source_output_cork (p : ptr) (b : Z) : M unit :=
  o <- load_output p ;;
  assert (1 <=? so_ref o) "o->ref >= 1" ;;;
  if output_state_eqb (so_state o) PA_SOURCE_OUTPUT_DISCONNECTED then ret tt else
  let n := output_state_eqb (so_state o) PA_SOURCE_OUTPUT_CORKED && (b =? 0) in
  store_output p
    (set_state (if b =? 0 then PA_SOURCE_OUTPUT_RUNNING
                else PA_SOURCE_OUTPUT_CORKED) o) ;;;
  if n then pa_source_notify (so_source o) else ret tt.

Definition pa_source_output_get_resample_method (p : ptr) : M Z :=
  o <- load_output p ;;
  assert (1 <=? so_ref o) "o->ref >= 1" ;;;
  match so_resampler o with
  | None => ret (so_resample_method o)
  | Some r => pa_resampler_get_method r
  end.

(** The tail of [pa_source_output_move_to], from "Okey, let's move it" to
    the end, with the value [new_resampler] holds when control gets there. *)
Definition move_to_commit (p : ptr) (dest : ptr) (o : pa_source_output)
    (new_resampler : option ptr) : M Z :=
  let origin := so_source o in
  os <- deref origin ;;
  og <- load_source os ;;
  store_source os
    (set_outputs (pa_idxset_remove_by_data (s_outputs og) p) og) ;;;
  d <- load_source dest ;;
  store_source dest
    (set_outputs (snd (pa_idxset_put (s_outputs d) p)) d) ;;;
  store_output p (set_source (Some dest) o) ;;;
  (if negb (ptr_eqb new_resampler (so_resampler o)) then
     match so_resampler o with
     | Some r => pa_resampler_free r
     | None => ret tt
     end ;;;
     store_output p (set_resampler new_resampler (set_source (Some dest) o))
   else ret tt) ;;;
  pa_subscription_post PA_SUBSCRIPTION_EVENT_CHANGE (so_index o) ;;;
  pa_source_notify (Some dest) ;;;
  ret 0.

(** The test that lets a move keep the stage the output already has:
    [o->resampler && pa_sample_spec_equal(origin, dest) &&
     pa_channel_map_equal(origin, dest)], evaluated left to right. *)
Definition move_to_reuse (o : pa_source_output) (d : pa_source) : M bool :=
  match so_resampler o with
  | None => ret false
  | Some _ =>
      os <- deref (so_source o) ;;
      og <- load_source os ;;
      ret (pa_sample_spec_equal (s_sample_spec og) (s_sample_spec d)
           && pa_channel_map_equal (s_channel_map og) (s_channel_map d))
  end.

(** The local [new_resampler] of [pa_source_output_move_to] is declared
    without an initialiser and is assigned in two of the three branches
    only.  What it holds in the third one is whatever was in its stack
    slot: that value is the extra argument [junk]. *)
Definition pa_source_output_move_to (p : ptr) (dest : ptr) (junk : option ptr)
  : M Z :=
  o <- load_output p ;;
  assert (1 <=? so_ref o) "o->ref >= 1" ;;;
  let origin := so_source o in
  if ptr_eqb (Some dest) origin then ret 0 else
  d <- load_source dest ;;
  if (PA_MAX_OUTPUTS_PER_SOURCE <=? pa_idxset_size (s_outputs d))%nat then
    pa_log_warn msg_too_many_move ;;;
    ret (-1)
  else
  reuse <- move_to_reuse o d ;;
  if reuse then move_to_commit p dest o (so_resampler o)
  else if shape_differs (so_sample_spec o) (so_channel_map o)
            (s_sample_spec d) (s_channel_map d) then
    c <- get_core ;;
    r <- pa_resampler_new (s_sample_spec d) (s_channel_map d)
           (so_sample_spec o) (so_channel_map o)
           (c_memblock_stat c) (so_resample_method o) ;;
    match r with
    | None => pa_log_warn msg_unsupported ;;; ret (-1)
    | Some _ => move_to_commit p dest o r
    end
  else move_to_commit p dest o junk.

End SourceOutput.

(** ** Observations on outcomes and traces *)

Definition events_of {A} (r : outcome A) : list event :=
  match r with
  | Done _ _ tr => tr
  | Crash _ => []
  end.

Definition is_wake (e : event) : bool :=
  match e with EvSourceNotify _ => true | _ => false end.

Definition is_subscription (e : event) : bool :=
  match e with EvSubscription _ _ => true | _ => false end.

Definition is_changed (e : event) : bool :=
  match e with
  | EvSubscription PA_SUBSCRIPTION_EVENT_CHANGE _ => true
  | _ => false
  end.

Definition is_hook_push (e : event) : bool :=
  match e with EvHookPush _ _ _ => true | _ => false end.

Definition is_resampler_run (e : event) : bool :=
  match e with EvResamplerRun _ _ _ => true | _ => false end.

Definition is_resampler_new (e : event) : bool :=
  match e with EvResamplerNew _ _ _ _ _ _ => true | _ => false end.

Definition is_resampler_failure (e : event) : bool :=
  match e with EvResamplerNew _ _ _ _ _ None => true | _ => false end.

Definition is_resampler_free (e : event) : bool :=
  match e with EvResamplerFree _ => true | _ => false end.

Definition is_teardown (p : ptr) (e : event) : bool :=
  match e with EvXfree q => Pos.eqb q p | _ => false end.

Fixpoint count (f : event -> bool) (tr : list event) : nat :=
  match tr with
  | [] => 0%nat
  | e :: tr' => if f e then S (count f tr') else count f tr'
  end.

(** The world with one source output overwritten. *)
Definition with_output (p : ptr) (o : pa_source_output) (w : world) : world :=
  {| w_core := w_core w; w_sources := w_sources w;
     w_outputs := <[p := o]> (w_outputs w);
     w_resamplers := w_resamplers w; w_next := w_next w |}.

(** A source output that is alive: it sits in the heap, somebody holds a
    reference, and unless it is disconnected it points to a source of
    this world.  An object with no reference left has been freed and is
    no object any more; the third part holds for every output of a
    consistent world (see [consistent] below). *)
Definition live_output (w : world) (p : ptr) (o : pa_source_output) : Prop :=
  w_outputs w !! p = Some o /\
  1 <= so_ref o /\
  (so_state o <> PA_SOURCE_OUTPUT_DISCONNECTED ->
   exists s, so_source o = Some s /\ is_Some (w_sources w !! s)).

(** The state a cork call with flag [b] asks for. *)
Definition corked_state (b : Z) : pa_source_output_state_t :=
  if b =? 0 then PA_SOURCE_OUTPUT_RUNNING else PA_SOURCE_OUTPUT_CORKED.

Section Scenarios.
Context {collab : Collaborators}.

(** A run of cork calls on one output, one flag per call. *)
Fixpoint cork_all (p : ptr) (flags : list Z) : M unit :=
  match flags with
  | [] => ret tt
  | b :: flags' => pa_source_output_cork p b ;;; cork_all p flags'
  end.

End Scenarios.

(** ** A stand-in for the collaborators, to run the code on examples

    Shapes are equal when all their fields are; a shape is valid with 1 to
    32 channels and a positive rate; names are accepted when they are
    ASCII; the stand-in resampler converts rates and formats but cannot
    remix channels, passes chunks through, and reports the method it was
    built with. *)

Fixpoint zlist_eqb (a b : list Z) : bool :=
  match a, b with
  | [], [] => true
  | x :: a', y :: b' => (x =? y) && zlist_eqb a' b'
  | _, _ => false
  end.

Definition sample_spec_eqb (a b : pa_sample_spec) : bool :=
  (ss_format a =? ss_format b) && (ss_rate a =? ss_rate b)
  && (ss_channels a =? ss_channels b).

Definition channel_map_eqb (a b : pa_channel_map) : bool :=
  (cm_channels a =? cm_channels b) && zlist_eqb (cm_map a) (cm_map b).

Fixpoint ascii_only (s : string) : bool :=
  match s with
  | EmptyString => true
  | String c s' => (Ascii.nat_of_ascii c <? 128)%nat && ascii_only s'
  end.

Definition stand_in : Collaborators := {|
  PA_MAX_OUTPUTS_PER_SOURCE := 16;
  PA_RESAMPLER_INVALID := -1;
  pa_sample_spec_valid := fun s =>
    (0 <? ss_rate s) && (0 <? ss_channels s) && (ss_channels s <=? 32);
  pa_sample_spec_equal := sample_spec_eqb;
  pa_channel_map_valid := fun m =>
    (0 <? cm_channels m) && (cm_channels m <=? 32)
    && (Z.of_nat (length (cm_map m)) =? cm_channels m);
  pa_channel_map_equal := channel_map_eqb;
  pa_channel_map_init_auto := fun c =>
    if (0 <? c) && (c <=? 32)
    then Some {| cm_channels := c;
                 cm_map := if c =? 1 then [0] else map Z.of_nat (seq 1 (Z.to_nat c)) |}
    else None;
  pa_utf8_valid := ascii_only;
  resampler_supported := fun a _ b _ _ _ => ss_channels a =? ss_channels b;
  resampler_convert := fun _ chunk => chunk;
  resampler_method := r_method;
  hook_latency := fun _ _ => 0
|}.

Definition stereo : pa_sample_spec :=
  {| ss_format := 3; ss_rate := 44100; ss_channels := 2 |}.
Definition stereo48 : pa_sample_spec :=
  {| ss_format := 3; ss_rate := 48000; ss_channels := 2 |}.
Definition mono : pa_sample_spec :=
  {| ss_format := 3; ss_rate := 44100; ss_channels := 1 |}.
Definition stereo_map : pa_channel_map :=
  {| cm_channels := 2; cm_map := [1; 2] |}.
Definition mono_map : pa_channel_map :=
  {| cm_channels := 1; cm_map := [0] |}.

Definition a_source (idx : N) (ss : pa_sample_spec) (cm : pa_channel_map)
  : pa_source :=
  {| s_index := idx; s_state := PA_SOURCE_RUNNING; s_sample_spec := ss;
     s_channel_map := cm; s_outputs := pa_idxset_empty |}.

(** A core with four sources and no source output yet: sources 1 and 2
    capture 44.1 kHz stereo, source 3 captures mono, source 4 captures
    48 kHz stereo. *)
Definition fresh_world : world :=
  {| w_core := {| c_source_outputs := pa_idxset_empty;
                  c_resample_method := 0; c_memblock_stat := 99%positive |};
     w_sources :=
       <[1%positive := a_source 0 stereo stereo_map]>
       (<[2%positive := a_source 1 stereo stereo_map]>
        (<[3%positive := a_source 2 mono mono_map]>
         (<[4%positive := a_source 3 stereo48 stereo_map]> ∅)));
     w_outputs := ∅;
     w_resamplers := ∅;
     w_next := 100%positive |}.

(** The world a computation leaves behind (the starting one if it
    crashed). *)
Definition world_after {A} (m : M A) (w : world) : world :=
  match m w with
  | Done _ w' _ => w'
  | Crash _ => w
  end.

(** What client code does right after creating an output: install the
    delivery hook. *)
Definition install_push (p : ptr) (h : ptr) : M unit :=
  fun w =>
    match w_outputs w !! p with
    | Some o =>
        Done tt
          (with_output p
             {| so_ref := so_ref o; so_index := so_index o;
                so_state := so_state o; so_name := so_name o;
                so_driver := so_driver o; so_owner := so_owner o;
                so_source := so_source o; so_client := so_client o;
                so_sample_spec := so_sample_spec o;
                so_channel_map := so_channel_map o;
                so_push := Some h; so_kill := so_kill o;
                so_get_latency := so_get_latency o;
                so_userdata := so_userdata o;
                so_resampler := so_resampler o;
                so_resample_method := so_resample_method o |} w) []
    | None => Crash DanglingPointer
    end.

(** ** What a completed move leaves behind *)

Definition moved_world (p dest origin : ptr) (o : pa_source_output)
    (og d : pa_source) (nr : option ptr) (w : world) : world :=
  {| w_core := w_core w;
     w_sources :=
       <[dest := set_outputs (snd (pa_idxset_put (s_outputs d) p)) d]>
         (<[origin := set_outputs (pa_idxset_remove_by_data (s_outputs og) p) og]>
            (w_sources w));
     w_outputs :=
       <[p := set_resampler nr (set_source (Some dest) o)]> (w_outputs w);
     w_resamplers :=
       if ptr_eqb nr (so_resampler o) then w_resamplers w
       else match so_resampler o with
            | Some r => delete r (w_resamplers w)
            | None => w_resamplers w
            end;
     w_next := w_next w |}.

Definition moved_trace (dest : ptr) (o : pa_source_output) (nr : option ptr)
  : list event :=
  (if ptr_eqb nr (so_resampler o) then []
   else match so_resampler o with
        | Some r => [EvResamplerFree r]
        | None => []
        end)
  ++ [EvSubscription PA_SUBSCRIPTION_EVENT_CHANGE (so_index o);
      EvSourceNotify dest].

(** Membership of an output in the member set of a source of the world. *)
Definition member_of (w : world) (s : ptr) (p : ptr) : bool :=
  match w_sources w !! s with
  | Some src => pa_idxset_contains (s_outputs src) p
  | None => false
  end.

Definition in_registry (w : world) (p : ptr) : bool :=
  pa_idxset_contains (c_source_outputs (w_core w)) p.

(** A computation in whose traces no event of the kind [f] ever shows. *)
Definition quiet {A} (f : event -> bool) (m : M A) : Prop :=
  forall w, count f (events_of (m w)) = 0%nat.

(** ** What a successful Create leaves behind *)

(** The world [w] with the object [obj] placed at the next free address
    and entered in the registry and in the member set of its source. *)
Definition created_world (s : ptr) (src : pa_source) (obj : pa_source_output)
    (w : world) : world :=
  {| w_core :=
       set_source_outputs
         (snd (pa_idxset_put (c_source_outputs (w_core w)) (w_next w)))
         (w_core w);
     w_sources :=
       <[s := set_outputs (snd (pa_idxset_put (s_outputs src) (w_next w))) src]>
         (w_sources w);
     w_outputs := <[w_next w := obj]> (w_outputs w);
     w_resamplers := w_resamplers w;
     w_next := Pos.succ (w_next w) |}.

(** The key under which a member set holds an output. *)
Definition member_index (w : world) (s : ptr) (p : ptr) : option N :=
  match w_sources w !! s with
  | Some src => pa_idxset_get_index (s_outputs src) p
  | None => None
  end.

(** The key under which the registry holds an output. *)
Definition registry_index (w : world) (p : ptr) : option N :=
  pa_idxset_get_index (c_source_outputs (w_core w)) p.

(** ** Consistency of the two collections with the objects

    An attached output is in the registry and in the member set of its
    source; a detached one is in neither; the member sets and the registry
    hold nothing else; "disconnected" and "has no source" go together. *)
Record consistent (w : world) : Prop := {
  cons_attached : forall p o s,
    w_outputs w !! p = Some o -> so_source o = Some s ->
    is_Some (w_sources w !! s) /\
    in_registry w p = true /\ member_of w s p = true;
  cons_detached : forall p o,
    w_outputs w !! p = Some o -> so_source o = None ->
    in_registry w p = false;
  cons_members : forall s p,
    member_of w s p = true ->
    exists o, w_outputs w !! p = Some o /\ so_source o = Some s;
  cons_registry : forall p,
    in_registry w p = true -> is_Some (w_outputs w !! p);
  cons_state : forall p o,
    w_outputs w !! p = Some o ->
    (so_state o = PA_SOURCE_OUTPUT_DISCONNECTED <-> so_source o = None);
  cons_fresh : forall p,
    is_Some (w_outputs w !! p) -> (p < w_next w)%positive
}.

(** Two worlds with the same core, sources and source outputs (they may
    differ in their stages), the second having allocated at least as much
    as the first. *)
Definition same_membership (w w' : world) : Prop :=
  w_core w' = w_core w /\ w_sources w' = w_sources w /\
  w_outputs w' = w_outputs w /\ (w_next w <= w_next w')%positive.

(** The world after [pa_source_output_disconnect] of the output [o] at
    [p], attached to the source [src] at [s]. *)
Definition disconnected_world (p s : ptr) (src : pa_source)
    (o : pa_source_output) (w : world) : world :=
  {| w_core :=
       set_source_outputs
         (pa_idxset_remove_by_data (c_source_outputs (w_core w)) p) (w_core w);
     w_sources :=
       <[s := set_outputs (pa_idxset_remove_by_data (s_outputs src) p) src]>
         (w_sources w);
     w_outputs :=
       <[p := set_state PA_SOURCE_OUTPUT_DISCONNECTED
                (clear_hooks (set_source None o))]> (w_outputs w);
     w_resamplers := w_resamplers w;
     w_next := w_next w |}.

(** The world with the storage of the output at [p] released. *)
Definition without_output (p : ptr) (w : world) : world :=
  {| w_core := w_core w; w_sources := w_sources w;
     w_outputs := delete p (w_outputs w);
     w_resamplers := w_resamplers w; w_next := w_next w |}.

(** The world with the stage at [r] released. *)
Definition without_stage (r : ptr) (w : world) : world :=
  {| w_core := w_core w; w_sources := w_sources w;
     w_outputs := w_outputs w;
     w_resamplers := delete r (w_resamplers w); w_next := w_next w |}.

(** What a teardown of the output [o] at [p] shows to the outside: the
    removal notice of the disconnect, if the output was still connected;
    the log line; the release of the stage, if there is one; the release
    of the name and of the driver string; the release of the object. *)
Definition teardown_trace (p : ptr) (o : pa_source_output) : list event :=
  (if output_state_eqb (so_state o) PA_SOURCE_OUTPUT_DISCONNECTED then []
   else [EvSubscription PA_SUBSCRIPTION_EVENT_REMOVE (so_index o)])
  ++ [EvLog LOG_INFO msg_freed]
  ++ match so_resampler o with
     | Some r => [EvResamplerFree r]
     | None => []
     end
  ++ [EvXfreeString (Some (so_name o)); EvXfreeString (so_driver o);
      EvXfree p].

(** ** The calls a client can make *)

Inductive call :=
| CallNew (s : ptr) (driver : option string) (name : string)
    (spec : pa_sample_spec) (map : option pa_channel_map) (resample_method : Z)
| CallDisconnect (p : ptr)
| CallUnref (p : ptr)
| CallRef (p : ptr)
| CallKill (p : ptr)
| CallPush (p : ptr) (chunk : pa_memchunk)
| CallSetName (p : ptr) (name : string)
| CallGetLatency (p : ptr)
| CallCork (p : ptr) (b : Z)
| CallGetResampleMethod (p : ptr)
| CallMoveTo (p dest : ptr) (junk : option ptr).

Section Calls.
Context {collab : Collaborators}.

Definition run_call (c : call) : M unit :=
  match c with
  | CallNew s driver name spec map m =>
      _ <- pa_source_output_new s driver name spec map m ;; ret tt
  | CallDisconnect p => pa_source_output_disconnect p
  | CallUnref p => pa_source_output_unref p
  | CallRef p => _ <- pa_source_output_ref p ;; ret tt
  | CallKill p => pa_source_output_kill p
  | CallPush p chunk => pa_source_output_push p chunk
  | CallSetName p name => pa_source_output_set_name p name
  | CallGetLatency p => _ <- pa_source_output_get_latency p ;; ret tt
  | CallCork p b => pa_source_output_cork p b
  | CallGetResampleMethod p =>
      _ <- pa_source_output_get_resample_method p ;; ret tt
  | CallMoveTo p dest junk => _ <- pa_source_output_move_to p dest junk ;; ret tt
  end.

Fixpoint run_calls (cs : list call) : M unit :=
  match cs with
  | [] => ret tt
  | c :: cs' => run_call c ;;; run_calls cs'
  end.

End Calls.

(** ** Example worlds, built by running the code on [fresh_world] *)

Definition blank_output : pa_source_output :=
  {| so_ref := 0; so_index := 0%N; so_state := PA_SOURCE_OUTPUT_DISCONNECTED;
     so_name := EmptyString; so_driver := None; so_owner := None;
     so_source := None; so_client := None;
     so_sample_spec := mono; so_channel_map := mono_map;
     so_push := None; so_kill := None; so_get_latency := None;
     so_userdata := None; so_resampler := None; so_resample_method := 0 |}.

(** The object a pointer refers to (a blank one if it dangles). *)
Definition output_at (p : ptr) (w : world) : pa_source_output :=
  match w_outputs w !! p with
  | Some o => o
  | None => blank_output
  end.

Definition source_at (s : ptr) (w : world) : pa_source :=
  match w_sources w !! s with
  | Some src => src
  | None => a_source 0 mono mono_map
  end.

(** [n] plain stereo outputs created on source [s], one after the other. *)
Fixpoint fill_source (n : nat) (s : ptr) : M unit :=
  match n with
  | O => ret tt
  | S n' =>
      _ <- pa_source_output_new (collab := stand_in) s None "filler" stereo
             (Some stereo_map) (-1) ;;
      fill_source n' s
  end.

(** One stereo recorder on source 1: the output is object 100 and needs no
    stage. *)
Definition studio : world :=
  world_after
    (pa_source_output_new (collab := stand_in) 1%positive None "rec" stereo
       None (-1))
    fresh_world.

(** The same with the delivery hook 7 installed. *)
Definition studio_hooked : world :=
  world_after (install_push 100%positive 7%positive) studio.

(** The same, corked. *)
Definition studio_corked : world :=
  world_after (pa_source_output_cork 100%positive 1)
    studio_hooked.

(** The recorder of [studio] after a disconnect; its only reference is
    still held. *)
Definition studio_unplugged : world :=
  world_after (pa_source_output_disconnect 100%positive)
    studio.

(** [studio] with sixteen more outputs on source 2, which is then full. *)
Definition studio_crowded : world :=
  world_after (fill_source 16 2%positive) studio.

(** [studio] with a second recorder, on source 2: object 101. *)
Definition two_studios : world :=
  world_after
    (pa_source_output_new (collab := stand_in) 2%positive None "rec2" stereo
       None (-1))
    studio.

(** [studio] with its recorder corked, no hook installed. *)
Definition studio_corked_plain : world :=
  world_after (pa_source_output_cork 100%positive 1) studio.

(** One 48 kHz recorder on the 44.1 kHz source 1: the stage is object 100,
    the output object 101. *)
Definition resampled : world :=
  world_after
    (pa_source_output_new (collab := stand_in) 1%positive None "rec48"
       stereo48 (Some stereo_map) (-1))
    fresh_world.

(** [resampled] with sixteen more outputs on source 2. *)
Definition resampled_crowded : world :=
  world_after (fill_source 16 2%positive) resampled.

Definition a_chunk : pa_memchunk :=
  {| mc_memblock := Some [Byte.x01; Byte.x02; Byte.x03; Byte.x04];
     mc_index := 0; mc_length := 4 |}.

(** ** Create, in terms of its arguments *)

Section CreateArguments.
Context {collab : Collaborators}.

(** The channel map Create works with: the one it is given or, when it is
    given none, the default layout for the channel count of the spec. *)
Definition create_map (spec : pa_sample_spec) (map : option pa_channel_map)
  : option pa_channel_map :=
  match map with
  | Some m => Some m
  | None => pa_channel_map_init_auto (ss_channels spec)
  end.

(** The five CHECK_VALIDITY_RETURN_NULL tests of Create, in their order. *)
Definition create_arguments_ok (spec : pa_sample_spec)
    (map : option pa_channel_map) (driver : option string) (name : string)
  : bool :=
  pa_sample_spec_valid spec
  && match create_map spec map with
     | None => false
     | Some cm =>
         pa_channel_map_valid cm
         && (cm_channels cm =? ss_channels spec)
         && match driver with None => true | Some d => pa_utf8_valid d end
         && pa_utf8_valid name
     end.

(** The resample method Create settles on. *)
Definition create_method (m : Z) (w : world) : Z :=
  if m =? PA_RESAMPLER_INVALID then c_resample_method (w_core w) else m.

(** No source holds more outputs than the ceiling allows. *)
Definition within_capacity (w : world) : Prop :=
  forall s src,
    w_sources w !! s = Some src ->
    (pa_idxset_size (s_outputs src) <= PA_MAX_OUTPUTS_PER_SOURCE)%nat.

End CreateArguments.

(** The object Create allocates. *)
Definition new_object (s : ptr) (driver : option string) (name : string)
    (spec : pa_sample_spec) (cm : pa_channel_map) (method : Z)
    (resampler : option ptr) (idx : N) : pa_source_output :=
  {| so_ref := 1; so_index := idx;
     so_state := PA_SOURCE_OUTPUT_RUNNING;
     so_name := name; so_driver := driver; so_owner := None;
     so_source := Some s; so_client := None;
     so_sample_spec := spec; so_channel_map := cm;
     so_push := None; so_kill := None; so_get_latency := None;
     so_userdata := None;
     so_resampler := resampler;
     so_resample_method := method |}.

(** The stage the factory builds. *)
Definition new_stage (a : pa_sample_spec) (am : pa_channel_map)
    (b : pa_sample_spec) (bm : pa_channel_map) (method : Z) : pa_resampler :=
  {| r_i_ss := a; r_i_cm := am; r_o_ss := b; r_o_cm := bm;
     r_method := method; r_fed := [] |}.

(** The world with the stage [v] placed at the next free address. *)
Definition staged_world (v : pa_resampler) (w : world) : world :=
  {| w_core := w_core w; w_sources := w_sources w;
     w_outputs := w_outputs w;
     w_resamplers := <[w_next w := v]> (w_resamplers w);
     w_next := Pos.succ (w_next w) |}.

(** The world after the stage [v] at [r] has been run on [chunk]. *)
Definition fed_world (r : ptr) (v : pa_resampler) (chunk : pa_memchunk)
    (w : world) : world :=
  {| w_core := w_core w; w_sources := w_sources w;
     w_outputs := w_outputs w;
     w_resamplers :=
       <[r := {| r_i_ss := r_i_ss v; r_i_cm := r_i_cm v;
                 r_o_ss := r_o_ss v; r_o_cm := r_o_cm v;
                 r_method := r_method v;
                 r_fed := r_fed v ++ [chunk] |}]> (w_resamplers w);
     w_next := w_next w |}.

(** What stays of a source output as long as it lives: the index the
    registry gave it, its shape, its resample method, its driver tag and
    its owner, client and user data. *)
Definition same_identity (o o' : pa_source_output) : Prop :=
  so_index o' = so_index o /\
  so_sample_spec o' = so_sample_spec o /\
  so_channel_map o' = so_channel_map o /\
  so_resample_method o' = so_resample_method o /\
  so_driver o' = so_driver o /\
  so_owner o' = so_owner o /\
  so_client o' = so_client o /\
  so_userdata o' = so_userdata o.

(** Two output records that differ in their source and stage at most. *)
Definition same_but_source_and_stage (o o' : pa_source_output) : Prop :=
  same_identity o o' /\
  so_ref o' = so_ref o /\ so_state o' = so_state o /\
  so_name o' = so_name o /\
  so_push o' = so_push o /\ so_kill o' = so_kill o /\
  so_get_latency o' = so_get_latency o.

Definition is_removed (e : event) : bool :=
  match e with
  | EvSubscription PA_SUBSCRIPTION_EVENT_REMOVE _ => true
  | _ => false
  end.

(** The world after the teardown of the output at [p]: out of both
    collections if it was still attached to [s], its stage [rs] and its own
    storage released. *)
Definition torn_down_world (p : ptr) (attached : option (ptr * pa_source))
    (rs : option ptr) (w : world) : world :=
  {| w_core :=
       match attached with
       | Some _ =>
           set_source_outputs
             (pa_idxset_remove_by_data (c_source_outputs (w_core w)) p)
             (w_core w)
       | None => w_core w
       end;
     w_sources :=
       match attached with
       | Some (s, src) =>
           <[s := set_outputs (pa_idxset_remove_by_data (s_outputs src) p) src]>
             (w_sources w)
       | None => w_sources w
       end;
     w_outputs := delete p (w_outputs w);
     w_resamplers :=
       match rs with
       | Some r => delete r (w_resamplers w)
       | None => w_resamplers w
       end;
     w_next := w_next w |}.

(** ** Elementary changes of the world

    Every call that returns has changed the world by a short chain of
    these steps. *)
Section Changes.
Context {collab : Collaborators}.

Inductive change : world -> world -> Prop :=
| change_stages w w' :
    same_membership w w' -> change w w'
| change_field w q o o' :
    w_outputs w !! q = Some o ->
    same_identity o o' ->
    so_source o' = so_source o ->
    (so_state o' = PA_SOURCE_OUTPUT_DISCONNECTED <->
     so_state o = PA_SOURCE_OUTPUT_DISCONNECTED) ->
    change w (with_output q o' w)
| change_create w s src obj :
    w_sources w !! s = Some src ->
    (pa_idxset_size (s_outputs src) < PA_MAX_OUTPUTS_PER_SOURCE)%nat ->
    so_source obj = Some s ->
    so_state obj = PA_SOURCE_OUTPUT_RUNNING ->
    change w (created_world s src obj w)
| change_disconnect w q s src o :
    w_outputs w !! q = Some o ->
    so_source o = Some s ->
    w_sources w !! s = Some src ->
    change w (disconnected_world q s src o w)
| change_release w q o :
    w_outputs w !! q = Some o ->
    so_source o = None ->
    change w (without_output q w)
| change_move w p dest origin o og d nr :
    w_outputs w !! p = Some o ->
    so_source o = Some origin ->
    origin <> dest ->
    w_sources w !! origin = Some og ->
    w_sources w !! dest = Some d ->
    (pa_idxset_size (s_outputs d) < PA_MAX_OUTPUTS_PER_SOURCE)%nat ->
    change w (moved_world p dest origin o og d nr w).

Inductive changes : world -> world -> Prop :=
| changes_none w : changes w w
| changes_step w w1 w2 : change w w1 -> changes w1 w2 -> changes w w2.

End Changes.

(** ** More example worlds *)

(** [studio_crowded] with its recorder disconnected, the reference still
    held. *)
Definition studio_crowded_unplugged : world :=
  world_after (pa_source_output_disconnect 100%positive) studio_crowded.

(** [studio] after 2147483646 further holders have taken a reference to
    its recorder: the count is at INT_MAX. *)
Definition studio_saturated : world :=
  with_output 100%positive
    (set_ref INT_MAX (output_at 100%positive studio)) studio.

(** [resampled] with the delivery hook 7 installed on its recorder. *)
Definition resampled_hooked : world :=
  world_after (install_push 101%positive 7%positive) resampled.

(** The stage a pointer refers to (a stereo pass-through if it dangles). *)
Definition stage_at (r : ptr) (w : world) : pa_resampler :=
  match w_resamplers w !! r with
  | Some v => v
  | None =>
      {| r_i_ss := stereo; r_i_cm := stereo_map;
         r_o_ss := stereo; r_o_cm := stereo_map;
         r_method := 0; r_fed := [] |}
  end.

(** * Properties *)

Lemma count_app f (a b : list event) :
  count f (a ++ b) = (count f a + count f b)%nat.
Proof.
  induction a as [|e a IH]; simpl; [reflexivity|].
  destruct (f e); rewrite IH; reflexivity.
Qed.

Lemma with_output_lookup p o w : w_outputs (with_output p o w) !! p = Some o.
Proof. simpl. apply lookup_insert_eq. Qed.

Lemma with_output_twice p o o' w :
  with_output p o' (with_output p o w) = with_output p o' w.
Proof. unfold with_output; simpl. f_equal. apply insert_insert_eq. Qed.

Section DataFlow.
Context {collab : Collaborators}.

(** C5.  A running source output without a resampling stage hands the
    chunk it is pushed to its delivery hook: one hook call, carrying the
    very chunk that came in, and nothing else happens. *)
Theorem push_running_plain_delivers_once
    (w : world) (p : ptr) (o : pa_source_output) (h : ptr)
    (chunk : pa_memchunk) :
  w_outputs w !! p = Some o ->
  so_state o = PA_SOURCE_OUTPUT_RUNNING ->
  so_resampler o = None ->
  so_push o = Some h ->
  mc_length chunk <> 0 ->
  pa_source_output_push p chunk w = Done tt w [EvHookPush h p chunk].
Proof.
  intros Hl Hs Hr Hp Hc.
  unfold pa_source_output_push, bind, load_output.
  rewrite Hl, Hs, Hr, Hp.
  apply Z.eqb_neq in Hc. rewrite Hc. reflexivity.
Qed.

(** C4.  A corked source output drops every non-empty chunk: no call of
    the delivery hook and no run of the resampler appears in the trace of
    the push, whatever the output looks like otherwise; and with the
    hook that Push asserts to be configured, the call returns normally,
    leaves the whole world as it was (the stage included) and logs
    nothing. *)
Theorem push_corked_drops
    (w : world) (p : ptr) (o : pa_source_output) (chunk : pa_memchunk) :
  w_outputs w !! p = Some o ->
  so_state o = PA_SOURCE_OUTPUT_CORKED ->
  mc_length chunk <> 0 ->
  count is_hook_push (events_of (pa_source_output_push p chunk w)) = 0%nat /\
  count is_resampler_run (events_of (pa_source_output_push p chunk w)) = 0%nat /\
  (so_push o <> None ->
   pa_source_output_push p chunk w = Done tt w []).
Proof.
  intros Hl Hs Hc.
  unfold pa_source_output_push, bind, load_output.
  rewrite Hl, Hs.
  apply Z.eqb_neq in Hc. rewrite Hc.
  destruct (so_push o) as [h|]; simpl; repeat split; try reflexivity.
  intros Hn. now contradiction Hn.
Qed.

End DataFlow.

Section Corking.
Context {collab : Collaborators}.

Lemma live_output_set_state w p o st :
  live_output w p o ->
  so_state o <> PA_SOURCE_OUTPUT_DISCONNECTED ->
  live_output (with_output p (set_state st o) w) p (set_state st o).
Proof.
  intros (Hl & Href & Hsrc) Hst. repeat split.
  - apply with_output_lookup.
  - exact Href.
  - intros _. simpl. exact (Hsrc Hst).
Qed.

(** What one cork call does to a live output that is not disconnected. *)
Lemma cork_run w p o b :
  live_output w p o ->
  so_state o <> PA_SOURCE_OUTPUT_DISCONNECTED ->
  exists s, so_source o = Some s /\
  pa_source_output_cork p b w =
    Done tt (with_output p (set_state (corked_state b) o) w)
         (if output_state_eqb (so_state o) PA_SOURCE_OUTPUT_CORKED && (b =? 0)
          then [EvSourceNotify s] else []).
Proof.
  intros (Hl & Href & Hsrc) Hst.
  destruct (Hsrc Hst) as (s & Hs & [src Hsrc']).
  exists s. split; [exact Hs|].
  unfold pa_source_output_cork, bind, load_output.
  rewrite Hl.
  apply Z.leb_le in Href. rewrite Href. simpl.
  destruct (so_state o) eqn:Est; try congruence; simpl.
  - reflexivity.
  - destruct (b =? 0) eqn:Eb; simpl.
    + unfold pa_source_notify, bind, load_source. rewrite Hs. simpl.
      rewrite Hsrc'. simpl. unfold corked_state. rewrite Eb. reflexivity.
    + unfold corked_state. rewrite Eb. reflexivity.
Qed.

Lemma cork_all_uncorked_quiet n : forall w p o,
  live_output w p o ->
  so_state o = PA_SOURCE_OUTPUT_RUNNING ->
  pa_source_output_cork p 0 w = Done tt (with_output p o w) [] /\
  exists w', cork_all p (repeat 0 n) w = Done tt w' [].
Proof.
  induction n as [|n IH]; intros w p o Hlive Hst.
  - destruct (cork_run w p o 0 Hlive) as (s & _ & Hrun); [congruence|].
    rewrite Hst in Hrun. simpl in Hrun.
    assert (Ho : set_state (corked_state 0) o = o).
    { destruct o; simpl in *; subst; reflexivity. }
    rewrite Ho in Hrun. split; [exact Hrun|]. exists w. reflexivity.
  - destruct (IH w p o Hlive Hst) as (Hone & _).
    split; [exact Hone|].
    assert (Hlive' : live_output (with_output p o w) p o).
    { destruct Hlive as (Hl & Href & Hsrc). repeat split; auto.
      apply with_output_lookup. }
    destruct (IH _ p o Hlive' Hst) as (_ & w' & Hrest).
    exists w'. simpl. unfold bind. rewrite Hone, Hrest. reflexivity.
Qed.

(** C3.  On a live source output that is not disconnected, a cork call
    wakes the source once if the output was corked and the flag is false,
    and not at all otherwise.  Hence a cork followed by an uncork wakes
    the source exactly once, in the uncork; and any number of further
    uncork calls, or of uncork calls on a running output, wake nobody. *)
Theorem cork_wakes_on_uncork_edge_only
    (w : world) (p : ptr) (o : pa_source_output) :
  live_output w p o ->
  so_state o <> PA_SOURCE_OUTPUT_DISCONNECTED ->
  (forall b,
     (exists w', pa_source_output_cork p b w = Done tt w' (events_of (pa_source_output_cork p b w))) /\
     (so_state o = PA_SOURCE_OUTPUT_CORKED /\ b = 0 ->
      count is_wake (events_of (pa_source_output_cork p b w)) = 1%nat) /\
     (~ (so_state o = PA_SOURCE_OUTPUT_CORKED /\ b = 0) ->
      count is_wake (events_of (pa_source_output_cork p b w)) = 0%nat)) /\
  (forall b, b <> 0 ->
     count is_wake (events_of (pa_source_output_cork p b w)) = 0%nat /\
     count is_wake (events_of (cork_all p [b; 0] w)) = 1%nat) /\
  (forall b n, b <> 0 ->
     count is_wake (events_of (cork_all p (b :: 0 :: repeat 0 n) w)) = 1%nat) /\
  (forall n, so_state o = PA_SOURCE_OUTPUT_RUNNING ->
     count is_wake (events_of (cork_all p (repeat 0 n) w)) = 0%nat).
Proof.
  intros Hlive Hst.
  assert (Hone : forall b,
    (so_state o = PA_SOURCE_OUTPUT_CORKED /\ b = 0 ->
      count is_wake (events_of (pa_source_output_cork p b w)) = 1%nat) /\
    (~ (so_state o = PA_SOURCE_OUTPUT_CORKED /\ b = 0) ->
      count is_wake (events_of (pa_source_output_cork p b w)) = 0%nat)).
  { intros b. destruct (cork_run w p o b Hlive Hst) as (s & _ & Hrun).
    rewrite Hrun. simpl. split.
    - intros [-> ->]. reflexivity.
    - intros Hn. destruct (so_state o) eqn:Est; simpl; try reflexivity.
      destruct (Z.eqb_spec b 0); simpl; [|reflexivity].
      exfalso. apply Hn. split; [reflexivity|assumption]. }
  (* the state after cork(b); cork(0) *)
  assert (Htwo : forall b, b <> 0 -> exists s w2,
    pa_source_output_cork p b w =
      Done tt (with_output p (set_state PA_SOURCE_OUTPUT_CORKED o) w) [] /\
    pa_source_output_cork p 0
      (with_output p (set_state PA_SOURCE_OUTPUT_CORKED o) w) =
      Done tt w2 [EvSourceNotify s] /\
    live_output w2 p (set_state PA_SOURCE_OUTPUT_RUNNING o) /\
    w2 = with_output p (set_state PA_SOURCE_OUTPUT_RUNNING o) w).
  { intros b Hb.
    destruct (cork_run w p o b Hlive Hst) as (s & Hs & Hrun).
    assert (Eb : (b =? 0) = false) by (apply Z.eqb_neq; exact Hb).
    unfold corked_state in Hrun. rewrite Eb, andb_false_r in Hrun.
    pose proof (live_output_set_state w p o PA_SOURCE_OUTPUT_CORKED Hlive Hst)
      as Hlive1.
    destruct (cork_run _ p _ 0 Hlive1) as (s1 & Hs1 & Hrun1);
      [simpl; congruence|].
    simpl in Hs1. assert (s1 = s) by congruence. subst s1.
    simpl in Hrun1. rewrite with_output_twice in Hrun1.
    exists s, (with_output p (set_state PA_SOURCE_OUTPUT_RUNNING o) w).
    repeat split.
    - exact Hrun.
    - exact Hrun1.
    - apply with_output_lookup.
    - destruct Hlive as (_ & Href & _). exact Href.
    - intros _. destruct Hlive as (_ & _ & Hsrc). exact (Hsrc Hst). }
  split; [intros b; split; [|apply Hone]|].
  { destruct (cork_run w p o b Hlive Hst) as (s & _ & Hrun).
    rewrite Hrun. simpl. eexists. reflexivity. }
  split; [intros b Hb; split|split; [intros b n Hb|intros n Hrun]].
  - apply Hone. intros [_ ?]. contradiction.
  - destruct (Htwo b Hb) as (s & w2 & H1 & H2 & _).
    simpl. unfold bind. rewrite H1, H2. reflexivity.
  - destruct (Htwo b Hb) as (s & w2 & H1 & H2 & Hlive2 & _).
    destruct (cork_all_uncorked_quiet n w2 p _ Hlive2 eq_refl)
      as (_ & w3 & Hrest).
    change (cork_all p (b :: 0 :: repeat 0 n)) with
      (pa_source_output_cork p b ;;; pa_source_output_cork p 0 ;;;
       cork_all p (repeat 0 n)).
    unfold bind. rewrite H1, H2, Hrest. reflexivity.
  - destruct (cork_all_uncorked_quiet n w p o Hlive Hrun) as (_ & w' & Hrest).
    rewrite Hrest. reflexivity.
Qed.

End Corking.

(** ** Index sets *)

Lemma ptr_eqb_refl a : ptr_eqb a a = true.
Proof. destruct a; simpl; [apply Pos.eqb_refl|reflexivity]. Qed.

Lemma ptr_eqb_true a b : ptr_eqb a b = true -> a = b.
Proof.
  destruct a, b; simpl; try congruence.
  intros H. apply Pos.eqb_eq in H. congruence.
Qed.

Lemma ptr_eqb_false a b : ptr_eqb a b = false -> a <> b.
Proof. intros H ->. rewrite ptr_eqb_refl in H. discriminate. Qed.

Lemma ix_find_drop_same p l : ix_find p (ix_drop p l) = None.
Proof.
  induction l as [|[k q] l IH]; simpl; [reflexivity|].
  destruct (Pos.eqb q p) eqn:E; [exact IH|]. simpl. rewrite E. exact IH.
Qed.

Lemma ix_find_drop_other p q l :
  q <> p -> ix_find q (ix_drop p l) = ix_find q l.
Proof.
  intros Hne. induction l as [|[k r] l IH]; simpl; [reflexivity|].
  destruct (Pos.eqb r p) eqn:E.
  - apply Pos.eqb_eq in E. subst r.
    destruct (Pos.eqb p q) eqn:E'; [apply Pos.eqb_eq in E'; congruence|].
    exact IH.
  - simpl. destruct (Pos.eqb r q); [reflexivity|exact IH].
Qed.

Lemma ix_find_app p l l' :
  ix_find p (l ++ l') =
  match ix_find p l with Some k => Some k | None => ix_find p l' end.
Proof.
  induction l as [|[k q] l IH]; simpl; [reflexivity|].
  destruct (Pos.eqb q p); [reflexivity|exact IH].
Qed.

Lemma contains_remove_same s p :
  pa_idxset_contains (pa_idxset_remove_by_data s p) p = false.
Proof.
  unfold pa_idxset_contains, pa_idxset_get_index. simpl.
  now rewrite ix_find_drop_same.
Qed.

Lemma contains_remove_other s p q :
  q <> p ->
  pa_idxset_contains (pa_idxset_remove_by_data s p) q = pa_idxset_contains s q.
Proof.
  intros Hne. unfold pa_idxset_contains, pa_idxset_get_index. simpl.
  now rewrite ix_find_drop_other.
Qed.

Lemma contains_put_same s p :
  pa_idxset_contains (snd (pa_idxset_put s p)) p = true.
Proof.
  unfold pa_idxset_put, pa_idxset_contains, pa_idxset_get_index.
  destruct (ix_find p (ix_entries s)) eqn:E; simpl.
  - now rewrite E.
  - rewrite ix_find_app, E. simpl. now rewrite Pos.eqb_refl.
Qed.

Lemma contains_put_other s p q :
  q <> p ->
  pa_idxset_contains (snd (pa_idxset_put s p)) q = pa_idxset_contains s q.
Proof.
  intros Hne.
  unfold pa_idxset_put, pa_idxset_contains, pa_idxset_get_index.
  destruct (ix_find p (ix_entries s)) eqn:E; simpl; [reflexivity|].
  rewrite ix_find_app. simpl.
  destruct (Pos.eqb p q) eqn:E'; [apply Pos.eqb_eq in E'; congruence|].
  now destruct (ix_find q (ix_entries s)).
Qed.

Section Moving.
Context {collab : Collaborators}.

Lemma set_resampler_same o x :
  set_resampler (so_resampler o) (set_source x o) = set_source x o.
Proof. reflexivity. Qed.

(** The tail of a move, run on an output attached to [origin]. *)
Lemma move_to_commit_run w p dest origin o og d nr :
  so_source o = Some origin ->
  origin <> dest ->
  w_sources w !! origin = Some og ->
  w_sources w !! dest = Some d ->
  (ptr_eqb nr (so_resampler o) = false ->
   forall r, so_resampler o = Some r -> is_Some (w_resamplers w !! r)) ->
  move_to_commit p dest o nr w =
    Done 0 (moved_world p dest origin o og d nr w) (moved_trace dest o nr).
Proof.
  intros Hsrc Hne Hog Hd Hown.
  unfold move_to_commit, bind. rewrite Hsrc. simpl.
  unfold load_source at 1. rewrite Hog. simpl.
  unfold load_source at 1. simpl. rewrite lookup_insert_ne, Hd by assumption.
  simpl.
  unfold moved_world, moved_trace.
  destruct (ptr_eqb nr (so_resampler o)) eqn:E; simpl.
  - unfold pa_source_notify, bind. simpl. unfold load_source. simpl.
    rewrite lookup_insert_eq. simpl.
    apply ptr_eqb_true in E. subst nr. reflexivity.
  - destruct (so_resampler o) as [r|] eqn:Er.
    + destruct (Hown eq_refl r eq_refl) as [v Hv].
      unfold pa_resampler_free, bind, load_resampler. simpl. rewrite Hv. simpl.
      unfold pa_source_notify, bind. simpl. unfold load_source. simpl.
      rewrite lookup_insert_eq. simpl.
      rewrite insert_insert_eq. reflexivity.
    + simpl. unfold pa_source_notify, bind. simpl. unfold load_source. simpl.
      rewrite lookup_insert_eq. simpl.
      rewrite insert_insert_eq. reflexivity.
Qed.

End Moving.

Lemma count_zero_not_in f e (tr : list event) :
  count f tr = 0%nat -> f e = true -> ~ In e tr.
Proof.
  induction tr as [|x tr IH]; simpl; intros Hc He Hin; [exact Hin|].
  destruct Hin as [->|Hin].
  - rewrite He in Hc. discriminate.
  - destruct (f x); [discriminate|]. exact (IH Hc He Hin).
Qed.

Section MovingOn.
Context {collab : Collaborators}.

(** A step that changes nothing and emits nothing can be skipped. *)
Lemma bind_pure {A B} (m : M A) (k : A -> M B) (w : world) (a : A) :
  m w = Done a w [] -> bind m k w = k a w.
Proof.
  intros H. unfold bind. rewrite H. now destruct (k a w).
Qed.

Lemma bind_crash {A B} (m : M A) (k : A -> M B) (w : world) (f : fault) :
  m w = Crash f -> bind m k w = Crash f.
Proof. intros H. unfold bind. now rewrite H. Qed.

Lemma quiet_ret {A} f (a : A) : quiet f (ret a).
Proof. intros w. reflexivity. Qed.

Lemma quiet_crash {A} f x : quiet f (@crash A x).
Proof. intros w. reflexivity. Qed.

Lemma quiet_bind {A B} f (m : M A) (k : A -> M B) :
  quiet f m -> (forall a, quiet f (k a)) -> quiet f (bind m k).
Proof.
  intros Hm Hk w. unfold bind.
  specialize (Hm w). destruct (m w) as [a w1 t1|x]; [|reflexivity].
  specialize (Hk a w1). destruct (k a w1) as [b w2 t2|x]; [|reflexivity].
  simpl in *. rewrite count_app, Hm, Hk. reflexivity.
Qed.

Lemma quiet_emit f e : f e = false -> quiet f (emit e).
Proof. intros He w. simpl. now rewrite He. Qed.

Lemma quiet_deref {A} f (x : option A) : quiet f (deref x).
Proof. destruct x; [apply quiet_ret|apply quiet_crash]. Qed.

Lemma quiet_load_source f s : quiet f (load_source s).
Proof. intros w. unfold load_source. now destruct (w_sources w !! s). Qed.

Lemma quiet_load_output f p : quiet f (load_output p).
Proof. intros w. unfold load_output. now destruct (w_outputs w !! p). Qed.

Lemma quiet_store_source f s v : quiet f (store_source s v).
Proof. intros w. reflexivity. Qed.

Lemma quiet_store_output f p v : quiet f (store_output p v).
Proof. intros w. reflexivity. Qed.

Lemma quiet_source_notify f s :
  (forall x, f (EvSourceNotify x) = false) -> quiet f (pa_source_notify s).
Proof.
  intros Hf. unfold pa_source_notify.
  apply quiet_bind; [apply quiet_deref|intros a].
  apply quiet_bind; [apply quiet_load_source|intros _].
  apply quiet_emit, Hf.
Qed.

Lemma quiet_resampler_free f r :
  (forall x, f (EvResamplerFree x) = false) -> quiet f (pa_resampler_free r).
Proof.
  intros Hf w. unfold pa_resampler_free, bind, load_resampler.
  destruct (w_resamplers w !! r); simpl; [|reflexivity].
  now rewrite Hf.
Qed.

(** The tail of a move never asks the factory for anything. *)
Lemma move_to_commit_builds_nothing w p dest o nr :
  count is_resampler_new (events_of (move_to_commit p dest o nr w)) = 0%nat.
Proof.
  revert w. change (quiet is_resampler_new (move_to_commit p dest o nr)).
  unfold move_to_commit.
  apply quiet_bind; [apply quiet_deref|intros os].
  apply quiet_bind; [apply quiet_load_source|intros og].
  apply quiet_bind; [apply quiet_store_source|intros _].
  apply quiet_bind; [apply quiet_load_source|intros d].
  apply quiet_bind; [apply quiet_store_source|intros _].
  apply quiet_bind; [apply quiet_store_output|intros _].
  apply quiet_bind; [|intros _].
  { destruct (negb _); [|apply quiet_ret].
    apply quiet_bind; [|intros _; apply quiet_store_output].
    destruct (so_resampler o); [|apply quiet_ret].
    now apply quiet_resampler_free. }
  apply quiet_bind; [now apply quiet_emit|intros _].
  apply quiet_bind; [now apply quiet_source_notify|intros _].
  apply quiet_ret.
Qed.

Lemma failure_is_new e : is_resampler_failure e = true -> is_resampler_new e = true.
Proof. destruct e; simpl; congruence. Qed.

Lemma move_to_reuse_pure o d w b w' tr :
  move_to_reuse o d w = Done b w' tr -> w' = w /\ tr = [].
Proof.
  unfold move_to_reuse, bind, deref, load_source, ret, crash.
  destruct (so_resampler o); [|intros [= _ <- <-]; auto].
  destruct (so_source o); [|discriminate].
  destruct (w_sources w !! _); [|discriminate].
  intros [= _ <- <-]; auto.
Qed.

(** Up to the choice of the stage, a move towards another source that has
    room does this. *)
Lemma move_to_unfold w p dest junk o d :
  w_outputs w !! p = Some o ->
  1 <= so_ref o ->
  so_source o <> Some dest ->
  w_sources w !! dest = Some d ->
  (pa_idxset_size (s_outputs d) < PA_MAX_OUTPUTS_PER_SOURCE)%nat ->
  pa_source_output_move_to p dest junk w =
  (reuse <- move_to_reuse o d ;;
   if reuse then move_to_commit p dest o (so_resampler o)
   else if shape_differs (so_sample_spec o) (so_channel_map o)
             (s_sample_spec d) (s_channel_map d) then
     c <- get_core ;;
     r <- pa_resampler_new (s_sample_spec d) (s_channel_map d)
            (so_sample_spec o) (so_channel_map o)
            (c_memblock_stat c) (so_resample_method o) ;;
     match r with
     | None => pa_log_warn msg_unsupported ;;; ret (-1)
     | Some _ => move_to_commit p dest o r
     end
   else move_to_commit p dest o junk) w.
Proof.
  intros Hl Href Hne Hd Hroom.
  unfold pa_source_output_move_to.
  rewrite (bind_pure _ _ w o) by (unfold load_output; now rewrite Hl).
  apply Z.leb_le in Href. rewrite Href.
  rewrite (bind_pure _ _ w tt) by reflexivity.
  assert (E : ptr_eqb (Some dest) (so_source o) = false).
  { destruct (ptr_eqb (Some dest) (so_source o)) eqn:E; [|reflexivity].
    apply ptr_eqb_true in E. congruence. }
  rewrite E.
  rewrite (bind_pure _ _ w d) by (unfold load_source; now rewrite Hd).
  destruct (Nat.leb_spec PA_MAX_OUTPUTS_PER_SOURCE (pa_idxset_size (s_outputs d)));
    [lia|reflexivity].
Qed.

(** C1.  Take a live source output attached to an origin source and a
    destination source with room, the stream's shape differing from the
    destination's.  If in that move the resampler factory is asked for the
    new stage and fails, the move returns -1 and the world is exactly what
    it was: the output record (its source, its stage or the absence of
    one), both member sets, the registry and the stages.  The trace holds
    no subscription event and no source wake-up. *)
Theorem move_factory_failure_changes_nothing
    (w : world) (p origin dest : ptr) (o : pa_source_output) (d : pa_source)
    (junk : option ptr) :
  live_output w p o ->
  so_source o = Some origin ->
  w_sources w !! dest = Some d ->
  (pa_idxset_size (s_outputs d) < PA_MAX_OUTPUTS_PER_SOURCE)%nat ->
  shape_differs (so_sample_spec o) (so_channel_map o)
    (s_sample_spec d) (s_channel_map d) = true ->
  In (EvResamplerNew (s_sample_spec d) (s_channel_map d)
        (so_sample_spec o) (so_channel_map o) (so_resample_method o) None)
     (events_of (pa_source_output_move_to p dest junk w)) ->
  exists w' tr,
    pa_source_output_move_to p dest junk w = Done (-1) w' tr /\
    w' = w /\
    w_outputs w' !! p = Some o /\
    member_of w' origin p = member_of w origin p /\
    member_of w' dest p = member_of w dest p /\
    count is_subscription tr = 0%nat /\
    count is_wake tr = 0%nat.
Proof.
  intros (Hl & Href & _) Hsrc Hd Hroom Hdiff Hev.
  destruct (Pos.eq_dec dest origin) as [->|Hne].
  { (* moving to the current source: nothing is asked from the factory *)
    exfalso. revert Hev.
    unfold pa_source_output_move_to.
    rewrite (bind_pure _ _ w o) by (unfold load_output; now rewrite Hl).
    assert (Href' : (1 <=? so_ref o) = true) by now apply Z.leb_le.
    rewrite Href'.
    rewrite (bind_pure _ _ w tt) by reflexivity.
    rewrite Hsrc, ptr_eqb_refl. simpl. tauto. }
  assert (Hne' : so_source o <> Some dest) by congruence.
  rewrite (move_to_unfold w p dest junk o d Hl Href Hne' Hd Hroom) in Hev |- *.
  assert (Hcommit : forall nr w0,
    ~ In (EvResamplerNew (s_sample_spec d) (s_channel_map d)
            (so_sample_spec o) (so_channel_map o) (so_resample_method o) None)
         (events_of (move_to_commit p dest o nr w0))).
  { intros nr w0.
    apply count_zero_not_in with (f := is_resampler_new); [|reflexivity].
    apply move_to_commit_builds_nothing. }
  destruct (move_to_reuse o d w) as [reuse w0 t0|f] eqn:Ereuse;
    [|rewrite (bind_crash _ _ w f Ereuse) in Hev; simpl in Hev; tauto].
  destruct (move_to_reuse_pure _ _ _ _ _ _ Ereuse) as [-> ->].
  rewrite (bind_pure _ _ w reuse Ereuse) in Hev |- *.
  destruct reuse.
  { exfalso. exact (Hcommit _ _ Hev). }
  rewrite Hdiff in Hev |- *.
  rewrite (bind_pure _ _ w (w_core w)) in Hev |- * by reflexivity.
  revert Hev.
  unfold bind, pa_resampler_new.
  destruct (resampler_supported _ _ _ _ _ _).
  - unfold bind, alloc, store_resampler, emit, ret. cbn [app].
    intros Hev. exfalso.
    match type of Hev with
    | context [move_to_commit p dest o ?nr ?w0] =>
        specialize (Hcommit nr w0);
        destruct (move_to_commit p dest o nr w0) as [a w2 t2|f]
    end; simpl in *; [|tauto].
    destruct Hev as [Hev|Hev]; [discriminate|]. tauto.
  - intros _. unfold bind, emit, pa_log_warn, emit, ret. simpl.
    eexists _, _. split; [reflexivity|].
    repeat split; auto.
Qed.

End MovingOn.

Section MoveOutcomes.
Context {collab : Collaborators}.

Lemma move_to_reuse_run w o d origin og :
  so_source o = Some origin ->
  w_sources w !! origin = Some og ->
  move_to_reuse o d w =
    Done (is_some (so_resampler o)
          && (pa_sample_spec_equal (s_sample_spec og) (s_sample_spec d)
              && pa_channel_map_equal (s_channel_map og) (s_channel_map d)))
         w [].
Proof.
  intros Hsrc Hog. unfold move_to_reuse.
  destruct (so_resampler o); [|reflexivity].
  rewrite Hsrc. simpl.
  rewrite (bind_pure _ _ w origin) by reflexivity.
  rewrite (bind_pure _ _ w og) by (unfold load_source; now rewrite Hog).
  reflexivity.
Qed.

Lemma member_of_moved_dest w p dest origin o og d nr :
  member_of (moved_world p dest origin o og d nr w) dest p = true.
Proof.
  unfold member_of, moved_world; simpl.
  rewrite lookup_insert_eq. simpl. apply contains_put_same.
Qed.

Lemma member_of_moved_origin w p dest origin o og d nr :
  origin <> dest ->
  member_of (moved_world p dest origin o og d nr w) origin p = false.
Proof.
  intros Hne. unfold member_of, moved_world; simpl.
  rewrite lookup_insert_ne by congruence.
  rewrite lookup_insert_eq. simpl. apply contains_remove_same.
Qed.

(** When the factory is asked and fails, in terms of the arguments of the
    move alone: the destination is another source and has room, the stage
    at hand cannot be kept (there is none, or origin and destination
    differ in shape), the stream's shape differs from the destination's,
    and the conversion is not supported. *)
Lemma move_factory_failure_from_inputs
    (w : world) (p origin dest : ptr) (o : pa_source_output)
    (og d : pa_source) (junk : option ptr) :
  live_output w p o ->
  so_source o = Some origin ->
  w_sources w !! origin = Some og ->
  w_sources w !! dest = Some d ->
  dest <> origin ->
  (pa_idxset_size (s_outputs d) < PA_MAX_OUTPUTS_PER_SOURCE)%nat ->
  so_resampler o = None \/
    pa_sample_spec_equal (s_sample_spec og) (s_sample_spec d)
    && pa_channel_map_equal (s_channel_map og) (s_channel_map d) = false ->
  shape_differs (so_sample_spec o) (so_channel_map o)
    (s_sample_spec d) (s_channel_map d) = true ->
  resampler_supported (s_sample_spec d) (s_channel_map d)
    (so_sample_spec o) (so_channel_map o)
    (c_memblock_stat (w_core w)) (so_resample_method o) = false ->
  pa_source_output_move_to p dest junk w =
    Done (-1) w
      [EvResamplerNew (s_sample_spec d) (s_channel_map d)
         (so_sample_spec o) (so_channel_map o) (so_resample_method o) None;
       EvLog LOG_WARN msg_unsupported].
Proof.
  intros (Hl & Href & _) Hsrc Hog Hd Hne Hroom Hno1 Hdiff Hfail.
  assert (Hne' : so_source o <> Some dest) by congruence.
  rewrite (move_to_unfold w p dest junk o d Hl Href Hne' Hd Hroom).
  rewrite (bind_pure _ _ w false).
  2:{ rewrite (move_to_reuse_run w o d origin og Hsrc Hog).
      destruct Hno1 as [->|Hx]; [reflexivity|].
      now rewrite Hx, andb_false_r. }
  rewrite Hdiff.
  rewrite (bind_pure _ _ w (w_core w)) by reflexivity.
  unfold bind, pa_resampler_new. rewrite Hfail. reflexivity.
Qed.

(** C6, as the code has it.  A live source output that owns a stage moves
    to a destination other than its current source, the destination having
    room and the same sample spec and channel map as the origin: the move
    returns 0, the output keeps the very stage it had, the factory is not
    called and nothing is freed (the trace is the change notification and
    the wake-up of the destination, the stage heap is untouched), and the
    output is a member of the destination's set and no longer of the
    origin's. *)
Theorem move_between_alike_sources_keeps_stage
    (w : world) (p origin dest r : ptr) (o : pa_source_output)
    (og d : pa_source) (junk : option ptr) :
  live_output w p o ->
  so_source o = Some origin ->
  w_sources w !! origin = Some og ->
  w_sources w !! dest = Some d ->
  dest <> origin ->
  (pa_idxset_size (s_outputs d) < PA_MAX_OUTPUTS_PER_SOURCE)%nat ->
  so_resampler o = Some r ->
  pa_sample_spec_equal (s_sample_spec og) (s_sample_spec d) = true ->
  pa_channel_map_equal (s_channel_map og) (s_channel_map d) = true ->
  exists w' o',
    pa_source_output_move_to p dest junk w =
      Done 0 w' [EvSubscription PA_SUBSCRIPTION_EVENT_CHANGE (so_index o);
                 EvSourceNotify dest] /\
    w_outputs w' !! p = Some o' /\
    so_resampler o' = Some r /\
    so_source o' = Some dest /\
    w_resamplers w' = w_resamplers w /\
    member_of w' dest p = true /\
    member_of w' origin p = false.
Proof.
  intros (Hl & Href & _) Hsrc Hog Hd Hne Hroom Hr Hss Hcm.
  assert (Hne' : so_source o <> Some dest) by congruence.
  rewrite (move_to_unfold w p dest junk o d Hl Href Hne' Hd Hroom).
  rewrite (bind_pure _ _ w true).
  2:{ rewrite (move_to_reuse_run w o d origin og Hsrc Hog), Hr, Hss, Hcm.
      reflexivity. }
  rewrite (move_to_commit_run w p dest origin o og d (so_resampler o))
    by (auto; rewrite ptr_eqb_refl; discriminate).
  exists (moved_world p dest origin o og d (so_resampler o) w),
         (set_resampler (so_resampler o) (set_source (Some dest) o)).
  unfold moved_trace. rewrite ptr_eqb_refl. simpl.
  split; [reflexivity|].
  split; [apply lookup_insert_eq|].
  split; [exact Hr|].
  split; [reflexivity|].
  split; [simpl; now rewrite ptr_eqb_refl|].
  split; [apply member_of_moved_dest|].
  apply member_of_moved_origin. congruence.
Qed.


(** What the third branch does to the stage field: the output ends up
    with whatever the uninitialised local held. *)
Lemma move_without_stage_installs_junk
    (w : world) (p origin dest : ptr) (o : pa_source_output)
    (og d : pa_source) (junk : option ptr) :
  live_output w p o ->
  so_source o = Some origin ->
  w_sources w !! origin = Some og ->
  w_sources w !! dest = Some d ->
  (forall r, so_resampler o = Some r -> is_Some (w_resamplers w !! r)) ->
  dest <> origin ->
  (pa_idxset_size (s_outputs d) < PA_MAX_OUTPUTS_PER_SOURCE)%nat ->
  so_resampler o = None \/
    pa_sample_spec_equal (s_sample_spec og) (s_sample_spec d)
    && pa_channel_map_equal (s_channel_map og) (s_channel_map d) = false ->
  shape_differs (so_sample_spec o) (so_channel_map o)
    (s_sample_spec d) (s_channel_map d) = false ->
  exists w' tr o',
    pa_source_output_move_to p dest junk w = Done 0 w' tr /\
    w_outputs w' !! p = Some o' /\
    so_resampler o' = junk.
Proof.
  intros (Hl & Href & _) Hsrc Hog Hd Hown Hne Hroom Hno1 Hno2.
  assert (Hne' : so_source o <> Some dest) by congruence.
  rewrite (move_to_unfold w p dest junk o d Hl Href Hne' Hd Hroom).
  rewrite (bind_pure _ _ w false).
  2:{ rewrite (move_to_reuse_run w o d origin og Hsrc Hog).
      destruct Hno1 as [->|Hx]; [reflexivity|].
      now rewrite Hx, andb_false_r. }
  rewrite Hno2.
  rewrite (move_to_commit_run w p dest origin o og d junk) by auto.
  eexists _, _, _. split; [reflexivity|].
  split; [apply lookup_insert_eq|reflexivity].
Qed.

End MoveOutcomes.

Section Creating.
Context {collab : Collaborators}.

(** C7.  On a source (running, as Create asserts) whose member set holds
    the maximum number of outputs, Create returns NULL whatever its other
    arguments are, and the world after the call is the world before it: the
    member count and the member set of the source and the global registry
    are what they were.  No subscription event is posted. *)
Theorem create_at_capacity_fails
    (w : world) (s : ptr) (src : pa_source) (driver : option string)
    (name : string) (spec : pa_sample_spec) (map : option pa_channel_map)
    (resample_method : Z) :
  w_sources w !! s = Some src ->
  s_state src = PA_SOURCE_RUNNING ->
  (PA_MAX_OUTPUTS_PER_SOURCE <= pa_idxset_size (s_outputs src))%nat ->
  exists w' tr,
    pa_source_output_new s driver name spec map resample_method w
      = Done None w' tr /\
    w' = w /\
    member_of w' s = member_of w s /\
    (forall src', w_sources w' !! s = Some src' ->
       pa_idxset_size (s_outputs src') = pa_idxset_size (s_outputs src)) /\
    c_source_outputs (w_core w') = c_source_outputs (w_core w) /\
    count is_subscription tr = 0%nat.
Proof.
  intros Hs Hrun Hfull.
  assert (Hgoal : exists tr,
    pa_source_output_new s driver name spec map resample_method w
      = Done None w tr /\ count is_subscription tr = 0%nat).
  { unfold pa_source_output_new.
    rewrite (bind_pure _ _ w src) by (unfold load_source; now rewrite Hs).
    rewrite Hrun.
    rewrite (bind_pure _ _ w tt) by reflexivity.
    destruct (negb (pa_sample_spec_valid spec)); [now exists []|].
    destruct (match map with
              | Some m => Some m
              | None => pa_channel_map_init_auto (ss_channels spec)
              end) as [m|]; [|now exists []].
    destruct (negb (pa_channel_map_valid m)); [now exists []|].
    destruct (negb (cm_channels m =? ss_channels spec)); [now exists []|].
    destruct (negb _); [now exists []|].
    destruct (negb (pa_utf8_valid name)); [now exists []|].
    destruct (Nat.leb_spec PA_MAX_OUTPUTS_PER_SOURCE
                (pa_idxset_size (s_outputs src))); [|lia].
    eexists. split; reflexivity. }
  destruct Hgoal as (tr & Hnew & Htr).
  exists w, tr. repeat split; auto.
  intros src' Hs'. congruence.
Qed.

End Creating.

Section Renaming.
Context {collab : Collaborators}.

(** C10, as the code has it.  On a live source output that is attached to
    a source, Rename stores the new name and posts exactly one "changed"
    event carrying the output's index, whatever the new name is, the old
    name included; the buffer of the old name is released before, and
    nothing else changes. *)
Theorem rename_attached_posts_one_change
    (w : world) (p s : ptr) (o : pa_source_output) (name : string) :
  live_output w p o ->
  so_source o = Some s ->
  is_Some (w_sources w !! s) ->
  exists w' tr o',
    pa_source_output_set_name p name w = Done tt w' tr /\
    w' = with_output p (set_name name o) w /\
    w_outputs w' !! p = Some o' /\
    so_name o' = name /\
    tr = [EvXfreeString (Some (so_name o));
          EvSubscription PA_SUBSCRIPTION_EVENT_CHANGE (so_index o)] /\
    count is_changed tr = 1%nat /\
    (name = so_name o -> count is_changed tr = 1%nat).
Proof.
  intros (Hl & Href & _) Hsrc [src Hs].
  exists (with_output p (set_name name o) w),
         [EvXfreeString (Some (so_name o));
          EvSubscription PA_SUBSCRIPTION_EVENT_CHANGE (so_index o)],
         (set_name name o).
  split.
  { unfold pa_source_output_set_name.
    rewrite (bind_pure _ _ w o) by (unfold load_output; now rewrite Hl).
    apply Z.leb_le in Href. rewrite Href.
    rewrite (bind_pure _ _ w tt) by reflexivity.
    unfold bind, xfree_string, store_output, deref, load_source.
    rewrite Hsrc. simpl.
    rewrite Hs. reflexivity. }
  repeat split; auto. apply with_output_lookup.
Qed.

End Renaming.

Section CreateOutcome.
Context {collab : Collaborators}.

Lemma put_fresh_code s p :
  pa_idxset_contains s p = false ->
  pa_idxset_put s p =
    (0, ix_next s,
     {| ix_entries := ix_entries s ++ [(ix_next s, p)];
        ix_next := ((ix_next s + 1) mod 4294967296)%N |}).
Proof.
  unfold pa_idxset_contains, pa_idxset_put.
  now destruct (pa_idxset_get_index s p).
Qed.

Lemma put_present_code s p :
  pa_idxset_contains s p = true -> fst (fst (pa_idxset_put s p)) = -1.
Proof.
  unfold pa_idxset_contains, pa_idxset_put.
  now destruct (pa_idxset_get_index s p).
Qed.

Lemma get_index_put_fresh s p :
  pa_idxset_contains s p = false ->
  pa_idxset_get_index (snd (pa_idxset_put s p)) p = Some (ix_next s).
Proof.
  intros H. rewrite (put_fresh_code s p H). simpl.
  unfold pa_idxset_get_index; simpl.
  unfold pa_idxset_contains, pa_idxset_get_index in H.
  rewrite ix_find_app. destruct (ix_find p (ix_entries s)); [discriminate|].
  simpl. now rewrite Pos.eqb_refl.
Qed.

(** The tail of Create, when it returns. *)
Lemma new_commit_done w s driver name spec map m rs r w' tr :
  new_commit s driver name spec map m rs w = Done r w' tr ->
  exists src obj,
    w_sources w !! s = Some src /\
    r = Some (w_next w) /\
    w' = created_world s src obj w /\
    in_registry w (w_next w) = false /\
    pa_idxset_contains (s_outputs src) (w_next w) = false /\
    obj = {| so_ref := 1;
             so_index := ix_next (c_source_outputs (w_core w));
             so_state := PA_SOURCE_OUTPUT_RUNNING;
             so_name := name; so_driver := driver; so_owner := None;
             so_source := Some s; so_client := None;
             so_sample_spec := spec; so_channel_map := map;
             so_push := None; so_kill := None; so_get_latency := None;
             so_userdata := None; so_resampler := rs;
             so_resample_method := m |} /\
    tr = [EvLog LOG_INFO msg_created;
          EvSubscription PA_SUBSCRIPTION_EVENT_NEW
            (ix_next (c_source_outputs (w_core w)))].
Proof.
  unfold new_commit, in_registry.
  unfold bind at 1. unfold alloc at 1. cbn [w_next].
  unfold bind at 1. unfold get_core at 1. cbn [w_core].
  destruct (pa_idxset_contains (c_source_outputs (w_core w)) (w_next w)) eqn:Ereg.
  { pose proof (put_present_code _ _ Ereg) as Hc.
    destruct (pa_idxset_put (c_source_outputs (w_core w)) (w_next w))
      as [[c idx] reg]. simpl in Hc. subst c.
    unfold bind, put_core, store_output, assert. simpl. discriminate. }
  rewrite (put_fresh_code _ _ Ereg).
  unfold bind at 1. unfold put_core at 1.
  unfold bind at 1. unfold store_output at 1.
  unfold bind at 1.
  change (0 =? 0) with true. cbn [andb].
  destruct (N.eqb _ PA_IDXSET_INVALID) eqn:Einv; [discriminate|].
  cbn [negb assert ret].
  unfold bind at 1. unfold load_source at 1. cbn [w_sources].
  destruct (w_sources w !! s) as [src|] eqn:Es; [|discriminate].
  destruct (pa_idxset_contains (s_outputs src) (w_next w)) eqn:Emem.
  { pose proof (put_present_code _ _ Emem) as Hc.
    destruct (pa_idxset_put (s_outputs src) (w_next w)) as [[c idx] outs].
    simpl in Hc. subst c.
    unfold bind, store_source, assert. simpl. discriminate. }
  pose proof (put_fresh_code _ _ Emem) as Hput.
  destruct (pa_idxset_put (s_outputs src) (w_next w)) as [[c idx] outs] eqn:Eput.
  injection Hput as -> -> ->.
  unfold bind, store_source, assert, pa_log_info, pa_subscription_post, emit, ret.
  simpl. intros [= <- <- <-].
  eexists src, _. repeat split; try reflexivity; try assumption.
  unfold created_world. rewrite (put_fresh_code _ _ Ereg), Eput. reflexivity.
Qed.

End CreateOutcome.

Section CreateOutcome2.
Context {collab : Collaborators}.

(** Create, when it returns: either NULL and an untouched world, or a new
    object as [created_world] describes it, possibly after a stage was
    built for it. *)
Lemma new_done w s driver name spec map m r w' tr :
  pa_source_output_new s driver name spec map m w = Done r w' tr ->
  (r = None /\ w' = w /\ count is_subscription tr = 0%nat) \/
  (exists src obj w0 t0,
     w_sources w !! s = Some src /\
     s_state src = PA_SOURCE_RUNNING /\
     w_core w0 = w_core w /\ w_sources w0 = w_sources w /\
     w_outputs w0 = w_outputs w /\ (w_next w <= w_next w0)%positive /\
     (forall q, so_resampler obj = Some q -> is_Some (w_resamplers w0 !! q)) /\
     r = Some (w_next w0) /\
     w' = created_world s src obj w0 /\
     in_registry w0 (w_next w0) = false /\
     pa_idxset_contains (s_outputs src) (w_next w0) = false /\
     so_ref obj = 1 /\
     so_state obj = PA_SOURCE_OUTPUT_RUNNING /\
     so_source obj = Some s /\
     so_index obj = ix_next (c_source_outputs (w_core w)) /\
     so_sample_spec obj = spec /\
     tr = t0 ++ [EvLog LOG_INFO msg_created;
                 EvSubscription PA_SUBSCRIPTION_EVENT_NEW (so_index obj)] /\
     count is_subscription t0 = 0%nat).
Proof.
  unfold pa_source_output_new.
  destruct (w_sources w !! s) as [src|] eqn:Es;
    [|rewrite (bind_crash _ _ w DanglingPointer)
        by (unfold load_source; now rewrite Es); discriminate].
  rewrite (bind_pure _ _ w src) by (unfold load_source; now rewrite Es).
  destruct (s_state src) eqn:Est;
    [|rewrite (bind_crash _ _ w (AssertionFailed "s->state == PA_SOURCE_RUNNING"))
        by reflexivity; discriminate].
  rewrite (bind_pure _ _ w tt) by reflexivity.
  assert (Hnull : forall t, count is_subscription t = 0%nat ->
            @Done (option ptr) None w t = Done r w' tr ->
            r = None /\ w' = w /\ count is_subscription tr = 0%nat).
  { intros t Ht [= <- <- <-]. auto. }
  destruct (negb (pa_sample_spec_valid spec));
    [intros H; left; exact (Hnull [] eq_refl H)|].
  destruct (match map with
            | Some m0 => Some m0
            | None => pa_channel_map_init_auto (ss_channels spec)
            end) as [cm|]; [|intros H; left; exact (Hnull [] eq_refl H)].
  destruct (negb (pa_channel_map_valid cm));
    [intros H; left; exact (Hnull [] eq_refl H)|].
  destruct (negb (cm_channels cm =? ss_channels spec));
    [intros H; left; exact (Hnull [] eq_refl H)|].
  destruct (negb _); [intros H; left; exact (Hnull [] eq_refl H)|].
  destruct (negb (pa_utf8_valid name));
    [intros H; left; exact (Hnull [] eq_refl H)|].
  destruct (_ <=? _)%nat;
    [intros H; left;
     exact (Hnull [EvLog LOG_ERROR msg_too_many_create] eq_refl H)|].
  rewrite (bind_pure _ _ w (w_core w)) by reflexivity.
  destruct (shape_differs _ _ _ _).
  - unfold bind at 1. unfold pa_resampler_new.
    destruct (resampler_supported _ _ _ _ _ _).
    + unfold bind at 1 2 3. unfold alloc, store_resampler, emit, ret.
      cbn [app].
      match goal with
      | |- context [new_commit ?a ?b ?c ?d ?e ?f ?g ?w0] =>
          set (wst := w0) in *;
          destruct (new_commit a b c d e f g wst) as [r1 w1 t1|x] eqn:Ec;
            [|discriminate];
          destruct (new_commit_done _ _ _ _ _ _ _ _ _ _ _ Ec)
            as (src1 & obj & Hs1 & -> & -> & Hreg & Hmem & Hobj & ->)
      end.
      simpl in Hs1. assert (src1 = src) by congruence. subst src1.
      clear Hnull. intros [= <- <- <-]. right.
      eexists src, obj, wst, [_].
      split; [reflexivity|]. split; [exact Est|].
      split; [reflexivity|]. split; [reflexivity|].
      split; [reflexivity|]. split; [simpl; lia|].
      split.
      { subst obj wst. cbn [so_resampler w_resamplers]. intros q [= <-].
        rewrite lookup_insert_eq. eauto. }
      split; [reflexivity|]. split; [reflexivity|].
      split; [exact Hreg|]. split; [exact Hmem|].
      subst obj. repeat split.
    + unfold bind, emit, pa_log_warn, emit, ret. simpl.
      intros H; left. eapply Hnull; [|exact H]. reflexivity.
  - intros Ec.
    destruct (new_commit_done _ _ _ _ _ _ _ _ _ _ _ Ec)
      as (src1 & obj & Hs1 & -> & -> & Hreg & Hmem & Hobj & ->).
    assert (src1 = src) by congruence. subst src1. clear Hnull.
    right. exists src, obj, w, [].
    split; [reflexivity|]. split; [exact Est|].
    split; [reflexivity|]. split; [reflexivity|].
    split; [reflexivity|]. split; [lia|].
    split; [subst obj; simpl; discriminate|].
    split; [reflexivity|]. split; [reflexivity|].
    split; [exact Hreg|]. split; [exact Hmem|].
    subst obj. repeat split.
Qed.

End CreateOutcome2.

(** ** Consistency is kept by every change the code makes *)

Lemma consistent_same w w' :
  same_membership w w' -> consistent w -> consistent w'.
Proof.
  intros (Hc & Hs & Ho & Hn) H.
  assert (Hreg : forall p, in_registry w' p = in_registry w p)
    by (intros; unfold in_registry; now rewrite Hc).
  assert (Hmem : forall s p, member_of w' s p = member_of w s p)
    by (intros; unfold member_of; now rewrite Hs).
  split.
  - intros p o s Hl Hsrc. rewrite Ho in Hl. rewrite Hs, Hreg, Hmem.
    exact (cons_attached w H p o s Hl Hsrc).
  - intros p o Hl Hsrc. rewrite Ho in Hl. rewrite Hreg.
    exact (cons_detached w H p o Hl Hsrc).
  - intros s p Hm. rewrite Hmem in Hm. rewrite Ho.
    exact (cons_members w H s p Hm).
  - intros p Hr. rewrite Hreg in Hr. rewrite Ho.
    exact (cons_registry w H p Hr).
  - intros p o Hl. rewrite Ho in Hl. exact (cons_state w H p o Hl).
  - intros p Hp. rewrite Ho in Hp. pose proof (cons_fresh w H p Hp). lia.
Qed.

Lemma consistent_with_output w p o o' :
  consistent w ->
  w_outputs w !! p = Some o ->
  so_source o' = so_source o ->
  (so_state o' = PA_SOURCE_OUTPUT_DISCONNECTED <-> so_source o' = None) ->
  consistent (with_output p o' w).
Proof.
  intros H Hl Hsrc Hst. split.
  - intros q oq s Hq Hs. simpl in Hq.
    change (is_Some (w_sources w !! s) /\ in_registry w q = true
            /\ member_of w s q = true).
    destruct (decide (p = q)) as [->|Hne].
    + rewrite lookup_insert_eq in Hq. injection Hq as <-.
      apply (cons_attached w H q o s Hl). congruence.
    + rewrite lookup_insert_ne in Hq by exact Hne.
      exact (cons_attached w H q oq s Hq Hs).
  - intros q oq Hq Hs. simpl in Hq. change (in_registry w q = false).
    destruct (decide (p = q)) as [->|Hne].
    + rewrite lookup_insert_eq in Hq. injection Hq as <-.
      apply (cons_detached w H q o Hl). congruence.
    + rewrite lookup_insert_ne in Hq by exact Hne.
      exact (cons_detached w H q oq Hq Hs).
  - intros s q Hm. change (member_of w s q = true) in Hm.
    destruct (cons_members w H s q Hm) as (oq & Hq & Hs). simpl.
    destruct (decide (p = q)) as [->|Hne].
    + rewrite lookup_insert_eq. exists o'. split; [reflexivity|]. congruence.
    + rewrite lookup_insert_ne by exact Hne. eauto.
  - intros q Hr. change (in_registry w q = true) in Hr. simpl.
    destruct (decide (p = q)) as [->|Hne].
    + rewrite lookup_insert_eq. eauto.
    + rewrite lookup_insert_ne by exact Hne. exact (cons_registry w H q Hr).
  - intros q oq Hq. simpl in Hq.
    destruct (decide (p = q)) as [->|Hne].
    + rewrite lookup_insert_eq in Hq. injection Hq as <-. exact Hst.
    + rewrite lookup_insert_ne in Hq by exact Hne. exact (cons_state w H q oq Hq).
  - intros q Hq. simpl in Hq |- *.
    destruct (decide (p = q)) as [->|Hne].
    + apply (cons_fresh w H q). eauto.
    + rewrite lookup_insert_ne in Hq by exact Hne. exact (cons_fresh w H q Hq).
Qed.

Lemma consistent_without_output w p o :
  consistent w ->
  w_outputs w !! p = Some o ->
  so_source o = None ->
  consistent (without_output p w).
Proof.
  intros H Hl Hsrc. split.
  - intros q oq s Hq Hs. simpl in Hq.
    change (is_Some (w_sources w !! s) /\ in_registry w q = true
            /\ member_of w s q = true).
    apply lookup_delete_Some in Hq as [Hne Hq].
    exact (cons_attached w H q oq s Hq Hs).
  - intros q oq Hq Hs. simpl in Hq. change (in_registry w q = false).
    apply lookup_delete_Some in Hq as [Hne Hq].
    exact (cons_detached w H q oq Hq Hs).
  - intros s q Hm. change (member_of w s q = true) in Hm.
    destruct (cons_members w H s q Hm) as (oq & Hq & Hs). simpl.
    exists oq. split; [|exact Hs].
    apply lookup_delete_Some. split; [|exact Hq].
    intros ->. congruence.
  - intros q Hr. change (in_registry w q = true) in Hr. simpl.
    destruct (cons_registry w H q Hr) as [oq Hq]. exists oq.
    apply lookup_delete_Some. split; [|exact Hq].
    intros ->. rewrite (cons_detached w H q o Hl Hsrc) in Hr. discriminate.
  - intros q oq Hq. simpl in Hq.
    apply lookup_delete_Some in Hq as [Hne Hq]. exact (cons_state w H q oq Hq).
  - intros q [oq Hq]. simpl in Hq |- *.
    apply lookup_delete_Some in Hq as [Hne Hq].
    apply (cons_fresh w H q). eauto.
Qed.

Lemma fresh_not_in_registry w :
  consistent w -> in_registry w (w_next w) = false.
Proof.
  intros H. destruct (in_registry w (w_next w)) eqn:E; [|reflexivity].
  pose proof (cons_fresh w H _ (cons_registry w H _ E)). lia.
Qed.

Lemma fresh_not_member w s :
  consistent w -> member_of w s (w_next w) = false.
Proof.
  intros H. destruct (member_of w s (w_next w)) eqn:E; [|reflexivity].
  destruct (cons_members w H _ _ E) as (o & Ho & _).
  assert (Hp : is_Some (w_outputs w !! w_next w)) by eauto.
  pose proof (cons_fresh w H _ Hp). lia.
Qed.

Lemma consistent_created w s src obj :
  consistent w ->
  w_sources w !! s = Some src ->
  so_source obj = Some s ->
  so_state obj = PA_SOURCE_OUTPUT_RUNNING ->
  consistent (created_world s src obj w).
Proof.
  intros H Hs Hsrc Hst.
  set (p := w_next w).
  assert (Hreg : forall q, q <> p ->
            in_registry (created_world s src obj w) q = in_registry w q).
  { intros q Hq. unfold in_registry; simpl. now apply contains_put_other. }
  assert (Hregp : in_registry (created_world s src obj w) p = true).
  { unfold in_registry; simpl. apply contains_put_same. }
  assert (Hmem : forall s' q, q <> p ->
            member_of (created_world s src obj w) s' q = member_of w s' q).
  { intros s' q Hq. unfold member_of; simpl.
    destruct (decide (s = s')) as [<-|Hne].
    - rewrite lookup_insert_eq, Hs. simpl. now apply contains_put_other.
    - now rewrite lookup_insert_ne. }
  assert (Hmemp : forall s', member_of (created_world s src obj w) s' p = true
            -> s' = s).
  { intros s' Hm. destruct (decide (s = s')) as [<-|Hne]; [reflexivity|].
    unfold member_of in Hm; simpl in Hm.
    rewrite lookup_insert_ne in Hm by exact Hne.
    pose proof (fresh_not_member w s' H) as Hf. unfold member_of in Hf.
    fold p in Hf. congruence. }
  assert (Hsome : forall s', is_Some (w_sources w !! s') ->
            is_Some (w_sources (created_world s src obj w) !! s')).
  { intros s' Hs'. simpl. apply lookup_insert_is_Some'. now right. }
  split.
  - intros q oq s' Hq Hs'. simpl in Hq.
    destruct (decide (p = q)) as [<-|Hne].
    + fold p in Hq. rewrite lookup_insert_eq in Hq. injection Hq as <-.
      assert (s' = s) by congruence. subst s'.
      split; [apply Hsome; eauto|]. split; [exact Hregp|].
      unfold member_of; simpl. rewrite lookup_insert_eq. simpl.
      apply contains_put_same.
    + fold p in Hq. rewrite lookup_insert_ne in Hq by exact Hne.
      destruct (cons_attached w H q oq s' Hq Hs') as (Ha & Hb & Hc).
      split; [now apply Hsome|].
      rewrite Hreg, Hmem by congruence. auto.
  - intros q oq Hq Hs'. simpl in Hq. fold p in Hq.
    destruct (decide (p = q)) as [<-|Hne].
    + rewrite lookup_insert_eq in Hq. injection Hq as <-. congruence.
    + rewrite lookup_insert_ne in Hq by exact Hne.
      rewrite Hreg by congruence. exact (cons_detached w H q oq Hq Hs').
  - intros s' q Hm. simpl. fold p.
    destruct (decide (p = q)) as [<-|Hne].
    + rewrite lookup_insert_eq. exists obj. split; [reflexivity|].
      rewrite (Hmemp s' Hm). exact Hsrc.
    + rewrite lookup_insert_ne by exact Hne.
      rewrite Hmem in Hm by congruence. exact (cons_members w H s' q Hm).
  - intros q Hr. simpl. fold p.
    destruct (decide (p = q)) as [<-|Hne].
    + rewrite lookup_insert_eq. eauto.
    + rewrite lookup_insert_ne by exact Hne.
      rewrite Hreg in Hr by congruence. exact (cons_registry w H q Hr).
  - intros q oq Hq. simpl in Hq. fold p in Hq.
    destruct (decide (p = q)) as [<-|Hne].
    + rewrite lookup_insert_eq in Hq. injection Hq as <-.
      rewrite Hst, Hsrc. split; discriminate.
    + rewrite lookup_insert_ne in Hq by exact Hne. exact (cons_state w H q oq Hq).
  - intros q Hq. simpl in Hq |- *. fold p in Hq |- *.
    destruct (decide (p = q)) as [<-|Hne]; [lia|].
    rewrite lookup_insert_ne in Hq by exact Hne.
    pose proof (cons_fresh w H q Hq). fold p in H0. lia.
Qed.

Lemma consistent_disconnected w p s src o :
  consistent w ->
  w_outputs w !! p = Some o ->
  so_source o = Some s ->
  w_sources w !! s = Some src ->
  consistent (disconnected_world p s src o w).
Proof.
  intros H Hl Hsrc Hs.
  set (w' := disconnected_world p s src o w).
  assert (Hreg : forall q, q <> p -> in_registry w' q = in_registry w q).
  { intros q Hq. unfold in_registry; simpl. now apply contains_remove_other. }
  assert (Hregp : in_registry w' p = false).
  { unfold in_registry; simpl. apply contains_remove_same. }
  assert (Hmem : forall s' q, q <> p -> member_of w' s' q = member_of w s' q).
  { intros s' q Hq. unfold member_of; simpl.
    destruct (decide (s = s')) as [<-|Hne].
    - rewrite lookup_insert_eq, Hs. simpl. now apply contains_remove_other.
    - now rewrite lookup_insert_ne. }
  assert (Hmemp : forall s', member_of w' s' p = false).
  { intros s'. unfold member_of; simpl.
    destruct (decide (s = s')) as [<-|Hne].
    - rewrite lookup_insert_eq. simpl. apply contains_remove_same.
    - rewrite lookup_insert_ne by exact Hne.
      destruct (w_sources w !! s') as [src'|] eqn:Es'; [|reflexivity].
      destruct (pa_idxset_contains (s_outputs src') p) eqn:Ec; [|reflexivity].
      assert (Hm : member_of w s' p = true) by (unfold member_of; now rewrite Es').
      destruct (cons_members w H s' p Hm) as (o0 & Ho0 & Hs0). congruence. }
  assert (Hsome : forall s', is_Some (w_sources w !! s') ->
            is_Some (w_sources w' !! s')).
  { intros s' Hs'. simpl. apply lookup_insert_is_Some'. now right. }
  split.
  - intros q oq s' Hq Hs'. simpl in Hq.
    destruct (decide (p = q)) as [<-|Hne].
    + rewrite lookup_insert_eq in Hq. injection Hq as <-. discriminate.
    + rewrite lookup_insert_ne in Hq by exact Hne.
      destruct (cons_attached w H q oq s' Hq Hs') as (Ha & Hb & Hc).
      split; [now apply Hsome|].
      rewrite Hreg, Hmem by congruence. auto.
  - intros q oq Hq Hs'. simpl in Hq.
    destruct (decide (p = q)) as [<-|Hne]; [exact Hregp|].
    rewrite lookup_insert_ne in Hq by exact Hne.
    rewrite Hreg by congruence. exact (cons_detached w H q oq Hq Hs').
  - intros s' q Hm. simpl.
    destruct (decide (p = q)) as [<-|Hne].
    + rewrite Hmemp in Hm. discriminate.
    + rewrite lookup_insert_ne by exact Hne.
      rewrite Hmem in Hm by congruence. exact (cons_members w H s' q Hm).
  - intros q Hr. simpl.
    destruct (decide (p = q)) as [<-|Hne].
    + rewrite Hregp in Hr. discriminate.
    + rewrite lookup_insert_ne by exact Hne.
      rewrite Hreg in Hr by congruence. exact (cons_registry w H q Hr).
  - intros q oq Hq. simpl in Hq.
    destruct (decide (p = q)) as [<-|Hne].
    + rewrite lookup_insert_eq in Hq. injection Hq as <-. simpl. tauto.
    + rewrite lookup_insert_ne in Hq by exact Hne. exact (cons_state w H q oq Hq).
  - intros q Hq. simpl in Hq |- *.
    destruct (decide (p = q)) as [<-|Hne].
    + apply (cons_fresh w H p). eauto.
    + rewrite lookup_insert_ne in Hq by exact Hne. exact (cons_fresh w H q Hq).
Qed.

Lemma consistent_moved w p dest origin o og d nr :
  consistent w ->
  w_outputs w !! p = Some o ->
  so_source o = Some origin ->
  origin <> dest ->
  w_sources w !! origin = Some og ->
  w_sources w !! dest = Some d ->
  consistent (moved_world p dest origin o og d nr w).
Proof.
  intros H Hl Hsrc Hne Hog Hd.
  set (w' := moved_world p dest origin o og d nr w).
  assert (Hreg : forall q, in_registry w' q = in_registry w q) by reflexivity.
  assert (Hmem : forall s' q, q <> p -> member_of w' s' q = member_of w s' q).
  { intros s' q Hq. unfold member_of; simpl.
    destruct (decide (dest = s')) as [<-|Hne1].
    - rewrite lookup_insert_eq, Hd. simpl. now apply contains_put_other.
    - rewrite lookup_insert_ne by exact Hne1.
      destruct (decide (origin = s')) as [<-|Hne2].
      + rewrite lookup_insert_eq, Hog. simpl. now apply contains_remove_other.
      + now rewrite lookup_insert_ne. }
  assert (Hmemp : forall s', member_of w' s' p = true -> s' = dest).
  { intros s' Hm. destruct (decide (dest = s')) as [<-|Hne1]; [reflexivity|].
    exfalso. unfold member_of in Hm; simpl in Hm.
    rewrite lookup_insert_ne in Hm by exact Hne1.
    destruct (decide (origin = s')) as [<-|Hne2].
    - rewrite lookup_insert_eq in Hm. simpl in Hm.
      rewrite contains_remove_same in Hm. discriminate.
    - rewrite lookup_insert_ne in Hm by exact Hne2.
      assert (Hm' : member_of w s' p = true) by exact Hm.
      destruct (cons_members w H s' p Hm') as (o0 & Ho0 & Hs0). congruence. }
  assert (Hsome : forall s', is_Some (w_sources w !! s') ->
            is_Some (w_sources w' !! s')).
  { intros s' Hs'. simpl. apply lookup_insert_is_Some'. right.
    apply lookup_insert_is_Some'. now right. }
  split.
  - intros q oq s' Hq Hs'. simpl in Hq.
    destruct (decide (p = q)) as [<-|Hnq].
    + rewrite lookup_insert_eq in Hq. injection Hq as <-. simpl in Hs'.
      injection Hs' as <-.
      split; [apply Hsome; eauto|].
      split; [rewrite Hreg; eapply cons_attached; eauto|].
      apply member_of_moved_dest.
    + rewrite lookup_insert_ne in Hq by exact Hnq.
      destruct (cons_attached w H q oq s' Hq Hs') as (Ha & Hb & Hc).
      split; [now apply Hsome|].
      rewrite Hreg, Hmem by congruence. auto.
  - intros q oq Hq Hs'. simpl in Hq.
    destruct (decide (p = q)) as [<-|Hnq].
    + rewrite lookup_insert_eq in Hq. injection Hq as <-. discriminate.
    + rewrite lookup_insert_ne in Hq by exact Hnq.
      rewrite Hreg. exact (cons_detached w H q oq Hq Hs').
  - intros s' q Hm. simpl.
    destruct (decide (p = q)) as [<-|Hnq].
    + rewrite lookup_insert_eq. eexists. split; [reflexivity|].
      simpl. now rewrite (Hmemp s' Hm).
    + rewrite lookup_insert_ne by exact Hnq.
      rewrite Hmem in Hm by congruence. exact (cons_members w H s' q Hm).
  - intros q Hr. simpl.
    destruct (decide (p = q)) as [<-|Hnq].
    + rewrite lookup_insert_eq. eauto.
    + rewrite lookup_insert_ne by exact Hnq. exact (cons_registry w H q Hr).
  - intros q oq Hq. simpl in Hq.
    destruct (decide (p = q)) as [<-|Hnq].
    + rewrite lookup_insert_eq in Hq. injection Hq as <-. simpl.
      pose proof (cons_state w H p o Hl) as Hst. rewrite Hsrc in Hst.
      split; [|discriminate]. intros E. apply Hst in E. discriminate.
    + rewrite lookup_insert_ne in Hq by exact Hnq. exact (cons_state w H q oq Hq).
  - intros q Hq. simpl in Hq |- *.
    destruct (decide (p = q)) as [<-|Hnq].
    + apply (cons_fresh w H p). eauto.
    + rewrite lookup_insert_ne in Hq by exact Hnq. exact (cons_fresh w H q Hq).
Qed.

(** ** Reading a finished computation backwards *)

Lemma bind_done {A B} (m : M A) (k : A -> M B) w b w2 tr :
  bind m k w = Done b w2 tr ->
  exists a w1 t1 t2,
    m w = Done a w1 t1 /\ k a w1 = Done b w2 t2 /\ tr = t1 ++ t2.
Proof.
  unfold bind. destruct (m w) as [a w1 t1|f]; [|discriminate].
  destruct (k a w1) as [b' w2' t2|f] eqn:Ek; [|discriminate].
  intros [= <- <- <-]. eauto 8.
Qed.

Lemma ret_done {A} (a b : A) w w' tr :
  ret a w = Done b w' tr -> b = a /\ w' = w /\ tr = [].
Proof. intros [= <- <- <-]. auto. Qed.

Lemma emit_done e w u w' tr :
  emit e w = Done u w' tr -> w' = w /\ tr = [e].
Proof. intros [= <- <-]. auto. Qed.

Lemma xfree_string_done x w u w' tr :
  xfree_string x w = Done u w' tr -> w' = w /\ tr = [EvXfreeString x].
Proof. intros [= <- <-]. auto. Qed.

Lemma assert_done b what w u w' tr :
  assert b what w = Done u w' tr -> b = true /\ w' = w /\ tr = [].
Proof. destruct b; [intros [= <- <-]; auto|discriminate]. Qed.

Lemma deref_done {A} (x : option A) w a w' tr :
  deref x w = Done a w' tr -> x = Some a /\ w' = w /\ tr = [].
Proof. destruct x; [intros [= <- <- <-]; auto|discriminate]. Qed.

Lemma load_output_done p w o w' tr :
  load_output p w = Done o w' tr ->
  w_outputs w !! p = Some o /\ w' = w /\ tr = [].
Proof.
  unfold load_output. destruct (w_outputs w !! p); [|discriminate].
  intros [= <- <- <-]. auto.
Qed.

Lemma load_source_done s w src w' tr :
  load_source s w = Done src w' tr ->
  w_sources w !! s = Some src /\ w' = w /\ tr = [].
Proof.
  unfold load_source. destruct (w_sources w !! s); [|discriminate].
  intros [= <- <- <-]. auto.
Qed.

Lemma load_resampler_done r w v w' tr :
  load_resampler r w = Done v w' tr ->
  w_resamplers w !! r = Some v /\ w' = w /\ tr = [].
Proof.
  unfold load_resampler. destruct (w_resamplers w !! r); [|discriminate].
  intros [= <- <- <-]. auto.
Qed.

Lemma store_output_done p o w u w' tr :
  store_output p o w = Done u w' tr -> w' = with_output p o w /\ tr = [].
Proof. intros [= <- <-]. auto. Qed.

Lemma get_core_done w c w' tr :
  get_core w = Done c w' tr -> c = w_core w /\ w' = w /\ tr = [].
Proof. intros [= <- <- <-]. auto. Qed.

Tactic Notation "inv_bind" hyp(H) "as" ident(a) ident(H1) :=
  let w1 := fresh "w" in
  let t1 := fresh "t" in
  let t2 := fresh "t" in
  apply bind_done in H as (a & w1 & t1 & t2 & H1 & H & ->).

Section Backwards.
Context {collab : Collaborators}.

Lemma source_notify_done s w u w' tr :
  pa_source_notify s w = Done u w' tr ->
  exists s', s = Some s' /\ is_Some (w_sources w !! s') /\
             w' = w /\ tr = [EvSourceNotify s'].
Proof.
  unfold pa_source_notify. intros H.
  inv_bind H as s' H1.
  apply deref_done in H1 as (-> & -> & ->).
  inv_bind H as src H1.
  apply load_source_done in H1 as (Hs & -> & ->).
  apply emit_done in H as (-> & ->).
  exists s'. eauto.
Qed.

Lemma resampler_free_done r w u w' tr :
  pa_resampler_free r w = Done u w' tr ->
  is_Some (w_resamplers w !! r) /\
  w' = without_stage r w /\ tr = [EvResamplerFree r].
Proof.
  unfold pa_resampler_free. intros H.
  inv_bind H as v H1.
  apply load_resampler_done in H1 as (Hv & -> & ->).
  injection H as <- <-. eauto.
Qed.

Lemma resampler_run_done r chunk w out w' tr :
  pa_resampler_run r chunk w = Done out w' tr ->
  same_membership w w' /\ tr = [EvResamplerRun r chunk out].
Proof.
  unfold pa_resampler_run. intros H.
  inv_bind H as v H1.
  apply load_resampler_done in H1 as (Hv & -> & ->).
  unfold bind, store_resampler, emit, ret in H. simpl in H.
  injection H as <- <- <-.
  split; [|reflexivity]. repeat split; simpl; lia.
Qed.

Lemma resampler_new_done a am b bm st m w r w' tr :
  pa_resampler_new a am b bm st m w = Done r w' tr ->
  same_membership w w' /\
  (r = None -> w' = w) /\
  (forall q, r = Some q -> is_Some (w_resamplers w' !! q)) /\
  tr = [EvResamplerNew a am b bm m r].
Proof.
  unfold pa_resampler_new.
  destruct (resampler_supported a am b bm st m).
  - unfold bind, alloc, store_resampler, emit, ret. simpl.
    intros [= <- <- <-].
    split; [repeat split; simpl; lia|].
    split; [discriminate|].
    split; [|reflexivity].
    intros q [= <-]. simpl. rewrite lookup_insert_eq. eauto.
  - unfold bind, emit, ret. simpl. intros [= <- <- <-].
    split; [repeat split; simpl; lia|].
    split; [reflexivity|]. split; [discriminate|reflexivity].
Qed.

Lemma same_membership_refl w : same_membership w w.
Proof. repeat split; lia. Qed.

Lemma same_membership_trans w1 w2 w3 :
  same_membership w1 w2 -> same_membership w2 w3 -> same_membership w1 w3.
Proof.
  intros (a1 & b1 & c1 & d1) (a2 & b2 & c2 & d2).
  repeat split; try congruence. lia.
Qed.

Lemma same_membership_without_stage r w : same_membership w (without_stage r w).
Proof. repeat split; simpl; lia. Qed.

(** Disconnect, when it returns. *)
Lemma disconnect_done p w u w' tr :
  pa_source_output_disconnect p w = Done u w' tr ->
  exists o s src,
    w_outputs w !! p = Some o /\
    so_state o <> PA_SOURCE_OUTPUT_DISCONNECTED /\
    so_source o = Some s /\
    w_sources w !! s = Some src /\
    w' = disconnected_world p s src o w /\
    tr = [EvSubscription PA_SUBSCRIPTION_EVENT_REMOVE (so_index o)].
Proof.
  unfold pa_source_output_disconnect. intros H.
  inv_bind H as o H1.
  apply load_output_done in H1 as (Hl & -> & ->).
  inv_bind H as u1 H1.
  apply assert_done in H1 as (Hst & -> & ->).
  inv_bind H as u2 H1.
  apply assert_done in H1 as (_ & -> & ->).
  inv_bind H as s H1.
  apply deref_done in H1 as (Hsrc & -> & ->).
  inv_bind H as src H1.
  apply load_source_done in H1 as (Hs & -> & ->).
  unfold bind, get_core, put_core, load_source, store_source, store_output,
    pa_subscription_post, emit in H.
  simpl in H. rewrite Hs in H. simpl in H.
  injection H as <- <-.
  exists o, s, src. repeat split; auto.
  intros E. rewrite E in Hst. discriminate.
Qed.

End Backwards.

Ltac inv_step :=
  match goal with
  | H : bind _ _ _ = Done _ _ _ |- _ =>
      let a := fresh "a" in let H1 := fresh "H" in inv_bind H as a H1
  | H : ret _ _ = Done _ _ _ |- _ => apply ret_done in H as (? & ? & ?)
  | H : emit _ _ = Done _ _ _ |- _ => apply emit_done in H as (? & ?)
  | H : xfree_string _ _ = Done _ _ _ |- _ =>
      apply xfree_string_done in H as (? & ?)
  | H : pa_log_info _ _ = Done _ _ _ |- _ => apply emit_done in H as (? & ?)
  | H : pa_log_warn _ _ = Done _ _ _ |- _ => apply emit_done in H as (? & ?)
  | H : pa_subscription_post _ _ _ = Done _ _ _ |- _ =>
      apply emit_done in H as (? & ?)
  | H : pa_memblock_unref _ _ = Done _ _ _ |- _ =>
      apply emit_done in H as (? & ?)
  | H : assert _ _ _ = Done _ _ _ |- _ => apply assert_done in H as (? & ? & ?)
  | H : deref _ _ = Done _ _ _ |- _ => apply deref_done in H as (? & ? & ?)
  | H : load_output _ _ = Done _ _ _ |- _ =>
      apply load_output_done in H as (? & ? & ?)
  | H : load_source _ _ = Done _ _ _ |- _ =>
      apply load_source_done in H as (? & ? & ?)
  | H : load_resampler _ _ = Done _ _ _ |- _ =>
      apply load_resampler_done in H as (? & ? & ?)
  | H : get_core _ = Done _ _ _ |- _ => apply get_core_done in H as (? & ? & ?)
  | H : store_output _ _ _ = Done _ _ _ |- _ =>
      apply store_output_done in H as (? & ?)
  | H : pa_source_notify _ _ = Done _ _ _ |- _ =>
      apply source_notify_done in H as (? & ? & ? & ? & ?)
  | H : pa_resampler_free _ _ = Done _ _ _ |- _ =>
      apply resampler_free_done in H as (? & ? & ?)
  | H : crash _ _ = Done _ _ _ |- _ => discriminate H
  end; subst.

Section Keeping.
Context {collab : Collaborators}.

Lemma free_keeps_consistent p w u w' tr :
  consistent w ->
  source_output_free p w = Done u w' tr ->
  consistent w'.
Proof.
  intros Hc H. unfold source_output_free in H.
  inv_bind H as o H1. apply load_output_done in H1 as (Hl & -> & ->).
  inv_bind H as u1 H1.
  assert (Hmid : consistent w0 /\ exists o1,
            w_outputs w0 !! p = Some o1 /\ so_source o1 = None).
  { destruct (output_state_eqb (so_state o) PA_SOURCE_OUTPUT_DISCONNECTED) eqn:E;
      simpl in H1.
    - apply ret_done in H1 as (_ & -> & _).
      split; [exact Hc|]. exists o. split; [exact Hl|].
      apply (cons_state w Hc p o Hl). now destruct (so_state o).
    - apply disconnect_done in H1
        as (o' & s & src & Hl' & Hst & Hsrc & Hs & -> & _).
      assert (o' = o) by congruence. subst o'.
      split; [now apply consistent_disconnected|].
      eexists. split; [apply lookup_insert_eq|reflexivity]. }
  destruct Hmid as (Hc0 & o1 & Hl1 & Hsrc1).
  inv_bind H as o2 H2. apply load_output_done in H2 as (Hl2 & -> & ->).
  assert (o2 = o1) by congruence. subst o2.
  inv_bind H as u2 H2. apply emit_done in H2 as (-> & ->).
  inv_bind H as u3 H2.
  assert (Hc2 : consistent w1 /\ w_outputs w1 !! p = Some o1).
  { destruct (so_resampler o1) as [r|].
    - apply resampler_free_done in H2 as (_ & -> & _).
      split; [|exact Hl1].
      eapply consistent_same; [apply same_membership_without_stage|exact Hc0].
    - apply ret_done in H2 as (_ & -> & _). auto. }
  destruct Hc2 as (Hc2 & Hl2').
  injection H as _ <- _.
  exact (consistent_without_output w1 p o1 Hc2 Hl2' Hsrc1).
Qed.

Lemma move_to_commit_done w p dest o nr r w' tr :
  move_to_commit p dest o nr w = Done r w' tr ->
  so_source o <> Some dest ->
  exists origin og d,
    so_source o = Some origin /\
    w_sources w !! origin = Some og /\
    w_sources w !! dest = Some d /\
    w' = moved_world p dest origin o og d nr w.
Proof.
  intros H Hne. pose proof H as H0. unfold move_to_commit in H0.
  inv_bind H0 as origin H1. apply deref_done in H1 as (Hsrc & -> & ->).
  inv_bind H0 as og H1. apply load_source_done in H1 as (Hog & -> & ->).
  inv_bind H0 as u1 H1. injection H1 as <- <- <-.
  inv_bind H0 as d H1. apply load_source_done in H1 as (Hd & -> & ->).
  assert (Hod : origin <> dest) by congruence.
  simpl in Hd. rewrite lookup_insert_ne in Hd by exact Hod.
  inv_bind H0 as u2 H1. injection H1 as <- <- <-.
  inv_bind H0 as u3 H1. injection H1 as <- <- <-.
  inv_bind H0 as u4 H1.
  assert (Hown : ptr_eqb nr (so_resampler o) = false ->
            forall q, so_resampler o = Some q -> is_Some (w_resamplers w !! q)).
  { intros E q Hq. rewrite E, Hq in H1. simpl in H1.
    inv_bind H1 as u5 H2.
    apply resampler_free_done in H2 as (Hlive & _). exact Hlive. }
  rewrite (move_to_commit_run w p dest origin o og d nr Hsrc Hod Hog Hd Hown) in H.
  injection H as _ <- _.
  exists origin, og, d. auto.
Qed.

Lemma move_to_keeps_consistent p dest junk w r w' tr :
  consistent w ->
  pa_source_output_move_to p dest junk w = Done r w' tr ->
  consistent w'.
Proof.
  intros Hc H. unfold pa_source_output_move_to in H.
  inv_bind H as o H1. apply load_output_done in H1 as (Hl & -> & ->).
  inv_bind H as u1 H1. apply assert_done in H1 as (Href & -> & ->).
  destruct (ptr_eqb (Some dest) (so_source o)) eqn:Esame.
  { apply ret_done in H as (_ & -> & _). exact Hc. }
  apply ptr_eqb_false in Esame.
  inv_bind H as d H1. apply load_source_done in H1 as (Hd & -> & ->).
  destruct (_ <=? _)%nat.
  { inv_bind H as u2 H1. apply emit_done in H1 as (-> & ->).
    apply ret_done in H as (_ & -> & _). exact Hc. }
  inv_bind H as reuse H1.
  apply move_to_reuse_pure in H1 as (-> & ->).
  assert (Hne : so_source o <> Some dest) by congruence.
  assert (Hcommit : forall nr wa ra wb tb,
            same_membership w wa ->
            move_to_commit p dest o nr wa = Done ra wb tb -> consistent wb).
  { intros nr wa ra wb tb Hsame Hrun.
    pose proof (consistent_same w wa Hsame Hc) as Hc0.
    destruct Hsame as (_ & _ & Hout & _).
    apply move_to_commit_done in Hrun
      as (origin & og & d0 & Hsrc & Hog & Hd0 & ->); [|exact Hne].
    apply consistent_moved; auto; try congruence. }
  destruct reuse.
  { exact (Hcommit _ _ _ _ _ (same_membership_refl w) H). }
  destruct (shape_differs _ _ _ _).
  - inv_bind H as c H1. apply get_core_done in H1 as (-> & -> & ->).
    inv_bind H as nr H1.
    apply resampler_new_done in H1 as (Hsame & Hnone & _ & ->).
    destruct nr as [q|].
    + exact (Hcommit _ _ _ _ _ Hsame H).
    + inv_bind H as u3 H1. apply emit_done in H1 as (-> & ->).
      apply ret_done in H as (_ & -> & _).
      rewrite (Hnone eq_refl). exact Hc.
  - exact (Hcommit _ _ _ _ _ (same_membership_refl w) H).
Qed.

Lemma new_keeps_consistent s driver name spec map m w r w' tr :
  consistent w ->
  pa_source_output_new s driver name spec map m w = Done r w' tr ->
  consistent w'.
Proof.
  intros Hc H.
  apply new_done in H as [(_ & -> & _)|H]; [exact Hc|].
  destruct H as (src & obj & w0 & t0 & Hs & _ & Hcore & Hsrcs & Houts & Hnext
                 & _ & _ & -> & _ & _ & _ & Hst & Hsrc & _).
  apply consistent_created; auto.
  - apply (consistent_same w w0); [|exact Hc]. repeat split; auto.
  - now rewrite Hsrcs.
Qed.

Lemma unref_keeps_consistent p w u w' tr :
  consistent w ->
  pa_source_output_unref p w = Done u w' tr ->
  consistent w'.
Proof.
  intros Hc H. unfold pa_source_output_unref in H.
  inv_bind H as o H1. apply load_output_done in H1 as (Hl & -> & ->).
  inv_bind H as u1 H1. apply assert_done in H1 as (Href & -> & ->).
  inv_bind H as u2 H1. apply store_output_done in H1 as (-> & ->).
  assert (Hc1 : consistent (with_output p (set_ref (so_ref o - 1) o) w)).
  { apply (consistent_with_output w p o); auto.
    exact (cons_state w Hc p o Hl). }
  destruct (so_ref o - 1 =? 0).
  - exact (free_keeps_consistent _ _ _ _ _ Hc1 H).
  - apply ret_done in H as (_ & -> & _). exact Hc1.
Qed.

Lemma cork_keeps_consistent p b w u w' tr :
  consistent w ->
  pa_source_output_cork p b w = Done u w' tr ->
  consistent w'.
Proof.
  intros Hc H. unfold pa_source_output_cork in H.
  inv_bind H as o H1. apply load_output_done in H1 as (Hl & -> & ->).
  inv_bind H as u1 H1. apply assert_done in H1 as (Href & -> & ->).
  destruct (output_state_eqb (so_state o) PA_SOURCE_OUTPUT_DISCONNECTED) eqn:E.
  { apply ret_done in H as (_ & -> & _). exact Hc. }
  inv_bind H as u2 H1. apply store_output_done in H1 as (-> & ->).
  assert (Hc1 : consistent
            (with_output p
               (set_state (if b =? 0 then PA_SOURCE_OUTPUT_RUNNING
                           else PA_SOURCE_OUTPUT_CORKED) o) w)).
  { apply (consistent_with_output w p o); auto. simpl.
    pose proof (cons_state w Hc p o Hl) as Hst.
    split.
    - destruct (b =? 0); discriminate.
    - intros Hnone. apply Hst in Hnone. rewrite Hnone in E. discriminate. }
  destruct (_ && _).
  - apply source_notify_done in H as (s' & _ & _ & -> & _). exact Hc1.
  - apply ret_done in H as (_ & -> & _). exact Hc1.
Qed.

Lemma push_keeps_consistent p chunk w u w' tr :
  consistent w ->
  pa_source_output_push p chunk w = Done u w' tr ->
  consistent w'.
Proof.
  intros Hc H. unfold pa_source_output_push in H.
  inv_bind H as o H1. apply load_output_done in H1 as (Hl & -> & ->).
  inv_bind H as u1 H1. apply assert_done in H1 as (_ & -> & ->).
  inv_bind H as u2 H1. apply assert_done in H1 as (_ & -> & ->).
  destruct (output_state_eqb _ _).
  { apply ret_done in H as (_ & -> & _). exact Hc. }
  destruct (so_resampler o) as [r|].
  - inv_bind H as rchunk H1.
    apply resampler_run_done in H1 as (Hsame & ->).
    pose proof (consistent_same _ _ Hsame Hc) as Hc0.
    destruct (mc_length rchunk =? 0).
    + apply ret_done in H as (_ & -> & _). exact Hc0.
    + repeat inv_step. exact Hc0.
  - repeat inv_step. exact Hc.
Qed.

(** One call, whichever it is, takes a consistent world to a consistent
    world. *)
Lemma call_keeps_consistent c w u w' tr :
  consistent w -> run_call c w = Done u w' tr -> consistent w'.
Proof.
  intros Hc H. destruct c; simpl in H.
  - inv_bind H as r H1. apply ret_done in H as (_ & -> & _).
    exact (new_keeps_consistent _ _ _ _ _ _ _ _ _ _ Hc H1).
  - apply disconnect_done in H as (o & s & src & Hl & _ & Hsrc & Hs & -> & _).
    now apply consistent_disconnected.
  - exact (unref_keeps_consistent _ _ _ _ _ Hc H).
  - inv_bind H as r H1. apply ret_done in H as (_ & -> & _).
    unfold pa_source_output_ref in H1.
    inv_bind H1 as o H2. apply load_output_done in H2 as (Hl & -> & ->).
    inv_bind H1 as u1 H2. apply assert_done in H2 as (_ & -> & ->).
    inv_bind H1 as u2 H2. apply store_output_done in H2 as (-> & ->).
    apply ret_done in H1 as (_ & -> & _).
    apply (consistent_with_output w p o); auto.
    exact (cons_state w Hc p o Hl).
  - unfold pa_source_output_kill in H.
    inv_bind H as o H1. apply load_output_done in H1 as (Hl & -> & ->).
    inv_bind H as u1 H1. apply assert_done in H1 as (_ & -> & ->).
    destruct (so_kill o); repeat inv_step; exact Hc.
  - exact (push_keeps_consistent _ _ _ _ _ _ Hc H).
  - unfold pa_source_output_set_name in H.
    inv_bind H as o H1. apply load_output_done in H1 as (Hl & -> & ->).
    inv_bind H as u1 H1. apply assert_done in H1 as (_ & -> & ->).
    inv_bind H as u0 H1. apply xfree_string_done in H1 as (-> & ->).
    inv_bind H as u2 H1. apply store_output_done in H1 as (-> & ->).
    repeat inv_step.
    apply (consistent_with_output w p o); auto.
    exact (cons_state w Hc p o Hl).
  - inv_bind H as r H1. apply ret_done in H as (_ & -> & _).
    unfold pa_source_output_get_latency in H1.
    inv_bind H1 as o H2. apply load_output_done in H2 as (Hl & -> & ->).
    inv_bind H1 as u1 H2. apply assert_done in H2 as (_ & -> & ->).
    destruct (so_get_latency o); repeat inv_step; exact Hc.
  - exact (cork_keeps_consistent _ _ _ _ _ _ Hc H).
  - inv_bind H as r H1. apply ret_done in H as (_ & -> & _).
    unfold pa_source_output_get_resample_method, pa_resampler_get_method in H1.
    inv_bind H1 as o H2. apply load_output_done in H2 as (Hl & -> & ->).
    inv_bind H1 as u1 H2. apply assert_done in H2 as (_ & -> & ->).
    destruct (so_resampler o); repeat inv_step; exact Hc.
  - inv_bind H as r H1. apply ret_done in H as (_ & -> & _).
    exact (move_to_keeps_consistent _ _ _ _ _ _ _ Hc H1).
Qed.

Lemma calls_keep_consistent cs : forall w u w' tr,
  consistent w -> run_calls cs w = Done u w' tr -> consistent w'.
Proof.
  induction cs as [|c cs IH]; intros w u w' tr Hc H; simpl in H.
  - apply ret_done in H as (_ & -> & _). exact Hc.
  - inv_bind H as u1 H1.
    exact (IH _ _ _ _ (call_keeps_consistent _ _ _ _ _ Hc H1) H).
Qed.

End Keeping.

Section LifeCycle.
Context {collab : Collaborators}.

Lemma disconnect_run w p o s src :
  w_outputs w !! p = Some o ->
  so_state o <> PA_SOURCE_OUTPUT_DISCONNECTED ->
  so_source o = Some s ->
  w_sources w !! s = Some src ->
  pa_source_output_disconnect p w =
    Done tt (disconnected_world p s src o w)
         [EvSubscription PA_SUBSCRIPTION_EVENT_REMOVE (so_index o)].
Proof.
  intros Hl Hst Hsrc Hs. unfold pa_source_output_disconnect.
  rewrite (bind_pure _ _ w o) by (unfold load_output; now rewrite Hl).
  assert (E : output_state_eqb (so_state o) PA_SOURCE_OUTPUT_DISCONNECTED = false)
    by (destruct (so_state o); simpl; congruence).
  rewrite E, Hsrc. simpl.
  rewrite (bind_pure _ _ w tt) by reflexivity.
  rewrite (bind_pure _ _ w tt) by reflexivity.
  rewrite (bind_pure _ _ w s) by reflexivity.
  rewrite (bind_pure _ _ w src) by (unfold load_source; now rewrite Hs).
  unfold bind, get_core, put_core, load_source, store_source, store_output,
    pa_subscription_post, emit.
  simpl. rewrite Hs. reflexivity.
Qed.

(** The teardown, run on an output whose stage (if any) is alive and
    which, unless disconnected, hangs on a source of the world. *)
Lemma free_run w p o :
  w_outputs w !! p = Some o ->
  (so_state o <> PA_SOURCE_OUTPUT_DISCONNECTED ->
   exists s, so_source o = Some s /\ is_Some (w_sources w !! s)) ->
  (forall r, so_resampler o = Some r -> is_Some (w_resamplers w !! r)) ->
  exists w',
    source_output_free p w = Done tt w' (teardown_trace p o) /\
    w_outputs w' !! p = None /\
    in_registry w' p =
      (if output_state_eqb (so_state o) PA_SOURCE_OUTPUT_DISCONNECTED
       then in_registry w p else false) /\
    (forall s, so_source o = Some s ->
       so_state o <> PA_SOURCE_OUTPUT_DISCONNECTED -> member_of w' s p = false) /\
    (forall r, so_resampler o = Some r -> w_resamplers w' !! r = None).
Proof.
  intros Hl Hsrc Hown. unfold source_output_free, teardown_trace.
  rewrite (bind_pure _ _ w o) by (unfold load_output; now rewrite Hl).
  destruct (output_state_eqb (so_state o) PA_SOURCE_OUTPUT_DISCONNECTED) eqn:E.
  - cbn [negb].
    rewrite (bind_pure _ _ w tt) by reflexivity.
    rewrite (bind_pure _ _ w o) by (unfold load_output; now rewrite Hl).
    destruct (so_resampler o) as [r|] eqn:Er.
    + destruct (Hown r eq_refl) as [v Hv].
      unfold bind, pa_log_info, emit, pa_resampler_free, bind, load_resampler,
        free_output. simpl. rewrite Hv. simpl.
      eexists. split; [reflexivity|]. simpl.
      split; [apply lookup_delete_eq|]. split; [reflexivity|].
      split; [intros s0 _ Hn; destruct (so_state o); simpl in E; congruence|].
      intros r' [= <-]. apply lookup_delete_eq.
    + unfold bind, pa_log_info, emit, ret, free_output. simpl.
      eexists. split; [reflexivity|]. simpl.
      split; [apply lookup_delete_eq|]. split; [reflexivity|].
      split; [intros s0 _ Hn; destruct (so_state o); simpl in E; congruence|].
      discriminate.
  - cbn [negb].
    assert (Hst : so_state o <> PA_SOURCE_OUTPUT_DISCONNECTED).
    { intros Heq. rewrite Heq in E. discriminate. }
    destruct (Hsrc Hst) as (s & Hs & [src Hsrc']).
    unfold bind at 1.
    rewrite (disconnect_run w p o s src Hl Hst Hs Hsrc').
    set (w1 := disconnected_world p s src o w).
    set (o1 := set_state PA_SOURCE_OUTPUT_DISCONNECTED
                 (clear_hooks (set_source None o))).
    assert (Hl1 : w_outputs w1 !! p = Some o1) by apply lookup_insert_eq.
    rewrite (bind_pure _ _ w1 o1) by (unfold load_output; now rewrite Hl1).
    change (so_resampler o1) with (so_resampler o).
    destruct (so_resampler o) as [r|] eqn:Er.
    + destruct (Hown r eq_refl) as [v Hv].
      unfold bind, pa_log_info, emit, pa_resampler_free, bind, load_resampler,
        free_output. simpl. rewrite Hv. simpl.
      eexists. split; [reflexivity|]. simpl.
      split; [apply lookup_delete_eq|].
      split; [unfold in_registry; simpl; apply contains_remove_same|].
      split.
      { intros s0 Hs0 _. assert (s0 = s) by congruence. subst s0.
        unfold member_of; simpl. rewrite lookup_insert_eq. simpl.
        apply contains_remove_same. }
      intros r' [= <-]. apply lookup_delete_eq.
    + unfold bind, pa_log_info, emit, ret, free_output. simpl.
      eexists. split; [reflexivity|]. simpl.
      split; [apply lookup_delete_eq|].
      split; [unfold in_registry; simpl; apply contains_remove_same|].
      split; [|discriminate].
      intros s0 Hs0 _. assert (s0 = s) by congruence. subst s0.
      unfold member_of; simpl. rewrite lookup_insert_eq. simpl.
      apply contains_remove_same.
Qed.

Lemma teardown_trace_once p o : count (is_teardown p) (teardown_trace p o) = 1%nat.
Proof.
  unfold teardown_trace.
  rewrite !count_app.
  destruct (output_state_eqb _ _), (so_resampler o); simpl;
    rewrite Pos.eqb_refl; reflexivity.
Qed.

Lemma int_wrap_in_range z : INT_MIN <= z <= INT_MAX -> int_wrap z = z.
Proof.
  unfold int_wrap, INT_MIN, INT_MAX. intros Hz.
  rewrite Z.mod_small by lia. lia.
Qed.

(** What the increment leaves in the count, overflow included. *)
Lemma ref_run_wrap w p o :
  w_outputs w !! p = Some o ->
  1 <= so_ref o ->
  pa_source_output_ref p w =
    Done p (with_output p (set_ref (int_wrap (so_ref o + 1)) o) w) [].
Proof.
  intros Hl Href. unfold pa_source_output_ref.
  rewrite (bind_pure _ _ w o) by (unfold load_output; now rewrite Hl).
  apply Z.leb_le in Href. rewrite Href.
  rewrite (bind_pure _ _ w tt) by reflexivity.
  reflexivity.
Qed.

Lemma ref_run w p o :
  w_outputs w !! p = Some o ->
  1 <= so_ref o ->
  so_ref o < INT_MAX ->
  pa_source_output_ref p w =
    Done p (with_output p (set_ref (so_ref o + 1) o) w) [].
Proof.
  intros Hl Href Hmax. rewrite (ref_run_wrap w p o Hl Href).
  rewrite int_wrap_in_range; [reflexivity|].
  unfold INT_MIN, INT_MAX in *. lia.
Qed.

Lemma unref_run_held w p o :
  w_outputs w !! p = Some o ->
  1 < so_ref o ->
  pa_source_output_unref p w =
    Done tt (with_output p (set_ref (so_ref o - 1) o) w) [].
Proof.
  intros Hl Href. unfold pa_source_output_unref.
  rewrite (bind_pure _ _ w o) by (unfold load_output; now rewrite Hl).
  assert (E1 : (1 <=? so_ref o) = true) by (apply Z.leb_le; lia).
  assert (E2 : (so_ref o - 1 =? 0) = false) by (apply Z.eqb_neq; lia).
  rewrite E1.
  rewrite (bind_pure _ _ w tt) by reflexivity.
  unfold bind, store_output. rewrite E2. reflexivity.
Qed.

Lemma unref_run_last w p o :
  w_outputs w !! p = Some o ->
  so_ref o = 1 ->
  pa_source_output_unref p w =
    source_output_free p (with_output p (set_ref 0 o) w).
Proof.
  intros Hl Href. unfold pa_source_output_unref.
  rewrite (bind_pure _ _ w o) by (unfold load_output; now rewrite Hl).
  rewrite Href. simpl.
  rewrite (bind_pure _ _ w tt) by reflexivity.
  unfold bind at 1. unfold store_output at 1.
  now destruct (source_output_free p _).
Qed.

End LifeCycle.

Section ReferenceCount.
Context {collab : Collaborators}.

(** C9, as the code has it.  The object Create returns has reference
    count 1.  On an object with count at least 1 and below INT_MAX, the
    largest value the count can hold, ref adds one to the count; on an
    object with count above 1, unref takes one away; neither does anything
    else.  The unref that takes the count from 1 to 0 runs the teardown,
    and only that one does: the output is disconnected first if it was not
    yet (removal notice, out of the registry and of its source's member
    set), then its stage is released, then its name and driver strings,
    then the object itself.  Below count 1 both calls stop at their
    assertion.  So after Create, two refs and three unrefs, the first two
    unrefs only count down and the third tears the object down, once. *)
Theorem reference_count_life_cycle
    (w : world) (s : ptr) (driver : option string) (name : string)
    (spec : pa_sample_spec) (map : option pa_channel_map) (m : Z)
    (p : ptr) (w1 : world) (tr1 : list event) :
  pa_source_output_new s driver name spec map m w = Done (Some p) w1 tr1 ->
  (exists o1, w_outputs w1 !! p = Some o1 /\ so_ref o1 = 1) /\
  (forall wx q o,
     w_outputs wx !! q = Some o -> 1 <= so_ref o -> so_ref o < INT_MAX ->
     pa_source_output_ref q wx =
       Done q (with_output q (set_ref (so_ref o + 1) o) wx) []) /\
  (forall wx q o,
     w_outputs wx !! q = Some o -> 1 < so_ref o ->
     pa_source_output_unref q wx =
       Done tt (with_output q (set_ref (so_ref o - 1) o) wx) []) /\
  (forall wx q o,
     w_outputs wx !! q = Some o -> so_ref o < 1 ->
     pa_source_output_unref q wx = Crash (AssertionFailed "o->ref >= 1") /\
     pa_source_output_ref q wx = Crash (AssertionFailed "o->ref >= 1")) /\
  (forall wx q o,
     live_output wx q o -> so_ref o = 1 ->
     (forall r, so_resampler o = Some r -> is_Some (w_resamplers wx !! r)) ->
     exists w',
       pa_source_output_unref q wx = Done tt w' (teardown_trace q o) /\
       count (is_teardown q) (teardown_trace q o) = 1%nat /\
       w_outputs w' !! q = None /\
       (so_state o <> PA_SOURCE_OUTPUT_DISCONNECTED ->
        in_registry w' q = false /\
        forall s', so_source o = Some s' -> member_of w' s' q = false) /\
       (forall r, so_resampler o = Some r -> w_resamplers w' !! r = None)) /\
  (exists o1 w2 w3 w4 w5 w6,
     w_outputs w1 !! p = Some o1 /\
     pa_source_output_ref p w1 = Done p w2 [] /\
     pa_source_output_ref p w2 = Done p w3 [] /\
     pa_source_output_unref p w3 = Done tt w4 [] /\
     pa_source_output_unref p w4 = Done tt w5 [] /\
     pa_source_output_unref p w5 = Done tt w6 (teardown_trace p o1) /\
     count (is_teardown p) ([] ++ [] ++ [] ++ [] ++ teardown_trace p o1) = 1%nat /\
     w_outputs w6 !! p = None).
Proof.
  intros Hnew.
  assert (Hlast : forall wx q o,
     w_outputs wx !! q = Some o -> so_ref o = 1 ->
     (so_state o <> PA_SOURCE_OUTPUT_DISCONNECTED ->
      exists s0, so_source o = Some s0 /\ is_Some (w_sources wx !! s0)) ->
     (forall r, so_resampler o = Some r -> is_Some (w_resamplers wx !! r)) ->
     exists w',
       pa_source_output_unref q wx = Done tt w' (teardown_trace q o) /\
       count (is_teardown q) (teardown_trace q o) = 1%nat /\
       w_outputs w' !! q = None /\
       (so_state o <> PA_SOURCE_OUTPUT_DISCONNECTED ->
        in_registry w' q = false /\
        forall s', so_source o = Some s' -> member_of w' s' q = false) /\
       (forall r, so_resampler o = Some r -> w_resamplers w' !! r = None)).
  { intros wx q o Hl Href Hsrc Hown.
    rewrite (unref_run_last wx q o Hl Href).
    destruct (free_run (with_output q (set_ref 0 o) wx) q (set_ref 0 o))
      as (w' & Hrun & Hgone & Hreg & Hmem & Hst).
    - apply with_output_lookup.
    - exact Hsrc.
    - exact Hown.
    - exists w'. split; [exact Hrun|].
      split; [apply teardown_trace_once|].
      split; [exact Hgone|].
      split; [|exact Hst].
      intros Hnd. split.
      + rewrite Hreg. simpl. now destruct (so_state o).
      + intros s' Hs'. exact (Hmem s' Hs' Hnd). }
  split.
  { apply new_done in Hnew as [(Hr & _)|Hnew]; [discriminate|].
    destruct Hnew as (src & obj & w0 & t0 & _ & _ & _ & _ & _ & _ & _ & Hp & ->
                      & _ & _ & Href & _).
    injection Hp as ->. exists obj. split; [apply lookup_insert_eq|exact Href]. }
  split; [intros wx q o; apply ref_run|].
  split; [intros wx q o; apply unref_run_held|].
  split.
  { intros wx q o Hl Href.
    assert (E : (1 <=? so_ref o) = false) by (apply Z.leb_gt; lia).
    unfold pa_source_output_unref, pa_source_output_ref.
    rewrite !(bind_pure _ _ wx o) by (unfold load_output; now rewrite Hl).
    rewrite E. split; reflexivity. }
  split.
  { intros wx q o (Hl & _ & Hsrc) Href Hown. now apply Hlast. }
  apply new_done in Hnew as [(Hr & _)|Hnew]; [discriminate|].
  destruct Hnew as (src & obj & w0 & t0 & Hs & _ & _ & Hsrcs & _ & _ & Hown & Hp
                    & -> & _ & _ & Href & Hst & Hsrc & _).
  injection Hp as ->.
  set (w1 := created_world s src obj w0).
  assert (Hl1 : w_outputs w1 !! w_next w0 = Some obj) by apply lookup_insert_eq.
  set (p := w_next w0) in *.
  assert (Hw : forall k, w_outputs (with_output p (set_ref k obj) w1) !! p
                         = Some (set_ref k obj))
    by (intros; apply with_output_lookup).
  exists obj,
    (with_output p (set_ref 2 obj) w1), (with_output p (set_ref 3 obj) w1),
    (with_output p (set_ref 2 obj) w1), (with_output p (set_ref 1 obj) w1).
  destruct (Hlast (with_output p (set_ref 1 obj) w1) p (set_ref 1 obj))
    as (w6 & Hrun & Honce & Hgone & _).
  { apply Hw. }
  { reflexivity. }
  { intros _. exists s. split; [exact Hsrc|]. simpl.
    rewrite lookup_insert_eq. eauto. }
  { exact Hown. }
  exists w6.
  split; [exact Hl1|].
  split. { rewrite (ref_run w1 p obj Hl1) by (unfold INT_MAX; lia).
           now rewrite Href. }
  split. { rewrite (ref_run _ p _ (Hw 2)) by (unfold INT_MAX; simpl; lia).
           now rewrite with_output_twice. }
  split. { rewrite (unref_run_held _ p _ (Hw 3)) by (simpl; lia).
           now rewrite with_output_twice. }
  split. { rewrite (unref_run_held _ p _ (Hw 2)) by (simpl; lia).
           now rewrite with_output_twice. }
  split; [exact Hrun|].
  split; [exact Honce|exact Hgone].
Qed.

End ReferenceCount.

Section Membership.
Context {collab : Collaborators}.

(** C8, as the code has it.  Start from a consistent world.  A successful
    Create leaves the new output in the global registry, under the index
    stored in the object, and in the member set of its source (under a key
    that this set hands out on its own).  A Disconnect that returns leaves
    the output in neither collection.  After any sequence of calls of this
    module that runs to its end, every source output that still exists is
    either attached, and then both in the registry and in the member set
    of its source, or detached, and then in neither the registry nor any
    member set; it is never in the member set of another source. *)
Theorem membership_is_all_or_nothing (w : world) :
  consistent w ->
  (forall s driver name spec map m p w' tr,
     pa_source_output_new s driver name spec map m w = Done (Some p) w' tr ->
     exists o,
       w_outputs w' !! p = Some o /\
       so_source o = Some s /\
       registry_index w' p = Some (so_index o) /\
       in_registry w' p = true /\
       member_of w' s p = true) /\
  (forall p u w' tr,
     pa_source_output_disconnect p w = Done u w' tr ->
     in_registry w' p = false /\ forall s, member_of w' s p = false) /\
  (forall cs u w' tr,
     run_calls cs w = Done u w' tr ->
     forall p o,
       w_outputs w' !! p = Some o ->
       match so_source o with
       | Some s => in_registry w' p = true /\ member_of w' s p = true
       | None => in_registry w' p = false
       end /\
       (forall s, member_of w' s p = true -> so_source o = Some s)).
Proof.
  intros Hc. split; [|split].
  - intros s driver name spec map m p w' tr Hnew.
    pose proof (new_keeps_consistent _ _ _ _ _ _ _ _ _ _ Hc Hnew) as Hc'.
    apply new_done in Hnew as [(Hr & _)|Hnew]; [discriminate|].
    destruct Hnew as (src & obj & w0 & t0 & Hs & _ & Hcore & _ & _ & _ & _ & Hp
                      & -> & Hreg & _ & _ & _ & Hsrc & Hidx & _).
    injection Hp as ->.
    assert (Hl : w_outputs (created_world s src obj w0) !! w_next w0 = Some obj)
      by apply lookup_insert_eq.
    exists obj. split; [exact Hl|]. split; [exact Hsrc|].
    destruct (cons_attached _ Hc' _ _ _ Hl Hsrc) as (_ & Hin & Hmem).
    split; [|auto].
    unfold registry_index; simpl.
    rewrite get_index_put_fresh by exact Hreg.
    now rewrite Hidx, Hcore.
  - intros p u w' tr Hdis.
    apply disconnect_done in Hdis as (o & s & src & Hl & _ & Hsrc & Hs & -> & _).
    pose proof (consistent_disconnected w p s src o Hc Hl Hsrc Hs) as Hc'.
    assert (Hl' : w_outputs (disconnected_world p s src o w) !! p
                  = Some (set_state PA_SOURCE_OUTPUT_DISCONNECTED
                            (clear_hooks (set_source None o))))
      by apply lookup_insert_eq.
    split; [exact (cons_detached _ Hc' _ _ Hl' eq_refl)|].
    intros s'.
    destruct (member_of (disconnected_world p s src o w) s' p) eqn:E;
      [|reflexivity].
    destruct (cons_members _ Hc' _ _ E) as (o' & Ho' & Hs').
    rewrite Hl' in Ho'. injection Ho' as <-. discriminate.
  - intros cs u w' tr Hrun p o Hl.
    pose proof (calls_keep_consistent cs _ _ _ _ Hc Hrun) as Hc'.
    split.
    + destruct (so_source o) as [s|] eqn:Hsrc.
      * destruct (cons_attached _ Hc' _ _ _ Hl Hsrc) as (_ & Hin & Hmem). auto.
      * exact (cons_detached _ Hc' _ _ Hl Hsrc).
    + intros s Hm. destruct (cons_members _ Hc' _ _ Hm) as (o' & Ho' & Hs').
      congruence.
Qed.

End Membership.

(** ** The code at work on the example worlds *)

(** A world without source outputs, with an empty registry and empty
    member sets, is consistent. *)
Lemma consistent_initial w :
  w_outputs w = ∅ ->
  ix_entries (c_source_outputs (w_core w)) = [] ->
  map_Forall (fun _ src => ix_entries (s_outputs src) = []) (w_sources w) ->
  consistent w.
Proof.
  intros Ho Hr Hs.
  assert (Hreg : forall p, in_registry w p = false).
  { intros p. unfold in_registry, pa_idxset_contains, pa_idxset_get_index.
    now rewrite Hr. }
  assert (Hmem : forall s p, member_of w s p = false).
  { intros s p. unfold member_of.
    destruct (w_sources w !! s) as [src|] eqn:E; [|reflexivity].
    unfold pa_idxset_contains, pa_idxset_get_index.
    now rewrite (Hs s src E). }
  split.
  - intros p o s Hl. rewrite Ho, lookup_empty in Hl. discriminate.
  - intros p o Hl. rewrite Ho, lookup_empty in Hl. discriminate.
  - intros s p Hm. rewrite Hmem in Hm. discriminate.
  - intros p Hp. rewrite Hreg in Hp. discriminate.
  - intros p o Hl. rewrite Ho, lookup_empty in Hl. discriminate.
  - intros p [o Hl]. rewrite Ho, lookup_empty in Hl. discriminate.
Qed.

Lemma fresh_world_consistent : consistent fresh_world.
Proof.
  apply consistent_initial; [reflexivity|reflexivity|].
  unfold fresh_world; simpl.
  repeat (apply map_Forall_insert_2; [reflexivity|]).
  apply map_Forall_empty.
Qed.

Ltac by_running := vm_compute; try reflexivity; try discriminate; try lia.

Ltac live_by_running s :=
  split; [by_running|split; [by_running|
    intros _; exists s; split; [by_running|vm_compute; eexists; reflexivity]]].

Section Examples.
#[local] Existing Instance stand_in.

Lemma push_running_plain_delivers_once_witness :
  w_outputs studio_hooked !! 100%positive
    = Some (output_at 100%positive studio_hooked) /\
  so_state (output_at 100%positive studio_hooked) = PA_SOURCE_OUTPUT_RUNNING /\
  so_resampler (output_at 100%positive studio_hooked) = None /\
  so_push (output_at 100%positive studio_hooked) = Some 7%positive /\
  mc_length a_chunk <> 0 /\
  pa_source_output_push 100%positive a_chunk studio_hooked
    = Done tt studio_hooked [EvHookPush 7%positive 100%positive a_chunk].
Proof.
  assert (H1 : w_outputs studio_hooked !! 100%positive
               = Some (output_at 100%positive studio_hooked)) by by_running.
  assert (H2 : so_state (output_at 100%positive studio_hooked)
               = PA_SOURCE_OUTPUT_RUNNING) by by_running.
  assert (H3 : so_resampler (output_at 100%positive studio_hooked) = None)
    by by_running.
  assert (H4 : so_push (output_at 100%positive studio_hooked) = Some 7%positive)
    by by_running.
  assert (H5 : mc_length a_chunk <> 0) by by_running.
  exact (conj H1 (conj H2 (conj H3 (conj H4 (conj H5
           (push_running_plain_delivers_once studio_hooked 100%positive _
              7%positive a_chunk H1 H2 H3 H4 H5)))))).
Defined.

Lemma push_corked_drops_witness :
  w_outputs studio_corked !! 100%positive
    = Some (output_at 100%positive studio_corked) /\
  so_state (output_at 100%positive studio_corked) = PA_SOURCE_OUTPUT_CORKED /\
  mc_length a_chunk <> 0 /\
  so_push (output_at 100%positive studio_corked) <> None /\
  count is_hook_push
    (events_of (pa_source_output_push 100%positive a_chunk studio_corked)) = 0%nat /\
  count is_resampler_run
    (events_of (pa_source_output_push 100%positive a_chunk studio_corked)) = 0%nat /\
  pa_source_output_push 100%positive a_chunk studio_corked
    = Done tt studio_corked [].
Proof.
  assert (H1 : w_outputs studio_corked !! 100%positive
               = Some (output_at 100%positive studio_corked)) by by_running.
  assert (H2 : so_state (output_at 100%positive studio_corked)
               = PA_SOURCE_OUTPUT_CORKED) by by_running.
  assert (H3 : mc_length a_chunk <> 0) by by_running.
  assert (H4 : so_push (output_at 100%positive studio_corked) <> None)
    by by_running.
  destruct (push_corked_drops studio_corked 100%positive _ a_chunk H1 H2 H3)
    as (Ha & Hb & Hc).
  exact (conj H1 (conj H2 (conj H3 (conj H4 (conj Ha (conj Hb (Hc H4))))))).
Defined.

Lemma cork_wakes_on_uncork_edge_only_witness :
  live_output studio_corked 100%positive (output_at 100%positive studio_corked) /\
  so_state (output_at 100%positive studio_corked)
    <> PA_SOURCE_OUTPUT_DISCONNECTED /\
  count is_wake
    (events_of (pa_source_output_cork 100%positive 0 studio_corked)) = 1%nat /\
  count is_wake
    (events_of (pa_source_output_cork 100%positive 1 studio_corked)) = 0%nat /\
  count is_wake
    (events_of (cork_all 100%positive [1; 0] studio_corked)) = 1%nat /\
  count is_wake
    (events_of (cork_all 100%positive (1 :: 0 :: repeat 0 3) studio_corked))
    = 1%nat.
Proof.
  assert (H1 : live_output studio_corked 100%positive
                 (output_at 100%positive studio_corked))
    by live_by_running 1%positive.
  assert (H2 : so_state (output_at 100%positive studio_corked)
               <> PA_SOURCE_OUTPUT_DISCONNECTED) by by_running.
  destruct (cork_wakes_on_uncork_edge_only studio_corked 100%positive _ H1 H2)
    as (Ha & Hb & Hc & Hd).
  split; [exact H1|]. split; [exact H2|].
  split.
  { destruct (Ha 0) as (_ & Hyes & _). apply Hyes. split; by_running. }
  split.
  { destruct (Ha 1) as (_ & _ & Hno). apply Hno. intros [_ E]. discriminate E. }
  split.
  { destruct (Hb 1) as (_ & Hseq); [discriminate|exact Hseq]. }
  apply (Hc 1 3%nat). discriminate.
Defined.

Lemma move_factory_failure_changes_nothing_witness :
  live_output studio 100%positive (output_at 100%positive studio) /\
  so_source (output_at 100%positive studio) = Some 1%positive /\
  w_sources studio !! 3%positive = Some (source_at 3%positive studio) /\
  (pa_idxset_size (s_outputs (source_at 3%positive studio))
   < PA_MAX_OUTPUTS_PER_SOURCE)%nat /\
  shape_differs (so_sample_spec (output_at 100%positive studio))
    (so_channel_map (output_at 100%positive studio))
    (s_sample_spec (source_at 3%positive studio))
    (s_channel_map (source_at 3%positive studio)) = true /\
  exists tr,
    pa_source_output_move_to 100%positive 3%positive None studio
      = Done (-1) studio tr /\
    count is_subscription tr = 0%nat /\ count is_wake tr = 0%nat.
Proof.
  assert (H1 : live_output studio 100%positive (output_at 100%positive studio))
    by live_by_running 1%positive.
  assert (H2 : so_source (output_at 100%positive studio) = Some 1%positive)
    by by_running.
  assert (H3 : w_sources studio !! 3%positive
               = Some (source_at 3%positive studio)) by by_running.
  assert (H4 : (pa_idxset_size (s_outputs (source_at 3%positive studio))
                < PA_MAX_OUTPUTS_PER_SOURCE)%nat) by by_running.
  assert (H5 : shape_differs (so_sample_spec (output_at 100%positive studio))
                 (so_channel_map (output_at 100%positive studio))
                 (s_sample_spec (source_at 3%positive studio))
                 (s_channel_map (source_at 3%positive studio)) = true)
    by by_running.
  assert (H6 : In (EvResamplerNew (s_sample_spec (source_at 3%positive studio))
                     (s_channel_map (source_at 3%positive studio))
                     (so_sample_spec (output_at 100%positive studio))
                     (so_channel_map (output_at 100%positive studio))
                     (so_resample_method (output_at 100%positive studio)) None)
                  (events_of (pa_source_output_move_to 100%positive 3%positive
                                None studio)))
    by (vm_compute; left; reflexivity).
  destruct (move_factory_failure_changes_nothing studio 100%positive 1%positive
              3%positive _ _ None H1 H2 H3 H4 H5 H6)
    as (w' & tr & Hrun & Hw & _ & _ & _ & Hsub & Hwake).
  refine (conj H1 (conj H2 (conj H3 (conj H4 (conj H5 _))))).
  exists tr. rewrite <- Hw at 2. exact (conj Hrun (conj Hsub Hwake)).
Defined.

Lemma move_between_alike_sources_keeps_stage_witness :
  live_output resampled 101%positive (output_at 101%positive resampled) /\
  so_source (output_at 101%positive resampled) = Some 1%positive /\
  w_sources resampled !! 1%positive = Some (source_at 1%positive resampled) /\
  w_sources resampled !! 2%positive = Some (source_at 2%positive resampled) /\
  2%positive <> 1%positive /\
  (pa_idxset_size (s_outputs (source_at 2%positive resampled))
   < PA_MAX_OUTPUTS_PER_SOURCE)%nat /\
  so_resampler (output_at 101%positive resampled) = Some 100%positive /\
  pa_sample_spec_equal (s_sample_spec (source_at 1%positive resampled))
    (s_sample_spec (source_at 2%positive resampled)) = true /\
  pa_channel_map_equal (s_channel_map (source_at 1%positive resampled))
    (s_channel_map (source_at 2%positive resampled)) = true /\
  exists w' o',
    pa_source_output_move_to 101%positive 2%positive None resampled =
      Done 0 w' [EvSubscription PA_SUBSCRIPTION_EVENT_CHANGE
                   (so_index (output_at 101%positive resampled));
                 EvSourceNotify 2%positive] /\
    w_outputs w' !! 101%positive = Some o' /\
    so_resampler o' = Some 100%positive /\
    w_resamplers w' = w_resamplers resampled /\
    member_of w' 2%positive 101%positive = true /\
    member_of w' 1%positive 101%positive = false.
Proof.
  assert (H1 : live_output resampled 101%positive
                 (output_at 101%positive resampled))
    by live_by_running 1%positive.
  assert (H2 : so_source (output_at 101%positive resampled) = Some 1%positive)
    by by_running.
  assert (H3 : w_sources resampled !! 1%positive
               = Some (source_at 1%positive resampled)) by by_running.
  assert (H4 : w_sources resampled !! 2%positive
               = Some (source_at 2%positive resampled)) by by_running.
  assert (H5 : 2%positive <> 1%positive) by discriminate.
  assert (H6 : (pa_idxset_size (s_outputs (source_at 2%positive resampled))
                < PA_MAX_OUTPUTS_PER_SOURCE)%nat) by by_running.
  assert (H7 : so_resampler (output_at 101%positive resampled)
               = Some 100%positive) by by_running.
  assert (H8 : pa_sample_spec_equal
                 (s_sample_spec (source_at 1%positive resampled))
                 (s_sample_spec (source_at 2%positive resampled)) = true)
    by by_running.
  assert (H9 : pa_channel_map_equal
                 (s_channel_map (source_at 1%positive resampled))
                 (s_channel_map (source_at 2%positive resampled)) = true)
    by by_running.
  destruct (move_between_alike_sources_keeps_stage resampled 101%positive
              1%positive 2%positive 100%positive _ _ _ None
              H1 H2 H3 H4 H5 H6 H7 H8 H9)
    as (w' & o' & Hrun & Hl & Hr & _ & Hheap & Hin & Hout).
  refine (conj H1 (conj H2 (conj H3 (conj H4 (conj H5 (conj H6 (conj H7
            (conj H8 (conj H9 _))))))))).
  exists w', o'.
  exact (conj Hrun (conj Hl (conj Hr (conj Hheap (conj Hin Hout))))).
Defined.


Lemma create_at_capacity_fails_witness :
  w_sources studio_crowded !! 2%positive
    = Some (source_at 2%positive studio_crowded) /\
  s_state (source_at 2%positive studio_crowded) = PA_SOURCE_RUNNING /\
  (PA_MAX_OUTPUTS_PER_SOURCE
   <= pa_idxset_size (s_outputs (source_at 2%positive studio_crowded)))%nat /\
  exists tr,
    pa_source_output_new 2%positive None "late" stereo None (-1) studio_crowded
      = Done None studio_crowded tr /\
    count is_subscription tr = 0%nat.
Proof.
  assert (H1 : w_sources studio_crowded !! 2%positive
               = Some (source_at 2%positive studio_crowded)) by by_running.
  assert (H2 : s_state (source_at 2%positive studio_crowded)
               = PA_SOURCE_RUNNING) by by_running.
  assert (H3 : (PA_MAX_OUTPUTS_PER_SOURCE
                <= pa_idxset_size
                     (s_outputs (source_at 2%positive studio_crowded)))%nat)
    by by_running.
  destruct (create_at_capacity_fails studio_crowded 2%positive _ None "late"
              stereo None (-1) H1 H2 H3)
    as (w' & tr & Hrun & Hw & _ & _ & _ & Hsub).
  refine (conj H1 (conj H2 (conj H3 _))).
  exists tr. rewrite <- Hw at 2. exact (conj Hrun Hsub).
Defined.

Lemma rename_attached_posts_one_change_witness :
  live_output studio 100%positive (output_at 100%positive studio) /\
  so_source (output_at 100%positive studio) = Some 1%positive /\
  is_Some (w_sources studio !! 1%positive) /\
  so_name (output_at 100%positive studio) = "rec" /\
  exists w' o',
    pa_source_output_set_name 100%positive "rec" studio
      = Done tt w' [EvXfreeString (Some "rec");
                    EvSubscription PA_SUBSCRIPTION_EVENT_CHANGE 0] /\
    w_outputs w' !! 100%positive = Some o' /\
    so_name o' = "rec".
Proof.
  assert (H1 : live_output studio 100%positive (output_at 100%positive studio))
    by live_by_running 1%positive.
  assert (H2 : so_source (output_at 100%positive studio) = Some 1%positive)
    by by_running.
  assert (H3 : is_Some (w_sources studio !! 1%positive))
    by (vm_compute; eexists; reflexivity).
  assert (H4 : so_name (output_at 100%positive studio) = "rec") by by_running.
  destruct (rename_attached_posts_one_change studio 100%positive 1%positive _
              "rec" H1 H2 H3)
    as (w' & tr & o' & Hrun & _ & Hl & Hname & Htr & _).
  refine (conj H1 (conj H2 (conj H3 (conj H4 _)))).
  exists w', o'. rewrite Htr in Hrun.
  exact (conj Hrun (conj Hl Hname)).
Defined.

Lemma membership_is_all_or_nothing_witness :
  consistent fresh_world /\
  pa_source_output_new 1%positive None "rec" stereo None (-1) fresh_world
    = Done (Some 100%positive) studio
        [EvLog LOG_INFO msg_created;
         EvSubscription PA_SUBSCRIPTION_EVENT_NEW 0] /\
  (exists o,
     w_outputs studio !! 100%positive = Some o /\
     so_source o = Some 1%positive /\
     registry_index studio 100%positive = Some (so_index o) /\
     in_registry studio 100%positive = true /\
     member_of studio 1%positive 100%positive = true) /\
  run_calls [CallNew 1%positive None "rec" stereo None (-1);
             CallCork 100%positive 1;
             CallMoveTo 100%positive 2%positive None;
             CallDisconnect 100%positive] fresh_world
    = Done tt
        (world_after (pa_source_output_disconnect 100%positive)
           (world_after (pa_source_output_move_to 100%positive 2%positive None)
              studio_corked_plain))
        (events_of
           (run_calls [CallNew 1%positive None "rec" stereo None (-1);
                       CallCork 100%positive 1;
                       CallMoveTo 100%positive 2%positive None;
                       CallDisconnect 100%positive] fresh_world)) /\
  (forall p o,
     w_outputs
       (world_after (pa_source_output_disconnect 100%positive)
          (world_after (pa_source_output_move_to 100%positive 2%positive None)
             studio_corked_plain)) !! p = Some o ->
     so_source o = None /\
     in_registry
       (world_after (pa_source_output_disconnect 100%positive)
          (world_after (pa_source_output_move_to 100%positive 2%positive None)
             studio_corked_plain)) p = false).
Proof.
  assert (H0 : consistent fresh_world) by exact fresh_world_consistent.
  assert (H1 : pa_source_output_new 1%positive None "rec" stereo None (-1)
                 fresh_world
               = Done (Some 100%positive) studio
                   [EvLog LOG_INFO msg_created;
                    EvSubscription PA_SUBSCRIPTION_EVENT_NEW 0]) by by_running.
  destruct (membership_is_all_or_nothing fresh_world H0) as (Ha & _ & Hc).
  assert (H2 : run_calls [CallNew 1%positive None "rec" stereo None (-1);
                          CallCork 100%positive 1;
                          CallMoveTo 100%positive 2%positive None;
                          CallDisconnect 100%positive] fresh_world
               = Done tt
                   (world_after (pa_source_output_disconnect 100%positive)
                      (world_after
                         (pa_source_output_move_to 100%positive 2%positive None)
                         studio_corked_plain))
                   (events_of
                      (run_calls [CallNew 1%positive None "rec" stereo None (-1);
                                  CallCork 100%positive 1;
                                  CallMoveTo 100%positive 2%positive None;
                                  CallDisconnect 100%positive] fresh_world)))
    by by_running.
  refine (conj H0 (conj H1 (conj (Ha _ _ _ _ _ _ _ _ _ H1) (conj H2 _)))).
  intros p o Hl.
  destruct (Hc _ _ _ _ H2 p o Hl) as (Hboth & _).
  assert (Hsrc : so_source o = None).
  { revert Hl. vm_compute.
    destruct p as [p|p|]; try discriminate;
      repeat (destruct p as [p|p|]; try discriminate).
    intros [= <-]. reflexivity. }
  rewrite Hsrc in Hboth. exact (conj Hsrc Hboth).
Defined.

Lemma reference_count_life_cycle_witness :
  pa_source_output_new 1%positive None "rec" stereo None (-1) fresh_world
    = Done (Some 100%positive) studio
        [EvLog LOG_INFO msg_created;
         EvSubscription PA_SUBSCRIPTION_EVENT_NEW 0] /\
  (exists o1, w_outputs studio !! 100%positive = Some o1 /\ so_ref o1 = 1) /\
  (exists o1 w2 w3 w4 w5 w6,
     w_outputs studio !! 100%positive = Some o1 /\
     pa_source_output_ref 100%positive studio = Done 100%positive w2 [] /\
     pa_source_output_ref 100%positive w2 = Done 100%positive w3 [] /\
     pa_source_output_unref 100%positive w3 = Done tt w4 [] /\
     pa_source_output_unref 100%positive w4 = Done tt w5 [] /\
     pa_source_output_unref 100%positive w5
       = Done tt w6 (teardown_trace 100%positive o1) /\
     count (is_teardown 100%positive)
       ([] ++ [] ++ [] ++ [] ++ teardown_trace 100%positive o1) = 1%nat /\
     w_outputs w6 !! 100%positive = None).
Proof.
  assert (H1 : pa_source_output_new 1%positive None "rec" stereo None (-1)
                 fresh_world
               = Done (Some 100%positive) studio
                   [EvLog LOG_INFO msg_created;
                    EvSubscription PA_SUBSCRIPTION_EVENT_NEW 0]) by by_running.
  destruct (reference_count_life_cycle fresh_world 1%positive None "rec" stereo
              None (-1) 100%positive studio _ H1)
    as (Hone & _ & _ & _ & _ & Hrun).
  exact (conj H1 (conj Hone Hrun)).
Defined.


(** The third branch of the move at work: the recorder of [studio] has no
    stage, source 2 has its shape, and after the move the stage field
    holds the value the uninitialised local had, here the stray address
    55. *)
Example move_without_stage_junk_in_studio :
  so_resampler (output_at 100%positive studio) = None /\
  w_resamplers studio !! 55%positive = None /\
  events_of (pa_source_output_move_to 100%positive 2%positive
               (Some 55%positive) studio)
    = [EvSubscription PA_SUBSCRIPTION_EVENT_CHANGE 0; EvSourceNotify 2%positive] /\
  so_resampler
    (output_at 100%positive
       (world_after (pa_source_output_move_to 100%positive 2%positive
                       (Some 55%positive)) studio))
    = Some 55%positive.
Proof. repeat split; by_running. Qed.

(** C6 fails where the destination is full: the recorder of
    [resampled_crowded] owns a stage, sources 1 and 2 have the same sample
    spec and channel map, and the move is refused; the output stays a
    member of source 1 and does not become one of source 2.  It also fails
    for a move to the current source, which succeeds as a no-op and leaves
    the output in the member set of the origin. *)
Lemma move_between_alike_sources_counterexample :
  so_resampler (output_at 101%positive resampled_crowded) = Some 100%positive /\
  so_source (output_at 101%positive resampled_crowded) = Some 1%positive /\
  pa_sample_spec_equal (s_sample_spec (source_at 1%positive resampled_crowded))
    (s_sample_spec (source_at 2%positive resampled_crowded)) = true /\
  pa_channel_map_equal (s_channel_map (source_at 1%positive resampled_crowded))
    (s_channel_map (source_at 2%positive resampled_crowded)) = true /\
  pa_source_output_move_to 101%positive 2%positive None resampled_crowded
    = Done (-1) resampled_crowded [EvLog LOG_WARN msg_too_many_move] /\
  member_of resampled_crowded 1%positive 101%positive = true /\
  member_of resampled_crowded 2%positive 101%positive = false /\
  pa_source_output_move_to 101%positive 1%positive None resampled
    = Done 0 resampled [] /\
  member_of resampled 1%positive 101%positive = true.
Proof. repeat split; by_running. Qed.

(** C8 fails on the keys: the second recorder of [two_studios] is created
    successfully on source 2; the registry holds it under index 1, which is
    the index stored in the object, but the member set of source 2 holds it
    under its own key 0. *)
Lemma membership_same_index_counterexample :
  pa_source_output_new 2%positive None "rec2" stereo None (-1) studio
    = Done (Some 101%positive) two_studios
        [EvLog LOG_INFO msg_created;
         EvSubscription PA_SUBSCRIPTION_EVENT_NEW 1] /\
  so_index (output_at 101%positive two_studios) = 1%N /\
  registry_index two_studios 101%positive = Some 1%N /\
  member_index two_studios 2%positive 101%positive = Some 0%N /\
  member_index two_studios 2%positive 101%positive
    <> Some (so_index (output_at 101%positive two_studios)).
Proof. repeat split; by_running. Qed.

(** C10 fails on a disconnected output: the recorder of [studio_unplugged]
    is disconnected while its reference is still held, so the assertions
    of Rename pass; the new name is valid; and the call runs into the NULL
    source pointer instead of posting a notification. *)
Lemma rename_disconnected_counterexample :
  w_outputs studio_unplugged !! 100%positive
    = Some (output_at 100%positive studio_unplugged) /\
  so_state (output_at 100%positive studio_unplugged)
    = PA_SOURCE_OUTPUT_DISCONNECTED /\
  1 <= so_ref (output_at 100%positive studio_unplugged) /\
  pa_utf8_valid "tape" = true /\
  pa_source_output_set_name 100%positive "tape" studio_unplugged
    = Crash NullDereference /\
  count is_changed
    (events_of (pa_source_output_set_name 100%positive "tape" studio_unplugged))
    = 0%nat.
Proof. repeat split; by_running. Qed.

(** C9 as stated fails where the count is at its largest: the recorder of
    [studio_saturated] is live with count INT_MAX; one more ref does not
    add one to the count but leaves INT_MIN in it, and the unref that
    should give the reference back stops at its assertion. *)
Lemma reference_count_overflow_counterexample :
  w_outputs studio_saturated !! 100%positive
    = Some (output_at 100%positive studio_saturated) /\
  so_ref (output_at 100%positive studio_saturated) = 2147483647 /\
  pa_source_output_ref 100%positive studio_saturated
    = Done 100%positive
        (with_output 100%positive
           (set_ref (-2147483648) (output_at 100%positive studio_saturated))
           studio_saturated) [] /\
  so_ref
    (output_at 100%positive
       (world_after (pa_source_output_ref 100%positive) studio_saturated))
    <> so_ref (output_at 100%positive studio_saturated) + 1 /\
  pa_source_output_unref 100%positive
    (world_after (pa_source_output_ref 100%positive) studio_saturated)
    = Crash (AssertionFailed "o->ref >= 1").
Proof. repeat split; by_running. Qed.

End Examples.

(** * Further properties of the code *)

Section CreatePaths.
Context {collab : Collaborators}.

Lemma bind_run {A B} (m : M A) (k : A -> M B) w a w1 t1 b w2 t2 :
  m w = Done a w1 t1 -> k a w1 = Done b w2 t2 ->
  bind m k w = Done b w2 (t1 ++ t2).
Proof. intros H1 H2. unfold bind. now rewrite H1, H2. Qed.

Lemma resampler_new_run a am b bm st m w :
  resampler_supported a am b bm st m = true ->
  pa_resampler_new a am b bm st m w =
    Done (Some (w_next w)) (staged_world (new_stage a am b bm m) w)
      [EvResamplerNew a am b bm m (Some (w_next w))].
Proof.
  intros H. unfold pa_resampler_new. rewrite H. reflexivity.
Qed.

(** Create up to its capacity check, on a running source and with
    arguments that pass the validity tests. *)
Lemma new_unfold w s src driver name spec map m cm :
  w_sources w !! s = Some src ->
  s_state src = PA_SOURCE_RUNNING ->
  create_arguments_ok spec map driver name = true ->
  create_map spec map = Some cm ->
  (pa_idxset_size (s_outputs src) < PA_MAX_OUTPUTS_PER_SOURCE)%nat ->
  pa_source_output_new s driver name spec map m w =
  (if shape_differs (s_sample_spec src) (s_channel_map src) spec cm then
     resampler <- pa_resampler_new (s_sample_spec src) (s_channel_map src)
                    spec cm (c_memblock_stat (w_core w)) (create_method m w) ;;
     match resampler with
     | None => pa_log_warn msg_unsupported ;;; ret None
     | Some _ =>
         new_commit s driver name spec cm (create_method m w) resampler
     end
   else new_commit s driver name spec cm (create_method m w) None) w.
Proof.
  intros Hs Hrun Hok Hcm Hroom.
  unfold pa_source_output_new.
  rewrite (bind_pure _ _ w src) by (unfold load_source; now rewrite Hs).
  rewrite Hrun.
  rewrite (bind_pure _ _ w tt) by reflexivity.
  unfold create_arguments_ok in Hok. rewrite Hcm in Hok.
  unfold create_map in Hcm. rewrite Hcm.
  apply andb_prop in Hok as [H1 Hok]. apply andb_prop in Hok as [Hok H5].
  apply andb_prop in Hok as [Hok H4]. apply andb_prop in Hok as [H2 H3].
  rewrite H1, H2, H3, H4, H5. cbn [negb].
  destruct (Nat.leb_spec PA_MAX_OUTPUTS_PER_SOURCE
              (pa_idxset_size (s_outputs src))); [lia|].
  rewrite (bind_pure _ _ w (w_core w)) by reflexivity.
  reflexivity.
Qed.

(** The tail of Create, run where the next address is in neither
    collection and the registry has an index left. *)
Lemma new_commit_run w s src driver name spec cm method rs :
  w_sources w !! s = Some src ->
  in_registry w (w_next w) = false ->
  pa_idxset_contains (s_outputs src) (w_next w) = false ->
  ix_next (c_source_outputs (w_core w)) <> PA_IDXSET_INVALID ->
  new_commit s driver name spec cm method rs w =
    Done (Some (w_next w))
      (created_world s src
         (new_object s driver name spec cm method rs
            (ix_next (c_source_outputs (w_core w)))) w)
      [EvLog LOG_INFO msg_created;
       EvSubscription PA_SUBSCRIPTION_EVENT_NEW
         (ix_next (c_source_outputs (w_core w)))].
Proof.
  intros Hs Hreg Hmem Hidx.
  unfold new_commit, in_registry in *.
  unfold bind at 1. unfold alloc at 1. cbn [w_next].
  unfold bind at 1. unfold get_core at 1. cbn [w_core].
  rewrite (put_fresh_code _ _ Hreg).
  unfold bind at 1. unfold put_core at 1.
  unfold bind at 1. unfold store_output at 1.
  unfold bind at 1.
  change (0 =? 0) with true. cbn [andb].
  apply N.eqb_neq in Hidx. rewrite Hidx.
  cbn [negb assert ret].
  unfold bind at 1. unfold load_source at 1. cbn [w_sources].
  rewrite Hs.
  unfold created_world. rewrite (put_fresh_code _ _ Hreg).
  rewrite (put_fresh_code _ _ Hmem).
  reflexivity.
Qed.

(** X1.  Create on a running source with arguments that fail one of its
    validity tests (sample spec, channel map given or derived, channel
    counts, driver and name encoding) returns NULL, leaves the world as it
    was and is silent: nothing is logged and nothing is posted. *)
Theorem create_rejects_invalid_arguments
    (w : world) (s : ptr) (src : pa_source) (driver : option string)
    (name : string) (spec : pa_sample_spec) (map : option pa_channel_map)
    (m : Z) :
  w_sources w !! s = Some src ->
  s_state src = PA_SOURCE_RUNNING ->
  create_arguments_ok spec map driver name = false ->
  pa_source_output_new s driver name spec map m w = Done None w [].
Proof.
  intros Hs Hrun Hbad.
  unfold pa_source_output_new.
  rewrite (bind_pure _ _ w src) by (unfold load_source; now rewrite Hs).
  rewrite Hrun.
  rewrite (bind_pure _ _ w tt) by reflexivity.
  unfold create_arguments_ok, create_map in Hbad.
  destruct (pa_sample_spec_valid spec); [|reflexivity]. cbn [negb].
  destruct (match map with
            | Some m0 => Some m0
            | None => pa_channel_map_init_auto (ss_channels spec)
            end) as [cm|]; [|reflexivity].
  destruct (pa_channel_map_valid cm); [|reflexivity]. cbn [negb].
  destruct (cm_channels cm =? ss_channels spec); [|reflexivity]. cbn [negb].
  destruct (match driver with
            | Some d => pa_utf8_valid d
            | None => true
            end); [|reflexivity]. cbn [negb].
  destruct (pa_utf8_valid name); [|reflexivity].
  discriminate Hbad.
Qed.

(** X2.  Create with valid arguments on a running source with room, where
    the stream's shape differs from the source's and the conversion is not
    supported, returns NULL and leaves the world as it was; the trace is
    the failed factory call and the warning, and no event is posted. *)
Theorem create_unsupported_conversion_fails
    (w : world) (s : ptr) (src : pa_source) (driver : option string)
    (name : string) (spec : pa_sample_spec) (map : option pa_channel_map)
    (m : Z) (cm : pa_channel_map) :
  w_sources w !! s = Some src ->
  s_state src = PA_SOURCE_RUNNING ->
  create_arguments_ok spec map driver name = true ->
  create_map spec map = Some cm ->
  (pa_idxset_size (s_outputs src) < PA_MAX_OUTPUTS_PER_SOURCE)%nat ->
  shape_differs (s_sample_spec src) (s_channel_map src) spec cm = true ->
  resampler_supported (s_sample_spec src) (s_channel_map src) spec cm
    (c_memblock_stat (w_core w)) (create_method m w) = false ->
  pa_source_output_new s driver name spec map m w =
    Done None w
      [EvResamplerNew (s_sample_spec src) (s_channel_map src) spec cm
         (create_method m w) None;
       EvLog LOG_WARN msg_unsupported].
Proof.
  intros Hs Hrun Hok Hcm Hroom Hdiff Hfail.
  rewrite (new_unfold w s src driver name spec map m cm Hs Hrun Hok Hcm Hroom).
  rewrite Hdiff. unfold bind, pa_resampler_new. rewrite Hfail. reflexivity.
Qed.

(** X3.  In a consistent world, Create with valid arguments on a running
    source with room succeeds whenever the registry has an index left and
    the conversion, if one is needed, is supported.  The new object lies at
    an address that was free, has reference count 1, is RUNNING, carries
    the name, driver and shape it was created with (the derived channel
    map if none was given), has no hook installed, and owns a new stage
    from the source's shape to its own exactly when the two shapes differ.
    It is in the registry under its index and in the member set of the
    source, whose size grew by one; the last thing Create does is post the
    NEW event with that index, and it posts nothing else. *)
Theorem create_succeeds_on_valid_arguments
    (w : world) (s : ptr) (src : pa_source) (driver : option string)
    (name : string) (spec : pa_sample_spec) (map : option pa_channel_map)
    (m : Z) (cm : pa_channel_map) :
  consistent w ->
  w_sources w !! s = Some src ->
  s_state src = PA_SOURCE_RUNNING ->
  create_arguments_ok spec map driver name = true ->
  create_map spec map = Some cm ->
  (pa_idxset_size (s_outputs src) < PA_MAX_OUTPUTS_PER_SOURCE)%nat ->
  ix_next (c_source_outputs (w_core w)) <> PA_IDXSET_INVALID ->
  (shape_differs (s_sample_spec src) (s_channel_map src) spec cm = true ->
   resampler_supported (s_sample_spec src) (s_channel_map src) spec cm
     (c_memblock_stat (w_core w)) (create_method m w) = true) ->
  exists p w' t0 rs,
    pa_source_output_new s driver name spec map m w =
      Done (Some p) w'
        (t0 ++ [EvLog LOG_INFO msg_created;
                EvSubscription PA_SUBSCRIPTION_EVENT_NEW
                  (ix_next (c_source_outputs (w_core w)))]) /\
    count is_subscription t0 = 0%nat /\
    w_outputs w !! p = None /\
    w_outputs w' !! p =
      Some (new_object s driver name spec cm (create_method m w) rs
              (ix_next (c_source_outputs (w_core w)))) /\
    is_some rs = shape_differs (s_sample_spec src) (s_channel_map src) spec cm /\
    (forall r, rs = Some r ->
       w_resamplers w' !! r =
         Some (new_stage (s_sample_spec src) (s_channel_map src) spec cm
                 (create_method m w))) /\
    registry_index w' p = Some (ix_next (c_source_outputs (w_core w))) /\
    member_of w' s p = true /\
    (exists src', w_sources w' !! s = Some src' /\
       pa_idxset_size (s_outputs src') = S (pa_idxset_size (s_outputs src))).
Proof.
  intros Hc Hs Hrun Hok Hcm Hroom Hidx Hsup.
  rewrite (new_unfold w s src driver name spec map m cm Hs Hrun Hok Hcm Hroom).
  assert (Hcommit : forall w0 rs,
    same_membership w w0 ->
    new_commit s driver name spec cm (create_method m w) rs w0 =
      Done (Some (w_next w0))
        (created_world s src
           (new_object s driver name spec cm (create_method m w) rs
              (ix_next (c_source_outputs (w_core w)))) w0)
        [EvLog LOG_INFO msg_created;
         EvSubscription PA_SUBSCRIPTION_EVENT_NEW
           (ix_next (c_source_outputs (w_core w)))] /\
    w_outputs w !! w_next w0 = None /\
    registry_index
      (created_world s src
         (new_object s driver name spec cm (create_method m w) rs
            (ix_next (c_source_outputs (w_core w)))) w0) (w_next w0)
      = Some (ix_next (c_source_outputs (w_core w))) /\
    pa_idxset_size
      (snd (pa_idxset_put (s_outputs src) (w_next w0)))
      = S (pa_idxset_size (s_outputs src))).
  { intros w0 rs Hsame.
    pose proof (consistent_same w w0 Hsame Hc) as Hc0.
    destruct Hsame as (Hcore & Hsrcs & Houts & Hnext).
    pose proof (fresh_not_in_registry w0 Hc0) as Hreg.
    pose proof (fresh_not_member w0 s Hc0) as Hmem.
    unfold member_of in Hmem. rewrite Hsrcs, Hs in Hmem.
    split.
    { rewrite <- Hcore. apply new_commit_run; auto.
      - now rewrite Hsrcs.
      - now rewrite Hcore. }
    split.
    { rewrite <- Houts.
      destruct (w_outputs w0 !! w_next w0) eqn:E; [|reflexivity].
      assert (Hp : is_Some (w_outputs w0 !! w_next w0)) by eauto.
      pose proof (cons_fresh w0 Hc0 _ Hp). lia. }
    split.
    { unfold registry_index; simpl.
      rewrite get_index_put_fresh by exact Hreg. now rewrite Hcore. }
    rewrite (put_fresh_code _ _ Hmem). unfold pa_idxset_size; simpl.
    rewrite length_app. simpl. lia. }
  destruct (shape_differs (s_sample_spec src) (s_channel_map src) spec cm)
    eqn:Ediff.
  - set (v := new_stage (s_sample_spec src) (s_channel_map src) spec cm
                (create_method m w)).
    destruct (Hcommit (staged_world v w) (Some (w_next w)))
      as (Hrun' & Hfree & Hri & Hsize).
    { repeat split; simpl; lia. }
    eexists _, _, [_], (Some (w_next w)).
    split.
    { eapply bind_run.
      - apply resampler_new_run. exact (Hsup eq_refl).
      - exact Hrun'. }
    split; [reflexivity|].
    split; [exact Hfree|].
    split; [apply lookup_insert_eq|].
    split; [reflexivity|].
    split.
    { intros r [= <-]. simpl. apply lookup_insert_eq. }
    split; [exact Hri|].
    split.
    { unfold member_of; simpl. rewrite lookup_insert_eq. simpl.
      apply contains_put_same. }
    eexists. split; [simpl; apply lookup_insert_eq|exact Hsize].
  - destruct (Hcommit w None (same_membership_refl w))
      as (Hrun' & Hfree & Hri & Hsize).
    rewrite Hrun'.
    eexists _, _, [], None.
    split; [reflexivity|].
    split; [reflexivity|].
    split; [exact Hfree|].
    split; [apply lookup_insert_eq|].
    split; [reflexivity|].
    split; [discriminate|].
    split; [exact Hri|].
    split.
    { unfold member_of; simpl. rewrite lookup_insert_eq. simpl.
      apply contains_put_same. }
    eexists. split; [simpl; apply lookup_insert_eq|exact Hsize].
Qed.

End CreatePaths.

Section CreateBackwards.
Context {collab : Collaborators}.

(** A Create that returned an object, read backwards in full. *)
Lemma new_some_done w s driver name spec map m p w' tr :
  pa_source_output_new s driver name spec map m w = Done (Some p) w' tr ->
  exists src cm w0 rs,
    w_sources w !! s = Some src /\
    create_map spec map = Some cm /\
    (pa_idxset_size (s_outputs src) < PA_MAX_OUTPUTS_PER_SOURCE)%nat /\
    same_membership w w0 /\
    (rs = None /\ w0 = w \/
     rs = Some (w_next w) /\
     w0 = staged_world
            (new_stage (s_sample_spec src) (s_channel_map src) spec cm
               (create_method m w)) w) /\
    p = w_next w0 /\
    w' = created_world s src
           (new_object s driver name spec cm (create_method m w) rs
              (ix_next (c_source_outputs (w_core w)))) w0.
Proof.
  unfold pa_source_output_new.
  destruct (w_sources w !! s) as [src|] eqn:Es;
    [|rewrite (bind_crash _ _ w DanglingPointer)
        by (unfold load_source; now rewrite Es); discriminate].
  rewrite (bind_pure _ _ w src) by (unfold load_source; now rewrite Es).
  destruct (s_state src) eqn:Est;
    [|rewrite (bind_crash _ _ w (AssertionFailed "s->state == PA_SOURCE_RUNNING"))
        by reflexivity; discriminate].
  rewrite (bind_pure _ _ w tt) by reflexivity.
  destruct (negb (pa_sample_spec_valid spec)); [discriminate|].
  unfold create_map.
  destruct (match map with
            | Some m0 => Some m0
            | None => pa_channel_map_init_auto (ss_channels spec)
            end) as [cm|]; [|discriminate].
  destruct (negb (pa_channel_map_valid cm)); [discriminate|].
  destruct (negb (cm_channels cm =? ss_channels spec)); [discriminate|].
  destruct (negb _); [discriminate|].
  destruct (negb (pa_utf8_valid name)); [discriminate|].
  destruct (Nat.leb_spec PA_MAX_OUTPUTS_PER_SOURCE
              (pa_idxset_size (s_outputs src))) as [Hfull|Hroom];
    [discriminate|].
  rewrite (bind_pure _ _ w (w_core w)) by reflexivity.
  fold (create_method m w).
  destruct (shape_differs _ _ _ _).
  - intros H. inv_bind H as rs H1.
    unfold pa_resampler_new in H1.
    destruct (resampler_supported _ _ _ _ _ _).
    + unfold bind, alloc, store_resampler, emit, ret in H1. simpl in H1.
      injection H1 as <- <- <-.
      apply new_commit_done in H
        as (src1 & obj & Hs1 & Hp & -> & _ & _ & -> & _).
      simpl in Hs1. assert (src1 = src) by congruence. subst src1.
      injection Hp as ->.
      eexists src, cm, _, (Some (w_next w)).
      split; [reflexivity|]. split; [reflexivity|]. split; [exact Hroom|].
      split; [|split; [right; split; reflexivity|split; reflexivity]].
      repeat split; simpl; lia.
    + unfold bind, emit, ret in H1. simpl in H1. injection H1 as <- <- <-.
      unfold bind, pa_log_warn, emit, ret in H. simpl in H. discriminate.
  - intros H.
    apply new_commit_done in H
      as (src1 & obj & Hs1 & Hp & -> & _ & _ & -> & _).
    assert (src1 = src) by congruence. subst src1.
    injection Hp as ->.
    exists src, cm, w, None.
    split; [reflexivity|]. split; [reflexivity|]. split; [exact Hroom|].
    split; [apply same_membership_refl|].
    split; [left; split; reflexivity|split; reflexivity].
Qed.

(** X4.  Whatever makes Create return NULL, it has then changed nothing:
    the world after the call is the world before it, and no subscription
    event was posted. *)
Theorem create_null_changes_nothing
    (w : world) (s : ptr) (driver : option string) (name : string)
    (spec : pa_sample_spec) (map : option pa_channel_map) (m : Z)
    (w' : world) (tr : list event) :
  pa_source_output_new s driver name spec map m w = Done None w' tr ->
  w' = w /\ count is_subscription tr = 0%nat.
Proof.
  intros H. apply new_done in H as [(_ & Hw & Htr)|H]; [auto|].
  destruct H as (src & obj & w0 & t0 & _ & _ & _ & _ & _ & _ & _ & Hr & _).
  discriminate Hr.
Qed.

(** X5.  An object Create has just returned stores the resample method
    Create was asked for or, if it was asked for PA_RESAMPLER_INVALID, the
    default of the core.  The query for the method answers that stored
    value when the object has no stage; when it has one, the query is
    handed to the stage Create built, from the source's shape to the
    stream's with that very method, and the answer is the stage's.  The
    query changes nothing. *)
Theorem resample_method_after_create
    (w : world) (s : ptr) (driver : option string) (name : string)
    (spec : pa_sample_spec) (map : option pa_channel_map) (m : Z)
    (p : ptr) (w' : world) (tr : list event) :
  pa_source_output_new s driver name spec map m w = Done (Some p) w' tr ->
  exists o,
    w_outputs w' !! p = Some o /\
    so_resample_method o = create_method m w /\
    (so_resampler o = None ->
     pa_source_output_get_resample_method p w' =
       Done (create_method m w) w' []) /\
    (forall r, so_resampler o = Some r ->
     exists src cm,
       w_sources w !! s = Some src /\
       create_map spec map = Some cm /\
       w_resamplers w' !! r =
         Some (new_stage (s_sample_spec src) (s_channel_map src) spec cm
                 (create_method m w)) /\
       pa_source_output_get_resample_method p w' =
         Done (resampler_method
                 (new_stage (s_sample_spec src) (s_channel_map src) spec cm
                    (create_method m w))) w' []).
Proof.
  intros H.
  apply new_some_done in H
    as (src & cm & w0 & rs & Hs & Hcm & Hroom & Hsame & Hrs & -> & ->).
  set (o := new_object s driver name spec cm (create_method m w) rs
              (ix_next (c_source_outputs (w_core w)))).
  assert (Hl : w_outputs (created_world s src o w0) !! w_next w0 = Some o)
    by apply lookup_insert_eq.
  assert (Hq : pa_source_output_get_resample_method (w_next w0)
                 (created_world s src o w0) =
               match rs with
               | None => ret (create_method m w)
               | Some r => pa_resampler_get_method r
               end (created_world s src o w0)).
  { unfold pa_source_output_get_resample_method.
    rewrite (bind_pure _ _ _ o) by (unfold load_output; now rewrite Hl).
    change (so_ref o) with 1.
    change (1 <=? 1) with true.
    rewrite (bind_pure (assert true _) _ _ tt) by reflexivity.
    reflexivity. }
  exists o. split; [exact Hl|]. split; [reflexivity|].
  split.
  - intros Hnone. change (so_resampler o) with rs in Hnone.
    rewrite Hq, Hnone. reflexivity.
  - intros r Hr. change (so_resampler o) with rs in Hr.
    destruct Hrs as [(Hrs & _)|(Hrs & Hw0)]; [congruence|].
    assert (r = w_next w) by congruence. subst r.
    exists src, cm. split; [exact Hs|]. split; [exact Hcm|].
    assert (Hst : w_resamplers (created_world s src o w0) !! w_next w =
                  Some (new_stage (s_sample_spec src) (s_channel_map src)
                          spec cm (create_method m w))).
    { rewrite Hw0. simpl. apply lookup_insert_eq. }
    split; [exact Hst|].
    rewrite Hq, Hr. unfold pa_resampler_get_method.
    rewrite (bind_pure _ _ _ (new_stage (s_sample_spec src) (s_channel_map src)
                                spec cm (create_method m w)))
      by (unfold load_resampler; now rewrite Hst).
    reflexivity.
Qed.

End CreateBackwards.

Section MoveBackwards.
Context {collab : Collaborators}.

Lemma moved_trace_counts dest o nr :
  count is_changed (moved_trace dest o nr) = 1%nat /\
  count is_subscription (moved_trace dest o nr) = 1%nat /\
  count is_wake (moved_trace dest o nr) = 1%nat /\
  count is_resampler_new (moved_trace dest o nr) = 0%nat.
Proof.
  unfold moved_trace.
  destruct (ptr_eqb nr (so_resampler o)); [repeat split|].
  destruct (so_resampler o); repeat split.
Qed.

(** The tail of a move, when it returns: world and trace. *)
Lemma move_to_commit_done_trace w p dest o nr r w' tr :
  move_to_commit p dest o nr w = Done r w' tr ->
  so_source o <> Some dest ->
  exists origin og d,
    so_source o = Some origin /\
    w_sources w !! origin = Some og /\
    w_sources w !! dest = Some d /\
    (ptr_eqb nr (so_resampler o) = false ->
     forall q, so_resampler o = Some q -> is_Some (w_resamplers w !! q)) /\
    r = 0 /\
    w' = moved_world p dest origin o og d nr w /\
    tr = moved_trace dest o nr.
Proof.
  intros H Hne. pose proof H as H0. unfold move_to_commit in H0.
  inv_bind H0 as origin H1. apply deref_done in H1 as (Hsrc & -> & ->).
  inv_bind H0 as og H1. apply load_source_done in H1 as (Hog & -> & ->).
  inv_bind H0 as u1 H1. injection H1 as <- <- <-.
  inv_bind H0 as d H1. apply load_source_done in H1 as (Hd & -> & ->).
  assert (Hod : origin <> dest) by congruence.
  simpl in Hd. rewrite lookup_insert_ne in Hd by exact Hod.
  inv_bind H0 as u2 H1. injection H1 as <- <- <-.
  inv_bind H0 as u3 H1. injection H1 as <- <- <-.
  inv_bind H0 as u4 H1.
  assert (Hown : ptr_eqb nr (so_resampler o) = false ->
            forall q, so_resampler o = Some q -> is_Some (w_resamplers w !! q)).
  { intros E q Hq. rewrite E, Hq in H1. simpl in H1.
    inv_bind H1 as u5 H2.
    apply resampler_free_done in H2 as (Hlive & _). exact Hlive. }
  rewrite (move_to_commit_run w p dest origin o og d nr Hsrc Hod Hog Hd Hown) in H.
  injection H as <- <- <-.
  exists origin, og, d. auto 10.
Qed.

(** A move that returned, read backwards: it was a move to the current
    source (nothing done), a refusal (nothing done), or a real move. *)
Lemma move_to_done p dest junk w r w' tr :
  pa_source_output_move_to p dest junk w = Done r w' tr ->
  exists o,
    w_outputs w !! p = Some o /\ 1 <= so_ref o /\
    ((so_source o = Some dest /\ r = 0 /\ w' = w /\ tr = []) \/
     (so_source o <> Some dest /\ r = -1 /\ w' = w /\
      count is_subscription tr = 0%nat /\ count is_wake tr = 0%nat) \/
     (r = 0 /\
      exists origin og d w0 nr t0,
        so_source o = Some origin /\ origin <> dest /\
        same_membership w w0 /\
        w_sources w !! origin = Some og /\
        w_sources w !! dest = Some d /\
        (pa_idxset_size (s_outputs d) < PA_MAX_OUTPUTS_PER_SOURCE)%nat /\
        w' = moved_world p dest origin o og d nr w0 /\
        tr = t0 ++ moved_trace dest o nr /\
        count is_subscription t0 = 0%nat /\ count is_wake t0 = 0%nat)).
Proof.
  intros H. unfold pa_source_output_move_to in H.
  inv_bind H as o H1. apply load_output_done in H1 as (Hl & -> & ->).
  inv_bind H as u1 H1. apply assert_done in H1 as (Href & -> & ->).
  apply Z.leb_le in Href.
  exists o. split; [exact Hl|]. split; [exact Href|].
  destruct (ptr_eqb (Some dest) (so_source o)) eqn:Esame.
  { apply ret_done in H as (-> & -> & ->).
    apply ptr_eqb_true in Esame. left. auto. }
  apply ptr_eqb_false in Esame.
  assert (Hne : so_source o <> Some dest) by congruence.
  inv_bind H as d H1. apply load_source_done in H1 as (Hd & -> & ->).
  destruct (Nat.leb_spec PA_MAX_OUTPUTS_PER_SOURCE
              (pa_idxset_size (s_outputs d))) as [Hfull|Hroom].
  { inv_bind H as u2 H1. apply emit_done in H1 as (-> & ->).
    apply ret_done in H as (-> & -> & ->).
    right; left. repeat split; auto. }
  inv_bind H as reuse H1.
  apply move_to_reuse_pure in H1 as (-> & ->).
  assert (Hcommit : forall nr wa ra wb tb (ta : list event),
            same_membership w wa ->
            count is_subscription ta = 0%nat -> count is_wake ta = 0%nat ->
            move_to_commit p dest o nr wa = Done ra wb tb ->
            ra = 0 /\
            exists origin og d0 w0 nr0 t0,
              so_source o = Some origin /\ origin <> dest /\
              same_membership w w0 /\
              w_sources w !! origin = Some og /\
              w_sources w !! dest = Some d0 /\
              (pa_idxset_size (s_outputs d0) < PA_MAX_OUTPUTS_PER_SOURCE)%nat /\
              wb = moved_world p dest origin o og d0 nr0 w0 /\
              ta ++ tb = t0 ++ moved_trace dest o nr0 /\
              count is_subscription t0 = 0%nat /\ count is_wake t0 = 0%nat).
  { intros nr wa ra wb tb ta Hsame Hta1 Hta2 Hrun.
    apply move_to_commit_done_trace in Hrun
      as (origin & og & d0 & Hsrc & Hog & Hd0 & _ & -> & -> & ->);
      [|exact Hne].
    split; [reflexivity|].
    pose proof Hsame as (_ & Hsrcs & _ & _).
    rewrite Hsrcs in Hog, Hd0.
    assert (d0 = d) by congruence. subst d0.
    exists origin, og, d, wa, nr, ta.
    repeat split; auto; try congruence; apply Hsame. }
  destruct reuse.
  { right; right.
    exact (Hcommit _ _ _ _ _ [] (same_membership_refl w) eq_refl eq_refl H). }
  destruct (shape_differs _ _ _ _).
  - inv_bind H as c H1. apply get_core_done in H1 as (-> & -> & ->).
    inv_bind H as nr H1.
    apply resampler_new_done in H1 as (Hsame & Hnone & _ & ->).
    destruct nr as [q|].
    + right; right.
      exact (Hcommit (Some q) w0 r w' t1
               [EvResamplerNew (s_sample_spec d) (s_channel_map d)
                  (so_sample_spec o) (so_channel_map o)
                  (so_resample_method o) (Some q)]
               Hsame eq_refl eq_refl H).
    + right; left.
      inv_bind H as u3 H1. apply emit_done in H1 as (-> & ->).
      apply ret_done in H as (-> & -> & ->).
      rewrite (Hnone eq_refl). repeat split; auto.
  - right; right.
    exact (Hcommit _ _ _ _ _ [] (same_membership_refl w) eq_refl eq_refl H).
Qed.

End MoveBackwards.

Lemma count_changed_le_subscription (tr : list event) :
  count is_subscription tr = 0%nat -> count is_changed tr = 0%nat.
Proof.
  induction tr as [|e tr IH]; simpl; [reflexivity|].
  destruct e as [[]| | | | | | | | | | |]; simpl; try discriminate; exact IH.
Qed.

Section MovePaths.
Context {collab : Collaborators}.

(** X6.  A move of a live output to the source it is attached to returns
    0 at once: the world is untouched and nothing is logged, posted or
    woken, whether or not that source is full. *)
Theorem move_to_current_source_is_noop
    (w : world) (p dest : ptr) (o : pa_source_output) (junk : option ptr) :
  w_outputs w !! p = Some o ->
  1 <= so_ref o ->
  so_source o = Some dest ->
  pa_source_output_move_to p dest junk w = Done 0 w [].
Proof.
  intros Hl Href Hsrc. unfold pa_source_output_move_to.
  rewrite (bind_pure _ _ w o) by (unfold load_output; now rewrite Hl).
  apply Z.leb_le in Href. rewrite Href.
  rewrite (bind_pure _ _ w tt) by reflexivity.
  rewrite Hsrc, ptr_eqb_refl. reflexivity.
Qed.

(** X7.  A move of a live output to another source whose member set is
    full is refused: it returns -1, leaves the world as it was, and its
    whole trace is one warning.  The stage resolution is not even
    started, so neither the factory nor the origin is looked at. *)
Theorem move_to_full_destination_refused
    (w : world) (p dest : ptr) (o : pa_source_output) (d : pa_source)
    (junk : option ptr) :
  w_outputs w !! p = Some o ->
  1 <= so_ref o ->
  so_source o <> Some dest ->
  w_sources w !! dest = Some d ->
  (PA_MAX_OUTPUTS_PER_SOURCE <= pa_idxset_size (s_outputs d))%nat ->
  pa_source_output_move_to p dest junk w =
    Done (-1) w [EvLog LOG_WARN msg_too_many_move].
Proof.
  intros Hl Href Hne Hd Hfull. unfold pa_source_output_move_to.
  rewrite (bind_pure _ _ w o) by (unfold load_output; now rewrite Hl).
  apply Z.leb_le in Href. rewrite Href.
  rewrite (bind_pure _ _ w tt) by reflexivity.
  assert (E : ptr_eqb (Some dest) (so_source o) = false).
  { destruct (ptr_eqb (Some dest) (so_source o)) eqn:E; [|reflexivity].
    apply ptr_eqb_true in E. congruence. }
  rewrite E.
  rewrite (bind_pure _ _ w d) by (unfold load_source; now rewrite Hd).
  destruct (Nat.leb_spec PA_MAX_OUTPUTS_PER_SOURCE
              (pa_idxset_size (s_outputs d))); [reflexivity|lia].
Qed.

(** X8.  A move of a live, attached output to another source with room,
    where the stage at hand cannot be kept (there is none, or origin and
    destination differ in shape), the stream's shape differs from the
    destination's and the conversion is supported, builds a new stage from
    the destination's shape to the stream's with the output's resample
    method, releases the old stage if there was one, and installs the new
    one; the output changes sets and one CHANGE event and one wake-up of
    the destination follow. *)
Theorem move_builds_new_stage
    (w : world) (p origin dest : ptr) (o : pa_source_output)
    (og d : pa_source) (junk : option ptr) :
  live_output w p o ->
  so_source o = Some origin ->
  w_sources w !! origin = Some og ->
  w_sources w !! dest = Some d ->
  dest <> origin ->
  (pa_idxset_size (s_outputs d) < PA_MAX_OUTPUTS_PER_SOURCE)%nat ->
  (forall r, so_resampler o = Some r -> is_Some (w_resamplers w !! r)) ->
  w_resamplers w !! w_next w = None ->
  so_resampler o = None \/
    pa_sample_spec_equal (s_sample_spec og) (s_sample_spec d)
    && pa_channel_map_equal (s_channel_map og) (s_channel_map d) = false ->
  shape_differs (so_sample_spec o) (so_channel_map o)
    (s_sample_spec d) (s_channel_map d) = true ->
  resampler_supported (s_sample_spec d) (s_channel_map d)
    (so_sample_spec o) (so_channel_map o)
    (c_memblock_stat (w_core w)) (so_resample_method o) = true ->
  exists w' o',
    pa_source_output_move_to p dest junk w =
      Done 0 w'
        ([EvResamplerNew (s_sample_spec d) (s_channel_map d)
            (so_sample_spec o) (so_channel_map o) (so_resample_method o)
            (Some (w_next w))]
         ++ match so_resampler o with
            | Some r => [EvResamplerFree r]
            | None => []
            end
         ++ [EvSubscription PA_SUBSCRIPTION_EVENT_CHANGE (so_index o);
             EvSourceNotify dest]) /\
    w_outputs w' !! p = Some o' /\
    so_resampler o' = Some (w_next w) /\
    so_source o' = Some dest /\
    same_but_source_and_stage o o' /\
    w_resamplers w' !! w_next w =
      Some (new_stage (s_sample_spec d) (s_channel_map d)
              (so_sample_spec o) (so_channel_map o) (so_resample_method o)) /\
    (forall r, so_resampler o = Some r -> w_resamplers w' !! r = None) /\
    member_of w' dest p = true /\
    member_of w' origin p = false.
Proof.
  intros (Hl & Href & _) Hsrc Hog Hd Hne Hroom Hown Hfree Hno1 Hdiff Hsup.
  assert (Hne' : so_source o <> Some dest) by congruence.
  rewrite (move_to_unfold w p dest junk o d Hl Href Hne' Hd Hroom).
  rewrite (bind_pure _ _ w false).
  2:{ rewrite (move_to_reuse_run w o d origin og Hsrc Hog).
      destruct Hno1 as [->|Hx]; [reflexivity|].
      now rewrite Hx, andb_false_r. }
  rewrite Hdiff.
  rewrite (bind_pure _ _ w (w_core w)) by reflexivity.
  set (v := new_stage (s_sample_spec d) (s_channel_map d)
              (so_sample_spec o) (so_channel_map o) (so_resample_method o)).
  assert (Hold : forall r, so_resampler o = Some r -> r <> w_next w).
  { intros r Hr ->. destruct (Hown _ Hr) as [x Hx]. congruence. }
  assert (Heqb : ptr_eqb (Some (w_next w)) (so_resampler o) = false).
  { destruct (ptr_eqb (Some (w_next w)) (so_resampler o)) eqn:E; [|reflexivity].
    apply ptr_eqb_true in E. symmetry in E. now apply Hold in E. }
  assert (Hcommit :
    move_to_commit p dest o (Some (w_next w)) (staged_world v w) =
      Done 0 (moved_world p dest origin o og d (Some (w_next w))
                (staged_world v w))
        (moved_trace dest o (Some (w_next w)))).
  { apply move_to_commit_run; auto.
    intros _ r Hr. simpl. apply lookup_insert_is_Some'. right. now apply Hown. }
  exists (moved_world p dest origin o og d (Some (w_next w)) (staged_world v w)),
         (set_resampler (Some (w_next w)) (set_source (Some dest) o)).
  split.
  { unfold moved_trace in Hcommit. rewrite Heqb in Hcommit.
    eapply bind_run.
    - apply resampler_new_run. exact Hsup.
    - exact Hcommit. }
  split; [apply lookup_insert_eq|].
  split; [reflexivity|]. split; [reflexivity|].
  split; [repeat split|].
  split.
  { unfold moved_world. cbn [w_resamplers]. rewrite Heqb.
    destruct (so_resampler o) as [r|] eqn:Er.
    - rewrite lookup_delete_ne by (apply Hold; reflexivity).
      apply lookup_insert_eq.
    - apply lookup_insert_eq. }
  split.
  { intros r Hr. unfold moved_world. cbn [w_resamplers].
    rewrite Heqb, Hr. apply lookup_delete_eq. }
  split; [apply member_of_moved_dest|].
  apply member_of_moved_origin. congruence.
Qed.

(** X9.  Whatever stage a move ends up with, a move to another source
    that returns 0 has done this and no more: the output record differs
    from the old one in its source, now the destination, and its stage at
    most (reference count, index, state, name, hooks and shape are the
    old ones); the registry is untouched; the output is a member of the
    destination and no longer of the origin; every other output and every
    other source is as before; and the trace holds exactly one CHANGE
    event and one wake-up. *)
Theorem move_changes_source_and_stage_only
    (w : world) (p dest : ptr) (o : pa_source_output) (junk : option ptr)
    (w' : world) (tr : list event) :
  w_outputs w !! p = Some o ->
  so_source o <> Some dest ->
  pa_source_output_move_to p dest junk w = Done 0 w' tr ->
  exists origin o',
    so_source o = Some origin /\
    w_outputs w' !! p = Some o' /\
    so_source o' = Some dest /\
    same_but_source_and_stage o o' /\
    c_source_outputs (w_core w') = c_source_outputs (w_core w) /\
    member_of w' dest p = true /\
    member_of w' origin p = false /\
    (forall q, q <> p -> w_outputs w' !! q = w_outputs w !! q) /\
    (forall s, s <> origin -> s <> dest ->
       w_sources w' !! s = w_sources w !! s) /\
    count is_changed tr = 1%nat /\
    count is_wake tr = 1%nat.
Proof.
  intros Hl Hne H.
  apply move_to_done in H as (o0 & Hl0 & _ & H).
  assert (o0 = o) by congruence. subst o0.
  destruct H as [(Hs & _)|[(_ & Hr & _)|(_ & H)]];
    [contradiction|discriminate|].
  destruct H as (origin & og & d & w0 & nr & t0 & Hsrc & Hod & Hsame & Hog & Hd
                 & _ & -> & -> & Ht1 & Ht2).
  destruct Hsame as (Hcore & Hsrcs & Houts & _).
  exists origin, (set_resampler nr (set_source (Some dest) o)).
  split; [exact Hsrc|].
  split; [apply lookup_insert_eq|].
  split; [reflexivity|].
  split; [repeat split|].
  split; [simpl; now rewrite Hcore|].
  split; [apply member_of_moved_dest|].
  split; [apply member_of_moved_origin; exact Hod|].
  split.
  { intros q Hq. simpl. rewrite lookup_insert_ne by congruence.
    now rewrite Houts. }
  split.
  { intros s Hs1 Hs2. simpl.
    rewrite !lookup_insert_ne by congruence. now rewrite Hsrcs. }
  destruct (moved_trace_counts dest o nr) as (Hc1 & _ & Hc2 & _).
  rewrite !count_app, Hc1, Hc2, Ht2, (count_changed_le_subscription t0 Ht1).
  split; reflexivity.
Qed.

(** X10.  A move of an output that has no source (a disconnected one)
    never succeeds: if the call returns at all, it returns -1 with the
    world unchanged and without posting or waking anything. *)
Theorem move_of_detached_output_never_succeeds
    (w : world) (p dest : ptr) (o : pa_source_output) (junk : option ptr)
    (r : Z) (w' : world) (tr : list event) :
  w_outputs w !! p = Some o ->
  so_source o = None ->
  pa_source_output_move_to p dest junk w = Done r w' tr ->
  r = -1 /\ w' = w /\
  count is_subscription tr = 0%nat /\ count is_wake tr = 0%nat.
Proof.
  intros Hl Hsrc H.
  apply move_to_done in H as (o0 & Hl0 & _ & H).
  assert (o0 = o) by congruence. subst o0.
  destruct H as [(Hs & _)|[(_ & Hr & Hw & Ht1 & Ht2)|(_ & H)]].
  - congruence.
  - auto.
  - destruct H as (origin & og & d & w0 & nr & t0 & Hs & _). congruence.
Qed.

End MovePaths.

Section DisconnectPaths.
Context {collab : Collaborators}.

(** X11.  Disconnect on an output that is attached and not yet
    disconnected posts one REMOVE event with the output's index, takes the
    output out of the registry and out of its source's member set, clears
    the source pointer and the three hooks and sets the state to
    DISCONNECTED.  It frees nothing: the object, its reference count, its
    name and its stage stay.  A second Disconnect stops at the assertion
    on the state. *)
Theorem disconnect_detaches_and_keeps_the_object
    (w : world) (p s : ptr) (o : pa_source_output) (src : pa_source) :
  w_outputs w !! p = Some o ->
  so_state o <> PA_SOURCE_OUTPUT_DISCONNECTED ->
  so_source o = Some s ->
  w_sources w !! s = Some src ->
  exists w' o',
    pa_source_output_disconnect p w =
      Done tt w' [EvSubscription PA_SUBSCRIPTION_EVENT_REMOVE (so_index o)] /\
    w_outputs w' !! p = Some o' /\
    so_state o' = PA_SOURCE_OUTPUT_DISCONNECTED /\
    so_source o' = None /\
    so_push o' = None /\ so_kill o' = None /\ so_get_latency o' = None /\
    same_identity o o' /\
    so_ref o' = so_ref o /\ so_name o' = so_name o /\
    so_resampler o' = so_resampler o /\
    w_resamplers w' = w_resamplers w /\
    in_registry w' p = false /\
    member_of w' s p = false /\
    pa_source_output_disconnect p w' =
      Crash (AssertionFailed "o->state != PA_SOURCE_OUTPUT_DISCONNECTED").
Proof.
  intros Hl Hst Hsrc Hs.
  exists (disconnected_world p s src o w),
         (set_state PA_SOURCE_OUTPUT_DISCONNECTED (clear_hooks (set_source None o))).
  split; [now apply disconnect_run|].
  split; [apply lookup_insert_eq|].
  do 5 (split; [reflexivity|]).
  split; [repeat split|].
  do 4 (split; [reflexivity|]).
  split; [unfold in_registry; simpl; apply contains_remove_same|].
  split.
  { unfold member_of; simpl. rewrite lookup_insert_eq. simpl.
    apply contains_remove_same. }
  unfold pa_source_output_disconnect.
  rewrite (bind_pure _ _ _
             (set_state PA_SOURCE_OUTPUT_DISCONNECTED
                (clear_hooks (set_source None o))))
    by (unfold load_output; simpl; now rewrite lookup_insert_eq).
  reflexivity.
Qed.

(** X12.  Once an output is disconnected, with its hooks cleared as
    Disconnect leaves them and a reference still held, the calls a holder
    can still make reach neither a hook nor a source: Kill and Cork do
    nothing, the latency is 0, the resample method is answered from the
    object if it has no stage and by its stage if it has a live one, Push
    stops at its assertion on the hook, and none of them changes the
    world. *)
Theorem calls_on_disconnected_output_are_inert
    (w : world) (p : ptr) (o : pa_source_output) (b : Z)
    (chunk : pa_memchunk) :
  w_outputs w !! p = Some o ->
  1 <= so_ref o ->
  so_state o = PA_SOURCE_OUTPUT_DISCONNECTED ->
  so_push o = None -> so_kill o = None -> so_get_latency o = None ->
  mc_length chunk <> 0 ->
  pa_source_output_kill p w = Done tt w [] /\
  pa_source_output_cork p b w = Done tt w [] /\
  pa_source_output_get_latency p w = Done 0 w [] /\
  (so_resampler o = None ->
   pa_source_output_get_resample_method p w = Done (so_resample_method o) w []) /\
  (forall r v,
     so_resampler o = Some r -> w_resamplers w !! r = Some v ->
     pa_source_output_get_resample_method p w = Done (resampler_method v) w []) /\
  pa_source_output_push p chunk w = Crash (AssertionFailed "o->push").
Proof.
  intros Hl Href Hst Hp Hk Hg Hc.
  apply Z.leb_le in Href. apply Z.eqb_neq in Hc.
  repeat split.
  - unfold pa_source_output_kill.
    rewrite (bind_pure _ _ w o) by (unfold load_output; now rewrite Hl).
    rewrite Href, Hk. rewrite (bind_pure _ _ w tt) by reflexivity. reflexivity.
  - unfold pa_source_output_cork.
    rewrite (bind_pure _ _ w o) by (unfold load_output; now rewrite Hl).
    rewrite Href, Hst. rewrite (bind_pure _ _ w tt) by reflexivity. reflexivity.
  - unfold pa_source_output_get_latency.
    rewrite (bind_pure _ _ w o) by (unfold load_output; now rewrite Hl).
    rewrite Href, Hg. rewrite (bind_pure _ _ w tt) by reflexivity. reflexivity.
  - intros Hr. unfold pa_source_output_get_resample_method.
    rewrite (bind_pure _ _ w o) by (unfold load_output; now rewrite Hl).
    rewrite Href, Hr. rewrite (bind_pure _ _ w tt) by reflexivity. reflexivity.
  - intros r v Hr Hv.
    unfold pa_source_output_get_resample_method, pa_resampler_get_method.
    rewrite (bind_pure _ _ w o) by (unfold load_output; now rewrite Hl).
    rewrite Href, Hr. rewrite (bind_pure _ _ w tt) by reflexivity.
    rewrite (bind_pure _ _ w v) by (unfold load_resampler; now rewrite Hv).
    reflexivity.
  - unfold pa_source_output_push.
    rewrite (bind_pure _ _ w o) by (unfold load_output; now rewrite Hl).
    rewrite Hc, Hp. cbn [negb].
    rewrite (bind_pure _ _ w tt) by reflexivity. reflexivity.
Qed.

End DisconnectPaths.

Section PushPaths.
Context {collab : Collaborators}.

(** X13.  Push on an output that is not corked, has its hook and owns a
    live stage runs the chunk through the stage, which remembers it.  If
    the stage gives back an empty chunk, nothing is delivered and nothing
    else happens; if it gives back a non-empty chunk with a buffer, the
    hook is called once with the converted chunk and the buffer is
    released right after; a non-empty chunk without a buffer stops at the
    assertion. *)
Theorem push_through_stage
    (w : world) (p h r : ptr) (o : pa_source_output) (v : pa_resampler)
    (chunk : pa_memchunk) :
  w_outputs w !! p = Some o ->
  so_state o <> PA_SOURCE_OUTPUT_CORKED ->
  so_push o = Some h ->
  so_resampler o = Some r ->
  w_resamplers w !! r = Some v ->
  mc_length chunk <> 0 ->
  (mc_length (resampler_convert v chunk) = 0 ->
   pa_source_output_push p chunk w =
     Done tt (fed_world r v chunk w)
       [EvResamplerRun r chunk (resampler_convert v chunk)]) /\
  (mc_length (resampler_convert v chunk) <> 0 ->
   forall b, mc_memblock (resampler_convert v chunk) = Some b ->
   pa_source_output_push p chunk w =
     Done tt (fed_world r v chunk w)
       [EvResamplerRun r chunk (resampler_convert v chunk);
        EvHookPush h p (resampler_convert v chunk);
        EvMemblockUnref b]) /\
  (mc_length (resampler_convert v chunk) <> 0 ->
   mc_memblock (resampler_convert v chunk) = None ->
   pa_source_output_push p chunk w =
     Crash (AssertionFailed "rchunk.memblock")).
Proof.
  intros Hl Hst Hp Hr Hv Hc.
  assert (Hpre : pa_source_output_push p chunk w =
    (rchunk <- pa_resampler_run r chunk ;;
     if mc_length rchunk =? 0 then ret tt else
     assert (is_some (mc_memblock rchunk)) "rchunk.memblock" ;;;
     h0 <- deref (so_push o) ;;
     emit (EvHookPush h0 p rchunk) ;;;
     b <- deref (mc_memblock rchunk) ;;
     pa_memblock_unref b) w).
  { unfold pa_source_output_push.
    rewrite (bind_pure _ _ w o) by (unfold load_output; now rewrite Hl).
    apply Z.eqb_neq in Hc. rewrite Hc, Hp. cbn [negb is_some].
    rewrite !(bind_pure _ _ w tt) by reflexivity.
    assert (E : output_state_eqb (so_state o) PA_SOURCE_OUTPUT_CORKED = false)
      by (destruct (so_state o); simpl; congruence).
    rewrite E, Hr. reflexivity. }
  assert (Hrun : pa_resampler_run r chunk w =
            Done (resampler_convert v chunk) (fed_world r v chunk w)
              [EvResamplerRun r chunk (resampler_convert v chunk)]).
  { unfold pa_resampler_run, bind, load_resampler. rewrite Hv. reflexivity. }
  split; [|split].
  - intros Hz. apply Z.eqb_eq in Hz.
    rewrite Hpre. unfold bind at 1. rewrite Hrun. cbv beta iota.
    rewrite Hz. reflexivity.
  - intros Hz b Hb. apply Z.eqb_neq in Hz.
    rewrite Hpre. unfold bind at 1. rewrite Hrun. cbv beta iota.
    rewrite Hz, Hb, Hp. reflexivity.
  - intros Hz Hb. apply Z.eqb_neq in Hz.
    rewrite Hpre. unfold bind at 1. rewrite Hrun. cbv beta iota.
    rewrite Hz, Hb. reflexivity.
Qed.

End PushPaths.

Section RoundTrips.
Context {collab : Collaborators}.

Lemma with_output_same w p o :
  w_outputs w !! p = Some o -> with_output p o w = w.
Proof.
  intros Hl. destruct w as [c ss os rs n]; unfold with_output; simpl in *.
  f_equal. now apply insert_id.
Qed.

(** X14.  Taking a reference and giving it back is a round trip: on a
    live output whose count is below INT_MAX, so that the increment does
    not overflow, ref followed by unref leaves the world exactly as it was
    and shows nothing to the outside; no teardown can happen in between. *)
Theorem ref_then_unref_is_identity
    (w : world) (p : ptr) (o : pa_source_output) :
  w_outputs w !! p = Some o ->
  1 <= so_ref o ->
  so_ref o < INT_MAX ->
  (_ <- pa_source_output_ref p ;; pa_source_output_unref p) w = Done tt w [].
Proof.
  intros Hl Href Hmax.
  eapply eq_trans.
  { eapply bind_run.
    - exact (ref_run w p o Hl Href Hmax).
    - apply unref_run_held; [apply with_output_lookup|simpl; lia]. }
  rewrite with_output_twice. simpl. f_equal.
  replace (set_ref (so_ref o + 1 - 1) (set_ref (so_ref o + 1) o)) with o.
  - now apply with_output_same.
  - destruct o; unfold set_ref; simpl. f_equal. lia.
Qed.

(** The teardown of an output that is still attached, with the world it
    leaves. *)
Lemma free_run_attached w p s src o :
  w_outputs w !! p = Some o ->
  so_state o <> PA_SOURCE_OUTPUT_DISCONNECTED ->
  so_source o = Some s ->
  w_sources w !! s = Some src ->
  (forall r, so_resampler o = Some r -> is_Some (w_resamplers w !! r)) ->
  source_output_free p w =
    Done tt (torn_down_world p (Some (s, src)) (so_resampler o) w)
      (teardown_trace p o).
Proof.
  intros Hl Hst Hsrc Hs Hown. unfold source_output_free, teardown_trace.
  rewrite (bind_pure _ _ w o) by (unfold load_output; now rewrite Hl).
  assert (E : output_state_eqb (so_state o) PA_SOURCE_OUTPUT_DISCONNECTED = false)
    by (destruct (so_state o); simpl; congruence).
  rewrite E. cbn [negb].
  unfold bind at 1.
  rewrite (disconnect_run w p o s src Hl Hst Hsrc Hs).
  set (w1 := disconnected_world p s src o w).
  set (o1 := set_state PA_SOURCE_OUTPUT_DISCONNECTED
               (clear_hooks (set_source None o))).
  assert (Hl1 : w_outputs w1 !! p = Some o1) by apply lookup_insert_eq.
  rewrite (bind_pure _ _ w1 o1) by (unfold load_output; now rewrite Hl1).
  change (so_resampler o1) with (so_resampler o).
  unfold torn_down_world.
  destruct (so_resampler o) as [r|] eqn:Er.
  - destruct (Hown r eq_refl) as [v Hv].
    unfold bind, pa_log_info, emit, pa_resampler_free, bind, load_resampler,
      free_output. simpl. rewrite Hv. simpl.
    now rewrite delete_insert_eq.
  - unfold bind, pa_log_info, emit, ret, free_output. simpl.
    now rewrite delete_insert_eq.
Qed.

(** The teardown of an output that is already disconnected. *)
Lemma free_run_detached w p o :
  w_outputs w !! p = Some o ->
  so_state o = PA_SOURCE_OUTPUT_DISCONNECTED ->
  (forall r, so_resampler o = Some r -> is_Some (w_resamplers w !! r)) ->
  source_output_free p w =
    Done tt (torn_down_world p None (so_resampler o) w) (teardown_trace p o).
Proof.
  intros Hl Hst Hown. unfold source_output_free, teardown_trace.
  rewrite (bind_pure _ _ w o) by (unfold load_output; now rewrite Hl).
  rewrite Hst. cbn [output_state_eqb negb].
  rewrite (bind_pure _ _ w tt) by reflexivity.
  rewrite (bind_pure _ _ w o) by (unfold load_output; now rewrite Hl).
  unfold torn_down_world.
  destruct (so_resampler o) as [r|] eqn:Er.
  - destruct (Hown r eq_refl) as [v Hv].
    unfold bind, pa_log_info, emit, pa_resampler_free, bind, load_resampler,
      free_output. simpl. rewrite Hv. reflexivity.
  - reflexivity.
Qed.

(** X15.  For the holder of the last reference of an attached output it
    makes no difference whether it disconnects before it lets go: a
    Disconnect followed by the last unref gives the same trace (one REMOVE
    event, the log line, the release of the stage, the release of the
    object) and the same world as the last unref alone, which disconnects
    on its own. *)
Theorem disconnect_then_last_unref_is_last_unref
    (w : world) (p s : ptr) (o : pa_source_output) (src : pa_source) :
  w_outputs w !! p = Some o ->
  so_ref o = 1 ->
  so_state o <> PA_SOURCE_OUTPUT_DISCONNECTED ->
  so_source o = Some s ->
  w_sources w !! s = Some src ->
  (forall r, so_resampler o = Some r -> is_Some (w_resamplers w !! r)) ->
  pa_source_output_unref p w =
    Done tt (torn_down_world p (Some (s, src)) (so_resampler o) w)
      (teardown_trace p o) /\
  (pa_source_output_disconnect p ;;; pa_source_output_unref p) w =
    pa_source_output_unref p w /\
  count is_removed (teardown_trace p o) = 1%nat.
Proof.
  intros Hl Href Hst Hsrc Hs Hown.
  assert (Halone : pa_source_output_unref p w =
            Done tt (torn_down_world p (Some (s, src)) (so_resampler o) w)
              (teardown_trace p o)).
  { rewrite (unref_run_last w p o Hl Href).
    rewrite (free_run_attached (with_output p (set_ref 0 o) w) p s src
               (set_ref 0 o)); auto.
    - unfold torn_down_world; simpl. now rewrite delete_insert_eq.
    - apply with_output_lookup. }
  split; [exact Halone|]. split.
  - rewrite Halone.
    set (o1 := set_state PA_SOURCE_OUTPUT_DISCONNECTED
                 (clear_hooks (set_source None o))).
    set (w1 := disconnected_world p s src o w).
    assert (Hl1 : w_outputs w1 !! p = Some o1) by apply lookup_insert_eq.
    assert (Hun : pa_source_output_unref p w1 =
              Done tt (torn_down_world p None (so_resampler o)
                         (with_output p (set_ref 0 o1) w1))
                (teardown_trace p (set_ref 0 o1))).
    { rewrite (unref_run_last w1 p o1 Hl1 Href).
      apply (free_run_detached (with_output p (set_ref 0 o1) w1) p
               (set_ref 0 o1)); auto.
      apply with_output_lookup. }
    eapply eq_trans.
    { eapply bind_run;
        [exact (disconnect_run w p o s src Hl Hst Hsrc Hs)|exact Hun]. }
    f_equal.
    + unfold torn_down_world; simpl.
      now rewrite !delete_insert_eq.
    + unfold teardown_trace; simpl.
      assert (E : output_state_eqb (so_state o)
                    PA_SOURCE_OUTPUT_DISCONNECTED = false)
        by (destruct (so_state o); simpl; congruence).
      now rewrite E.
  - unfold teardown_trace.
    assert (E : output_state_eqb (so_state o)
                  PA_SOURCE_OUTPUT_DISCONNECTED = false)
      by (destruct (so_state o); simpl; congruence).
    rewrite E, !count_app. simpl. now destruct (so_resampler o).
Qed.

End RoundTrips.

(** ** Every call is a chain of elementary changes *)

Section CallChanges.
Context {collab : Collaborators}.

Lemma change_consistent w w' :
  consistent w -> change w w' -> consistent w'.
Proof.
  intros Hc H. destruct H.
  - now apply (consistent_same w).
  - apply (consistent_with_output w q o); auto.
    pose proof (cons_state w Hc q o H) as Hst.
    rewrite H1. tauto.
  - now apply consistent_created.
  - now apply consistent_disconnected.
  - now apply (consistent_without_output w q o).
  - now apply consistent_moved.
Qed.

Lemma changes_consistent w w' :
  consistent w -> changes w w' -> consistent w'.
Proof.
  intros Hc H. induction H; [exact Hc|].
  apply IHchanges. now apply (change_consistent w).
Qed.

Lemma changes_one w w' : change w w' -> changes w w'.
Proof. intros H. eapply changes_step; [exact H|apply changes_none]. Qed.

Lemma changes_app w1 w2 w3 : changes w1 w2 -> changes w2 w3 -> changes w1 w3.
Proof.
  intros H. induction H; [auto|].
  intros H3. eapply changes_step; [exact H|auto].
Qed.

Lemma same_identity_refl o : same_identity o o.
Proof. repeat split. Qed.

Lemma same_identity_trans o1 o2 o3 :
  same_identity o1 o2 -> same_identity o2 o3 -> same_identity o1 o3.
Proof.
  unfold same_identity. intros H1 H2.
  repeat match goal with H : _ /\ _ |- _ => destruct H end.
  repeat split; congruence.
Qed.

Lemma free_changes p w u w' tr :
  consistent w ->
  source_output_free p w = Done u w' tr ->
  changes w w'.
Proof.
  intros Hc H. unfold source_output_free in H.
  inv_bind H as o H1. apply load_output_done in H1 as (Hl & -> & ->).
  inv_bind H as u1 H1.
  assert (Hmid : changes w w0 /\ exists o1,
            w_outputs w0 !! p = Some o1 /\ so_source o1 = None).
  { destruct (output_state_eqb (so_state o) PA_SOURCE_OUTPUT_DISCONNECTED) eqn:E;
      simpl in H1.
    - apply ret_done in H1 as (_ & -> & _).
      split; [apply changes_none|]. exists o. split; [exact Hl|].
      apply (cons_state w Hc p o Hl). now destruct (so_state o).
    - apply disconnect_done in H1
        as (o' & s & src & Hl' & Hst & Hsrc & Hs & -> & _).
      assert (o' = o) by congruence. subst o'.
      split; [apply changes_one; now apply change_disconnect|].
      eexists. split; [apply lookup_insert_eq|reflexivity]. }
  destruct Hmid as (Hch & o1 & Hl1 & Hsrc1).
  inv_bind H as o2 H2. apply load_output_done in H2 as (Hl2 & -> & ->).
  assert (o2 = o1) by congruence. subst o2.
  inv_bind H as u2 H2. apply emit_done in H2 as (-> & ->).
  inv_bind H as u3 H2.
  assert (Hch2 : changes w0 w1 /\ w_outputs w1 !! p = Some o1).
  { destruct (so_resampler o1) as [r|].
    - apply resampler_free_done in H2 as (_ & -> & _).
      split; [|exact Hl1].
      apply changes_one, change_stages, same_membership_without_stage.
    - apply ret_done in H2 as (_ & -> & _). split; [apply changes_none|auto]. }
  destruct Hch2 as (Hch2 & Hl2').
  injection H as _ <- _.
  eapply changes_app; [exact Hch|].
  eapply changes_app; [exact Hch2|].
  apply changes_one. exact (change_release w1 p o1 Hl2' Hsrc1).
Qed.

Lemma set_ref_field w p o k :
  w_outputs w !! p = Some o ->
  change w (with_output p (set_ref k o) w).
Proof.
  intros Hl. apply (change_field w p o); [exact Hl|repeat split|reflexivity|simpl; tauto].
Qed.

(** A call that returns has changed the world by a chain of elementary
    changes. *)
Lemma call_changes c w u w' tr :
  consistent w -> run_call c w = Done u w' tr -> changes w w'.
Proof.
  intros Hc H. destruct c; simpl in H.
  - inv_bind H as r H1. apply ret_done in H as (_ & -> & _).
    destruct r as [p|].
    + apply new_some_done in H1
        as (src & cm & w1 & rs & Hs & _ & Hroom & Hsame & _ & _ & ->).
      eapply changes_step; [apply change_stages; exact Hsame|].
      apply changes_one. apply change_create; auto.
      destruct Hsame as (_ & Hsrcs & _). now rewrite Hsrcs.
    + apply new_done in H1 as [(_ & -> & _)|H1]; [apply changes_none|].
      destruct H1 as (src & obj & wx & tx & _ & _ & _ & _ & _ & _ & _ & Hr & _).
      discriminate Hr.
  - apply disconnect_done in H as (o & s & src & Hl & _ & Hsrc & Hs & -> & _).
    apply changes_one. now apply change_disconnect.
  - unfold pa_source_output_unref in H.
    inv_bind H as o H1. apply load_output_done in H1 as (Hl & -> & ->).
    inv_bind H as u1 H1. apply assert_done in H1 as (Href & -> & ->).
    inv_bind H as u2 H1. apply store_output_done in H1 as (-> & ->).
    pose proof (set_ref_field w p o (so_ref o - 1) Hl) as Hch.
    destruct (so_ref o - 1 =? 0).
    + eapply changes_step; [exact Hch|].
      eapply free_changes; [|exact H].
      now apply (change_consistent w).
    + apply ret_done in H as (_ & -> & _). now apply changes_one.
  - inv_bind H as r H1. apply ret_done in H as (_ & -> & _).
    unfold pa_source_output_ref in H1.
    inv_bind H1 as o H2. apply load_output_done in H2 as (Hl & -> & ->).
    inv_bind H1 as u1 H2. apply assert_done in H2 as (_ & -> & ->).
    inv_bind H1 as u2 H2. apply store_output_done in H2 as (-> & ->).
    apply ret_done in H1 as (_ & -> & _).
    apply changes_one. now apply set_ref_field.
  - unfold pa_source_output_kill in H.
    inv_bind H as o H1. apply load_output_done in H1 as (Hl & -> & ->).
    inv_bind H as u1 H1. apply assert_done in H1 as (_ & -> & ->).
    destruct (so_kill o); repeat inv_step; apply changes_none.
  - unfold pa_source_output_push in H.
    inv_bind H as o H1. apply load_output_done in H1 as (Hl & -> & ->).
    inv_bind H as u1 H1. apply assert_done in H1 as (_ & -> & ->).
    inv_bind H as u2 H1. apply assert_done in H1 as (_ & -> & ->).
    destruct (output_state_eqb _ _).
    { apply ret_done in H as (_ & -> & _). apply changes_none. }
    destruct (so_resampler o) as [r|].
    + inv_bind H as rchunk H1.
      apply resampler_run_done in H1 as (Hsame & ->).
      assert (w' = w0).
      { destruct (mc_length rchunk =? 0).
        - now apply ret_done in H as (_ & -> & _).
        - repeat inv_step. reflexivity. }
      subst w'. apply changes_one, change_stages, Hsame.
    + repeat inv_step. apply changes_none.
  - unfold pa_source_output_set_name in H.
    inv_bind H as o H1. apply load_output_done in H1 as (Hl & -> & ->).
    inv_bind H as u1 H1. apply assert_done in H1 as (_ & -> & ->).
    inv_bind H as u0 H1. apply xfree_string_done in H1 as (-> & ->).
    inv_bind H as u2 H1. apply store_output_done in H1 as (-> & ->).
    repeat inv_step.
    apply changes_one.
    apply (change_field w p o); [exact Hl|repeat split|reflexivity|simpl; tauto].
  - inv_bind H as r H1. apply ret_done in H as (_ & -> & _).
    unfold pa_source_output_get_latency in H1.
    inv_bind H1 as o H2. apply load_output_done in H2 as (Hl & -> & ->).
    inv_bind H1 as u1 H2. apply assert_done in H2 as (_ & -> & ->).
    destruct (so_get_latency o); repeat inv_step; apply changes_none.
  - unfold pa_source_output_cork in H.
    inv_bind H as o H1. apply load_output_done in H1 as (Hl & -> & ->).
    inv_bind H as u1 H1. apply assert_done in H1 as (_ & -> & ->).
    destruct (output_state_eqb (so_state o) PA_SOURCE_OUTPUT_DISCONNECTED) eqn:E.
    { apply ret_done in H as (_ & -> & _). apply changes_none. }
    inv_bind H as u2 H1. apply store_output_done in H1 as (-> & ->).
    assert (w' = with_output p
                   (set_state (if b =? 0 then PA_SOURCE_OUTPUT_RUNNING
                               else PA_SOURCE_OUTPUT_CORKED) o) w).
    { destruct (_ && _).
      - now apply source_notify_done in H as (s' & _ & _ & -> & _).
      - now apply ret_done in H as (_ & -> & _). }
    subst w'. apply changes_one.
    apply (change_field w p o); [exact Hl|repeat split|reflexivity|].
    simpl. split.
    + destruct (b =? 0); discriminate.
    + intros Hd. rewrite Hd in E. discriminate.
  - inv_bind H as r H1. apply ret_done in H as (_ & -> & _).
    unfold pa_source_output_get_resample_method, pa_resampler_get_method in H1.
    inv_bind H1 as o H2. apply load_output_done in H2 as (Hl & -> & ->).
    inv_bind H1 as u1 H2. apply assert_done in H2 as (_ & -> & ->).
    destruct (so_resampler o); repeat inv_step; apply changes_none.
  - inv_bind H as r H1. apply ret_done in H as (_ & -> & _).
    apply move_to_done in H1 as (o & Hl & _ & H1).
    destruct H1 as [(_ & _ & -> & _)|[(_ & _ & -> & _)|(_ & H1)]];
      try apply changes_none.
    destruct H1 as (origin & og & d & wm & nr & tx & Hsrc & Hod & Hsame & Hog
                    & Hd & Hroom & -> & _).
    eapply changes_step; [apply change_stages; exact Hsame|].
    apply changes_one.
    destruct Hsame as (_ & Hsrcs & Houts & _).
    apply change_move; auto; congruence.
Qed.

Lemma calls_changes cs : forall w u w' tr,
  consistent w -> run_calls cs w = Done u w' tr -> changes w w'.
Proof.
  induction cs as [|c cs IH]; intros w u w' tr Hc H; simpl in H.
  - apply ret_done in H as (_ & -> & _). apply changes_none.
  - inv_bind H as u1 H1.
    pose proof (call_changes _ _ _ _ _ Hc H1) as Hch.
    eapply changes_app; [exact Hch|].
    eapply IH; [|exact H]. now apply (changes_consistent w).
Qed.

End CallChanges.

(** ** What no sequence of calls does *)

Section Invariants.
Context {collab : Collaborators}.

Lemma size_put_le s p :
  (pa_idxset_size (snd (pa_idxset_put s p)) <= S (pa_idxset_size s))%nat.
Proof.
  unfold pa_idxset_put, pa_idxset_size.
  destruct (pa_idxset_get_index s p); simpl; [lia|].
  rewrite length_app. simpl. lia.
Qed.

Lemma size_remove_le s p :
  (pa_idxset_size (pa_idxset_remove_by_data s p) <= pa_idxset_size s)%nat.
Proof.
  unfold pa_idxset_remove_by_data, pa_idxset_size. simpl.
  induction (ix_entries s) as [|[k q] l IH]; simpl; [lia|].
  destruct (Pos.eqb q p); simpl; lia.
Qed.

Lemma change_capacity w w' :
  within_capacity w -> change w w' -> within_capacity w'.
Proof.
  intros Hcap H. destruct H; intros s' src' Hs'.
  - destruct H as (_ & Hsrcs & _). rewrite Hsrcs in Hs'. eauto.
  - eapply Hcap. exact Hs'.
  - simpl in Hs'. destruct (decide (s = s')) as [->|Hne].
    + rewrite lookup_insert_eq in Hs'. injection Hs' as <-. simpl.
      pose proof (size_put_le (s_outputs src) (w_next w)). lia.
    + rewrite lookup_insert_ne in Hs' by exact Hne. eauto.
  - simpl in Hs'. destruct (decide (s = s')) as [->|Hne].
    + rewrite lookup_insert_eq in Hs'. injection Hs' as <-. simpl.
      pose proof (size_remove_le (s_outputs src) q).
      pose proof (Hcap _ _ H1). lia.
    + rewrite lookup_insert_ne in Hs' by exact Hne. eauto.
  - eapply Hcap. exact Hs'.
  - simpl in Hs'. destruct (decide (dest = s')) as [->|Hne].
    + rewrite lookup_insert_eq in Hs'. injection Hs' as <-. simpl.
      pose proof (size_put_le (s_outputs d) p). lia.
    + rewrite lookup_insert_ne in Hs' by exact Hne.
      destruct (decide (origin = s')) as [->|Hne'].
      * rewrite lookup_insert_eq in Hs'. injection Hs' as <-. simpl.
        pose proof (size_remove_le (s_outputs og) p).
        pose proof (Hcap _ _ H2). lia.
      * rewrite lookup_insert_ne in Hs' by exact Hne'. eauto.
Qed.

Lemma changes_capacity w w' :
  within_capacity w -> changes w w' -> within_capacity w'.
Proof.
  intros Hcap H. induction H; [exact Hcap|].
  apply IHchanges. now apply (change_capacity w).
Qed.

(** A released address is not handed out again. *)
Lemma change_gone w w' p :
  change w w' ->
  w_outputs w !! p = None -> (p < w_next w)%positive ->
  w_outputs w' !! p = None /\ (p < w_next w')%positive.
Proof.
  intros H Hp Hlt. destruct H; simpl.
  - destruct H as (_ & _ & Houts & Hn). rewrite Houts. split; [exact Hp|lia].
  - split; [|exact Hlt].
    rewrite lookup_insert_ne; [exact Hp|]. intros ->. pose proof (eq_trans (eq_sym H) Hp). discriminate.
  - split; [|lia]. rewrite lookup_insert_ne; [exact Hp|]. lia.
  - split; [|exact Hlt].
    rewrite lookup_insert_ne; [exact Hp|]. intros ->. pose proof (eq_trans (eq_sym H) Hp). discriminate.
  - split; [|exact Hlt].
    destruct (decide (q = p)) as [->|Hne];
      [apply lookup_delete_eq|rewrite lookup_delete_ne by exact Hne; exact Hp].
  - split; [|exact Hlt].
    rewrite lookup_insert_ne; [exact Hp|]. intros ->. pose proof (eq_trans (eq_sym H) Hp). discriminate.
Qed.

Lemma changes_gone w w' p :
  changes w w' ->
  w_outputs w !! p = None -> (p < w_next w)%positive ->
  w_outputs w' !! p = None.
Proof.
  intros H. induction H; intros Hp Hlt; [exact Hp|].
  destruct (change_gone _ _ p H Hp Hlt) as (Hp1 & Hlt1). auto.
Qed.

(** One elementary change releases an output or leaves it its identity,
    and never takes it out of the DISCONNECTED state. *)
Lemma change_fate w w' p o :
  consistent w -> change w w' ->
  w_outputs w !! p = Some o ->
  w_outputs w' !! p = None \/
  exists o', w_outputs w' !! p = Some o' /\ same_identity o o' /\
             (so_state o = PA_SOURCE_OUTPUT_DISCONNECTED ->
              so_state o' = PA_SOURCE_OUTPUT_DISCONNECTED).
Proof.
  intros Hc H Hp.
  assert (Hkeep : exists o', Some o = Some o' /\ same_identity o o' /\
             (so_state o = PA_SOURCE_OUTPUT_DISCONNECTED ->
              so_state o' = PA_SOURCE_OUTPUT_DISCONNECTED)).
  { exists o. split; [reflexivity|]. split; [apply same_identity_refl|auto]. }
  destruct H; simpl.
  - destruct H as (_ & _ & Houts & _). rewrite Houts, Hp. right. exact Hkeep.
  - right. destruct (decide (q = p)) as [->|Hne].
    + rewrite lookup_insert_eq. exists o'.
      assert (o0 = o) by congruence. subst o0.
      split; [reflexivity|]. split; [assumption|tauto].
    + rewrite lookup_insert_ne by exact Hne. rewrite Hp. exact Hkeep.
  - right. rewrite lookup_insert_ne.
    + rewrite Hp. exact Hkeep.
    + intros Heq. pose proof (cons_fresh w Hc p (ex_intro _ o Hp)). lia.
  - right. destruct (decide (q = p)) as [->|Hne].
    + rewrite lookup_insert_eq. eexists. split; [reflexivity|].
      assert (o0 = o) by congruence. subst o0.
      split; [repeat split|reflexivity].
    + rewrite lookup_insert_ne by exact Hne. rewrite Hp. exact Hkeep.
  - destruct (decide (q = p)) as [->|Hne].
    + left. apply lookup_delete_eq.
    + right. rewrite lookup_delete_ne by exact Hne. rewrite Hp. exact Hkeep.
  - right. destruct (decide (p0 = p)) as [->|Hne].
    + rewrite lookup_insert_eq. eexists. split; [reflexivity|].
      assert (o0 = o) by congruence. subst o0.
      split; [repeat split|]. simpl. auto.
    + rewrite lookup_insert_ne by exact Hne. rewrite Hp. exact Hkeep.
Qed.

Lemma changes_fate w w' :
  changes w w' -> forall p o,
  consistent w ->
  w_outputs w !! p = Some o ->
  w_outputs w' !! p = None \/
  exists o', w_outputs w' !! p = Some o' /\ same_identity o o' /\
             (so_state o = PA_SOURCE_OUTPUT_DISCONNECTED ->
              so_state o' = PA_SOURCE_OUTPUT_DISCONNECTED).
Proof.
  intros H. induction H as [w|w w1 w2 H1 H2 IH]; intros p o Hc Hp.
  - right. exists o. split; [exact Hp|]. split; [apply same_identity_refl|auto].
  - pose proof (change_consistent _ _ Hc H1) as Hc1.
    destruct (change_fate w w1 p o Hc H1 Hp) as [Hgone|(o1 & Hp1 & Hid1 & Hst1)].
    + left. apply (changes_gone w1 w2 p H2 Hgone).
      pose proof (cons_fresh w Hc p (ex_intro _ o Hp)) as Hlt.
      destruct (w_outputs w1 !! p) eqn:E; [discriminate|].
      clear Hgone. revert Hlt. clear -H1.
      intros Hlt. destruct H1; simpl; try lia.
      destruct H as (_ & _ & _ & Hn). lia.
    + destruct (IH p o1 Hc1 Hp1) as [Hgone|(o2 & Hp2 & Hid2 & Hst2)];
        [left; exact Hgone|].
      right. exists o2. split; [exact Hp2|].
      split; [now apply (same_identity_trans o o1 o2)|auto].
Qed.

(** X16. A disconnected output is never attached again: after any sequence
    of calls of this module that runs to its end from a consistent world,
    an output that was DISCONNECTED at the start is either released or
    still DISCONNECTED, without a source and in neither collection. *)
Theorem disconnected_is_terminal cs w u w' tr p o :
  consistent w ->
  w_outputs w !! p = Some o ->
  so_state o = PA_SOURCE_OUTPUT_DISCONNECTED ->
  run_calls cs w = Done u w' tr ->
  w_outputs w' !! p = None \/
  exists o', w_outputs w' !! p = Some o' /\
             so_state o' = PA_SOURCE_OUTPUT_DISCONNECTED /\
             so_source o' = None /\
             in_registry w' p = false /\
             forall s, member_of w' s p = false.
Proof.
  intros Hc Hp Hst Hrun.
  pose proof (calls_changes cs w u w' tr Hc Hrun) as Hch.
  pose proof (changes_consistent w w' Hc Hch) as Hc'.
  destruct (changes_fate w w' Hch p o Hc Hp) as [Hgone|(o' & Hp' & _ & Hst')];
    [left; exact Hgone|].
  right. exists o'. split; [exact Hp'|].
  specialize (Hst' Hst).
  assert (Hsrc : so_source o' = None) by now apply (cons_state w' Hc' p o' Hp').
  split; [exact Hst'|]. split; [exact Hsrc|].
  split; [exact (cons_detached w' Hc' p o' Hp' Hsrc)|].
  intros s. destruct (member_of w' s p) eqn:E; [|reflexivity].
  destruct (cons_members w' Hc' s p E) as (o2 & Hp2 & Hs2). congruence.
Qed.

(** X17. What Create fixed stays fixed: after any sequence of calls of
    this module that runs to its end from a consistent world, an output
    that is still there has the index, sample spec, channel map, resample
    method, driver, owner, client and user data it had at the start.
    (The allocator of the model hands out no address twice, so the object
    found at the address is the one that was there.) *)
Theorem identity_is_never_changed cs w u w' tr p o o' :
  consistent w ->
  w_outputs w !! p = Some o ->
  run_calls cs w = Done u w' tr ->
  w_outputs w' !! p = Some o' ->
  same_identity o o'.
Proof.
  intros Hc Hp Hrun Hp'.
  pose proof (calls_changes cs w u w' tr Hc Hrun) as Hch.
  destruct (changes_fate w w' Hch p o Hc Hp) as [Hgone|(o2 & Hp2 & Hid & _)];
    congruence.
Qed.

(** X18. No member set ever grows beyond PA_MAX_OUTPUTS_PER_SOURCE: if
    every source of a consistent world holds at most that many outputs,
    so does every source after any sequence of calls that runs to its
    end. *)
Theorem capacity_is_never_exceeded cs w u w' tr :
  consistent w ->
  within_capacity w ->
  run_calls cs w = Done u w' tr ->
  within_capacity w'.
Proof.
  intros Hc Hcap Hrun.
  apply (changes_capacity w w' Hcap).
  exact (calls_changes cs w u w' tr Hc Hrun).
Qed.

End Invariants.

(** ** The further properties on examples *)

Section FurtherExamples.
#[local] Existing Instance stand_in.

Lemma studio_consistent : consistent studio.
Proof.
  apply (new_keeps_consistent 1%positive None "rec" stereo None (-1)
           fresh_world (Some 100%positive) studio
           [EvLog LOG_INFO msg_created;
            EvSubscription PA_SUBSCRIPTION_EVENT_NEW 0]);
    [exact fresh_world_consistent|by_running].
Qed.

Lemma studio_unplugged_consistent : consistent studio_unplugged.
Proof.
  apply (call_keeps_consistent (CallDisconnect 100%positive) studio tt
           studio_unplugged
           [EvSubscription PA_SUBSCRIPTION_EVENT_REMOVE 0]);
    [exact studio_consistent|by_running].
Qed.

Lemma fresh_world_within_capacity : within_capacity fresh_world.
Proof.
  unfold within_capacity.
  change (map_Forall
            (fun _ src =>
               (pa_idxset_size (s_outputs src) <= PA_MAX_OUTPUTS_PER_SOURCE)%nat)
            (w_sources fresh_world)).
  unfold fresh_world; cbn [w_sources].
  repeat (apply map_Forall_insert_2; [vm_compute; lia|]).
  apply map_Forall_empty.
Qed.

Lemma create_rejects_invalid_arguments_witness :
  w_sources fresh_world !! 1%positive = Some (a_source 0 stereo stereo_map) /\
  s_state (a_source 0 stereo stereo_map) = PA_SOURCE_RUNNING /\
  create_arguments_ok stereo (Some mono_map) None "rec" = false /\
  pa_source_output_new 1%positive None "rec" stereo (Some mono_map) (-1)
    fresh_world = Done None fresh_world [].
Proof.
  assert (H1 : w_sources fresh_world !! 1%positive
               = Some (a_source 0 stereo stereo_map)) by by_running.
  assert (H2 : s_state (a_source 0 stereo stereo_map) = PA_SOURCE_RUNNING)
    by by_running.
  assert (H3 : create_arguments_ok stereo (Some mono_map) None "rec" = false)
    by by_running.
  exact (conj H1 (conj H2 (conj H3
           (create_rejects_invalid_arguments fresh_world 1%positive _ None
              "rec" stereo (Some mono_map) (-1) H1 H2 H3)))).
Defined.

Lemma create_unsupported_conversion_fails_witness :
  w_sources fresh_world !! 1%positive = Some (a_source 0 stereo stereo_map) /\
  s_state (a_source 0 stereo stereo_map) = PA_SOURCE_RUNNING /\
  create_arguments_ok mono None None "rec" = true /\
  create_map mono None = Some mono_map /\
  (pa_idxset_size (s_outputs (a_source 0 stereo stereo_map))
   < PA_MAX_OUTPUTS_PER_SOURCE)%nat /\
  shape_differs stereo stereo_map mono mono_map = true /\
  resampler_supported stereo stereo_map mono mono_map
    (c_memblock_stat (w_core fresh_world)) (create_method (-1) fresh_world)
    = false /\
  pa_source_output_new 1%positive None "rec" mono None (-1) fresh_world =
    Done None fresh_world
      [EvResamplerNew stereo stereo_map mono mono_map
         (create_method (-1) fresh_world) None;
       EvLog LOG_WARN msg_unsupported].
Proof.
  assert (H1 : w_sources fresh_world !! 1%positive
               = Some (a_source 0 stereo stereo_map)) by by_running.
  assert (H2 : s_state (a_source 0 stereo stereo_map) = PA_SOURCE_RUNNING)
    by by_running.
  assert (H3 : create_arguments_ok mono None None "rec" = true) by by_running.
  assert (H4 : create_map mono None = Some mono_map) by by_running.
  assert (H5 : (pa_idxset_size (s_outputs (a_source 0 stereo stereo_map))
                < PA_MAX_OUTPUTS_PER_SOURCE)%nat) by by_running.
  assert (H6 : shape_differs stereo stereo_map mono mono_map = true)
    by by_running.
  assert (H7 : resampler_supported stereo stereo_map mono mono_map
                 (c_memblock_stat (w_core fresh_world))
                 (create_method (-1) fresh_world) = false) by by_running.
  exact (conj H1 (conj H2 (conj H3 (conj H4 (conj H5 (conj H6 (conj H7
           (create_unsupported_conversion_fails fresh_world 1%positive _ None
              "rec" mono None (-1) mono_map H1 H2 H3 H4 H5 H6 H7)))))))).
Defined.

Lemma create_succeeds_on_valid_arguments_witness :
  consistent fresh_world /\
  w_sources fresh_world !! 1%positive = Some (a_source 0 stereo stereo_map) /\
  s_state (a_source 0 stereo stereo_map) = PA_SOURCE_RUNNING /\
  create_arguments_ok stereo48 (Some stereo_map) None "rec48" = true /\
  create_map stereo48 (Some stereo_map) = Some stereo_map /\
  (pa_idxset_size (s_outputs (a_source 0 stereo stereo_map))
   < PA_MAX_OUTPUTS_PER_SOURCE)%nat /\
  ix_next (c_source_outputs (w_core fresh_world)) <> PA_IDXSET_INVALID /\
  resampler_supported stereo stereo_map stereo48 stereo_map
    (c_memblock_stat (w_core fresh_world)) (create_method (-1) fresh_world)
    = true /\
  exists p w' t0 rs,
    pa_source_output_new 1%positive None "rec48" stereo48 (Some stereo_map)
      (-1) fresh_world =
      Done (Some p) w'
        (t0 ++ [EvLog LOG_INFO msg_created;
                EvSubscription PA_SUBSCRIPTION_EVENT_NEW 0]) /\
    w_outputs w' !! p =
      Some (new_object 1%positive None "rec48" stereo48 stereo_map
              (create_method (-1) fresh_world) rs 0) /\
    is_some rs = true /\
    member_of w' 1%positive p = true.
Proof.
  assert (H0 : consistent fresh_world) by exact fresh_world_consistent.
  assert (H1 : w_sources fresh_world !! 1%positive
               = Some (a_source 0 stereo stereo_map)) by by_running.
  assert (H2 : s_state (a_source 0 stereo stereo_map) = PA_SOURCE_RUNNING)
    by by_running.
  assert (H3 : create_arguments_ok stereo48 (Some stereo_map) None "rec48"
               = true) by by_running.
  assert (H4 : create_map stereo48 (Some stereo_map) = Some stereo_map)
    by by_running.
  assert (H5 : (pa_idxset_size (s_outputs (a_source 0 stereo stereo_map))
                < PA_MAX_OUTPUTS_PER_SOURCE)%nat) by by_running.
  assert (H6 : ix_next (c_source_outputs (w_core fresh_world))
               <> PA_IDXSET_INVALID) by by_running.
  assert (H7 : resampler_supported stereo stereo_map stereo48 stereo_map
                 (c_memblock_stat (w_core fresh_world))
                 (create_method (-1) fresh_world) = true) by by_running.
  destruct (create_succeeds_on_valid_arguments fresh_world 1%positive _ None
              "rec48" stereo48 (Some stereo_map) (-1) stereo_map
              H0 H1 H2 H3 H4 H5 H6 (fun _ => H7))
    as (p & w' & t0 & rs & Hrun & _ & _ & Hobj & Hrs & _ & _ & Hmem & _).
  refine (conj H0 (conj H1 (conj H2 (conj H3 (conj H4 (conj H5 (conj H6
            (conj H7 _)))))))).
  exists p, w', t0, rs.
  exact (conj Hrun (conj Hobj (conj Hrs Hmem))).
Defined.

Lemma create_null_changes_nothing_witness :
  pa_source_output_new 1%positive None "rec" mono None (-1) fresh_world =
    Done None fresh_world
      [EvResamplerNew stereo stereo_map mono mono_map 0 None;
       EvLog LOG_WARN msg_unsupported] /\
  fresh_world = fresh_world /\
  count is_subscription
    [EvResamplerNew stereo stereo_map mono mono_map 0 None;
     EvLog LOG_WARN msg_unsupported] = 0%nat.
Proof.
  assert (H1 : pa_source_output_new 1%positive None "rec" mono None (-1)
                 fresh_world =
               Done None fresh_world
                 [EvResamplerNew stereo stereo_map mono mono_map 0 None;
                  EvLog LOG_WARN msg_unsupported]) by by_running.
  exact (conj H1
           (create_null_changes_nothing fresh_world 1%positive None "rec" mono
              None (-1) fresh_world _ H1)).
Defined.

Lemma resample_method_after_create_witness :
  pa_source_output_new 1%positive None "rec48" stereo48 (Some stereo_map) 3
    fresh_world =
    Done (Some 101%positive)
      (world_after
         (pa_source_output_new 1%positive None "rec48" stereo48
            (Some stereo_map) 3) fresh_world)
      (events_of
         (pa_source_output_new 1%positive None "rec48" stereo48
            (Some stereo_map) 3 fresh_world)) /\
  exists o,
    w_outputs
      (world_after
         (pa_source_output_new 1%positive None "rec48" stereo48
            (Some stereo_map) 3) fresh_world) !! 101%positive = Some o /\
    so_resample_method o = 3 /\
    so_resampler o = Some 100%positive /\
    exists src cm,
      w_resamplers
        (world_after
           (pa_source_output_new 1%positive None "rec48" stereo48
              (Some stereo_map) 3) fresh_world) !! 100%positive =
        Some (new_stage (s_sample_spec src) (s_channel_map src) stereo48 cm 3) /\
      pa_source_output_get_resample_method 101%positive
        (world_after
           (pa_source_output_new 1%positive None "rec48" stereo48
              (Some stereo_map) 3) fresh_world) =
        Done (resampler_method
                (new_stage (s_sample_spec src) (s_channel_map src) stereo48
                   cm 3))
          (world_after
             (pa_source_output_new 1%positive None "rec48" stereo48
                (Some stereo_map) 3) fresh_world) [].
Proof.
  assert (H1 : pa_source_output_new 1%positive None "rec48" stereo48
                 (Some stereo_map) 3 fresh_world =
               Done (Some 101%positive)
                 (world_after
                    (pa_source_output_new 1%positive None "rec48" stereo48
                       (Some stereo_map) 3) fresh_world)
                 (events_of
                    (pa_source_output_new 1%positive None "rec48" stereo48
                       (Some stereo_map) 3 fresh_world))) by by_running.
  destruct (resample_method_after_create fresh_world 1%positive None "rec48"
              stereo48 (Some stereo_map) 3 101%positive _ _ H1)
    as (o & Hl & Hm & _ & Hstage).
  assert (Hr : so_resampler o = Some 100%positive).
  { revert Hl. vm_compute. intros [= <-]. reflexivity. }
  destruct (Hstage 100%positive Hr) as (src & cm & _ & _ & Hst & Hq).
  refine (conj H1 _).
  exists o. refine (conj Hl (conj Hm (conj Hr _))).
  exists src, cm. exact (conj Hst Hq).
Defined.

Lemma move_to_current_source_is_noop_witness :
  w_outputs studio !! 100%positive = Some (output_at 100%positive studio) /\
  1 <= so_ref (output_at 100%positive studio) /\
  so_source (output_at 100%positive studio) = Some 1%positive /\
  pa_source_output_move_to 100%positive 1%positive None studio =
    Done 0 studio [].
Proof.
  assert (H1 : w_outputs studio !! 100%positive
               = Some (output_at 100%positive studio)) by by_running.
  assert (H2 : 1 <= so_ref (output_at 100%positive studio)) by by_running.
  assert (H3 : so_source (output_at 100%positive studio) = Some 1%positive)
    by by_running.
  exact (conj H1 (conj H2 (conj H3
           (move_to_current_source_is_noop studio 100%positive 1%positive _
              None H1 H2 H3)))).
Defined.

Lemma move_to_full_destination_refused_witness :
  w_outputs studio_crowded !! 100%positive
    = Some (output_at 100%positive studio_crowded) /\
  1 <= so_ref (output_at 100%positive studio_crowded) /\
  so_source (output_at 100%positive studio_crowded) <> Some 2%positive /\
  w_sources studio_crowded !! 2%positive
    = Some (source_at 2%positive studio_crowded) /\
  (PA_MAX_OUTPUTS_PER_SOURCE
   <= pa_idxset_size (s_outputs (source_at 2%positive studio_crowded)))%nat /\
  pa_source_output_move_to 100%positive 2%positive None studio_crowded =
    Done (-1) studio_crowded [EvLog LOG_WARN msg_too_many_move].
Proof.
  assert (H1 : w_outputs studio_crowded !! 100%positive
               = Some (output_at 100%positive studio_crowded)) by by_running.
  assert (H2 : 1 <= so_ref (output_at 100%positive studio_crowded))
    by by_running.
  assert (H3 : so_source (output_at 100%positive studio_crowded)
               <> Some 2%positive) by by_running.
  assert (H4 : w_sources studio_crowded !! 2%positive
               = Some (source_at 2%positive studio_crowded)) by by_running.
  assert (H5 : (PA_MAX_OUTPUTS_PER_SOURCE
                <= pa_idxset_size
                     (s_outputs (source_at 2%positive studio_crowded)))%nat)
    by by_running.
  exact (conj H1 (conj H2 (conj H3 (conj H4 (conj H5
           (move_to_full_destination_refused studio_crowded 100%positive
              2%positive _ _ None H1 H2 H3 H4 H5)))))).
Defined.

Lemma move_builds_new_stage_witness :
  live_output studio 100%positive (output_at 100%positive studio) /\
  so_source (output_at 100%positive studio) = Some 1%positive /\
  w_sources studio !! 1%positive = Some (source_at 1%positive studio) /\
  w_sources studio !! 4%positive = Some (source_at 4%positive studio) /\
  (pa_idxset_size (s_outputs (source_at 4%positive studio))
   < PA_MAX_OUTPUTS_PER_SOURCE)%nat /\
  w_resamplers studio !! w_next studio = None /\
  so_resampler (output_at 100%positive studio) = None /\
  shape_differs (so_sample_spec (output_at 100%positive studio))
    (so_channel_map (output_at 100%positive studio))
    (s_sample_spec (source_at 4%positive studio))
    (s_channel_map (source_at 4%positive studio)) = true /\
  resampler_supported (s_sample_spec (source_at 4%positive studio))
    (s_channel_map (source_at 4%positive studio))
    (so_sample_spec (output_at 100%positive studio))
    (so_channel_map (output_at 100%positive studio))
    (c_memblock_stat (w_core studio))
    (so_resample_method (output_at 100%positive studio)) = true /\
  exists w' o',
    pa_source_output_move_to 100%positive 4%positive None studio =
      Done 0 w'
        [EvResamplerNew stereo48 stereo_map stereo stereo_map 0
           (Some 101%positive);
         EvSubscription PA_SUBSCRIPTION_EVENT_CHANGE 0;
         EvSourceNotify 4%positive] /\
    w_outputs w' !! 100%positive = Some o' /\
    so_resampler o' = Some 101%positive /\
    so_source o' = Some 4%positive /\
    w_resamplers w' !! 101%positive =
      Some (new_stage stereo48 stereo_map stereo stereo_map 0) /\
    member_of w' 4%positive 100%positive = true /\
    member_of w' 1%positive 100%positive = false.
Proof.
  assert (H1 : live_output studio 100%positive (output_at 100%positive studio))
    by live_by_running 1%positive.
  assert (H2 : so_source (output_at 100%positive studio) = Some 1%positive)
    by by_running.
  assert (H3 : w_sources studio !! 1%positive
               = Some (source_at 1%positive studio)) by by_running.
  assert (H4 : w_sources studio !! 4%positive
               = Some (source_at 4%positive studio)) by by_running.
  assert (H5 : 4%positive <> 1%positive) by discriminate.
  assert (H6 : (pa_idxset_size (s_outputs (source_at 4%positive studio))
                < PA_MAX_OUTPUTS_PER_SOURCE)%nat) by by_running.
  assert (H7 : forall r, so_resampler (output_at 100%positive studio) = Some r ->
                 is_Some (w_resamplers studio !! r))
    by (intros r Hr; vm_compute in Hr; discriminate Hr).
  assert (H8 : w_resamplers studio !! w_next studio = None) by by_running.
  assert (H9 : so_resampler (output_at 100%positive studio) = None)
    by by_running.
  assert (H10 : shape_differs (so_sample_spec (output_at 100%positive studio))
                  (so_channel_map (output_at 100%positive studio))
                  (s_sample_spec (source_at 4%positive studio))
                  (s_channel_map (source_at 4%positive studio)) = true)
    by by_running.
  assert (H11 : resampler_supported
                  (s_sample_spec (source_at 4%positive studio))
                  (s_channel_map (source_at 4%positive studio))
                  (so_sample_spec (output_at 100%positive studio))
                  (so_channel_map (output_at 100%positive studio))
                  (c_memblock_stat (w_core studio))
                  (so_resample_method (output_at 100%positive studio)) = true)
    by by_running.
  destruct (move_builds_new_stage studio 100%positive 1%positive 4%positive
              _ _ _ None H1 H2 H3 H4 H5 H6 H7 H8 (or_introl H9) H10 H11)
    as (w' & o' & Hrun & Hl & Hr & Hs & _ & Hst & _ & Hd & Ho).
  refine (conj H1 (conj H2 (conj H3 (conj H4 (conj H6 (conj H8 (conj H9
            (conj H10 (conj H11 _))))))))).
  exists w', o'.
  exact (conj Hrun (conj Hl (conj Hr (conj Hs (conj Hst (conj Hd Ho)))))).
Defined.

Lemma move_changes_source_and_stage_only_witness :
  w_outputs studio !! 100%positive = Some (output_at 100%positive studio) /\
  so_source (output_at 100%positive studio) <> Some 2%positive /\
  pa_source_output_move_to 100%positive 2%positive None studio =
    Done 0
      (world_after (pa_source_output_move_to 100%positive 2%positive None)
         studio)
      [EvSubscription PA_SUBSCRIPTION_EVENT_CHANGE 0;
       EvSourceNotify 2%positive] /\
  exists origin o',
    so_source (output_at 100%positive studio) = Some origin /\
    w_outputs
      (world_after (pa_source_output_move_to 100%positive 2%positive None)
         studio) !! 100%positive = Some o' /\
    so_source o' = Some 2%positive /\
    same_but_source_and_stage (output_at 100%positive studio) o' /\
    member_of
      (world_after (pa_source_output_move_to 100%positive 2%positive None)
         studio) 2%positive 100%positive = true /\
    member_of
      (world_after (pa_source_output_move_to 100%positive 2%positive None)
         studio) origin 100%positive = false.
Proof.
  assert (H1 : w_outputs studio !! 100%positive
               = Some (output_at 100%positive studio)) by by_running.
  assert (H2 : so_source (output_at 100%positive studio) <> Some 2%positive)
    by by_running.
  assert (H3 : pa_source_output_move_to 100%positive 2%positive None studio =
               Done 0
                 (world_after
                    (pa_source_output_move_to 100%positive 2%positive None)
                    studio)
                 [EvSubscription PA_SUBSCRIPTION_EVENT_CHANGE 0;
                  EvSourceNotify 2%positive]) by by_running.
  destruct (move_changes_source_and_stage_only studio 100%positive 2%positive
              _ None _ _ H1 H2 H3)
    as (origin & o' & Ho & Hl & Hs & Hsame & _ & Hd & Hog & _).
  refine (conj H1 (conj H2 (conj H3 _))).
  exists origin, o'.
  exact (conj Ho (conj Hl (conj Hs (conj Hsame (conj Hd Hog))))).
Defined.

Lemma move_of_detached_output_never_succeeds_witness :
  w_outputs studio_crowded_unplugged !! 100%positive
    = Some (output_at 100%positive studio_crowded_unplugged) /\
  so_source (output_at 100%positive studio_crowded_unplugged) = None /\
  pa_source_output_move_to 100%positive 2%positive None
    studio_crowded_unplugged =
    Done (-1) studio_crowded_unplugged [EvLog LOG_WARN msg_too_many_move] /\
  -1 = -1 /\ studio_crowded_unplugged = studio_crowded_unplugged /\
  count is_subscription [EvLog LOG_WARN msg_too_many_move] = 0%nat /\
  count is_wake [EvLog LOG_WARN msg_too_many_move] = 0%nat.
Proof.
  assert (H1 : w_outputs studio_crowded_unplugged !! 100%positive
               = Some (output_at 100%positive studio_crowded_unplugged))
    by by_running.
  assert (H2 : so_source (output_at 100%positive studio_crowded_unplugged)
               = None) by by_running.
  assert (H3 : pa_source_output_move_to 100%positive 2%positive None
                 studio_crowded_unplugged =
               Done (-1) studio_crowded_unplugged
                 [EvLog LOG_WARN msg_too_many_move]) by by_running.
  exact (conj H1 (conj H2 (conj H3
           (move_of_detached_output_never_succeeds studio_crowded_unplugged
              100%positive 2%positive _ None (-1) _ _ H1 H2 H3)))).
Defined.

Lemma disconnect_detaches_and_keeps_the_object_witness :
  w_outputs studio !! 100%positive = Some (output_at 100%positive studio) /\
  so_state (output_at 100%positive studio) <> PA_SOURCE_OUTPUT_DISCONNECTED /\
  so_source (output_at 100%positive studio) = Some 1%positive /\
  w_sources studio !! 1%positive = Some (source_at 1%positive studio) /\
  exists w' o',
    pa_source_output_disconnect 100%positive studio =
      Done tt w' [EvSubscription PA_SUBSCRIPTION_EVENT_REMOVE 0] /\
    w_outputs w' !! 100%positive = Some o' /\
    so_state o' = PA_SOURCE_OUTPUT_DISCONNECTED /\
    so_source o' = None /\
    so_ref o' = 1 /\
    in_registry w' 100%positive = false /\
    member_of w' 1%positive 100%positive = false /\
    pa_source_output_disconnect 100%positive w' =
      Crash (AssertionFailed "o->state != PA_SOURCE_OUTPUT_DISCONNECTED").
Proof.
  assert (H1 : w_outputs studio !! 100%positive
               = Some (output_at 100%positive studio)) by by_running.
  assert (H2 : so_state (output_at 100%positive studio)
               <> PA_SOURCE_OUTPUT_DISCONNECTED) by by_running.
  assert (H3 : so_source (output_at 100%positive studio) = Some 1%positive)
    by by_running.
  assert (H4 : w_sources studio !! 1%positive
               = Some (source_at 1%positive studio)) by by_running.
  destruct (disconnect_detaches_and_keeps_the_object studio 100%positive
              1%positive _ _ H1 H2 H3 H4)
    as (w' & o' & Hrun & Hl & Hst & Hs & _ & _ & _ & _ & Href & _ & _ & _
        & Hreg & Hmem & Hagain).
  refine (conj H1 (conj H2 (conj H3 (conj H4 _)))).
  exists w', o'.
  exact (conj Hrun (conj Hl (conj Hst (conj Hs (conj Href (conj Hreg
           (conj Hmem Hagain))))))).
Defined.

Lemma calls_on_disconnected_output_are_inert_witness :
  w_outputs studio_unplugged !! 100%positive
    = Some (output_at 100%positive studio_unplugged) /\
  1 <= so_ref (output_at 100%positive studio_unplugged) /\
  so_state (output_at 100%positive studio_unplugged)
    = PA_SOURCE_OUTPUT_DISCONNECTED /\
  so_push (output_at 100%positive studio_unplugged) = None /\
  so_kill (output_at 100%positive studio_unplugged) = None /\
  so_get_latency (output_at 100%positive studio_unplugged) = None /\
  mc_length a_chunk <> 0 /\
  pa_source_output_kill 100%positive studio_unplugged
    = Done tt studio_unplugged [] /\
  pa_source_output_cork 100%positive 0 studio_unplugged
    = Done tt studio_unplugged [] /\
  pa_source_output_get_latency 100%positive studio_unplugged
    = Done 0 studio_unplugged [] /\
  pa_source_output_push 100%positive a_chunk studio_unplugged
    = Crash (AssertionFailed "o->push").
Proof.
  assert (H1 : w_outputs studio_unplugged !! 100%positive
               = Some (output_at 100%positive studio_unplugged)) by by_running.
  assert (H2 : 1 <= so_ref (output_at 100%positive studio_unplugged))
    by by_running.
  assert (H3 : so_state (output_at 100%positive studio_unplugged)
               = PA_SOURCE_OUTPUT_DISCONNECTED) by by_running.
  assert (H4 : so_push (output_at 100%positive studio_unplugged) = None)
    by by_running.
  assert (H5 : so_kill (output_at 100%positive studio_unplugged) = None)
    by by_running.
  assert (H6 : so_get_latency (output_at 100%positive studio_unplugged) = None)
    by by_running.
  assert (H7 : mc_length a_chunk <> 0) by by_running.
  destruct (calls_on_disconnected_output_are_inert studio_unplugged
              100%positive _ 0 a_chunk H1 H2 H3 H4 H5 H6 H7)
    as (Hk & Hc & Hlat & _ & _ & Hp).
  exact (conj H1 (conj H2 (conj H3 (conj H4 (conj H5 (conj H6 (conj H7
           (conj Hk (conj Hc (conj Hlat Hp)))))))))).
Defined.

Lemma push_through_stage_witness :
  w_outputs resampled_hooked !! 101%positive
    = Some (output_at 101%positive resampled_hooked) /\
  so_state (output_at 101%positive resampled_hooked)
    <> PA_SOURCE_OUTPUT_CORKED /\
  so_push (output_at 101%positive resampled_hooked) = Some 7%positive /\
  so_resampler (output_at 101%positive resampled_hooked) = Some 100%positive /\
  w_resamplers resampled_hooked !! 100%positive
    = Some (stage_at 100%positive resampled_hooked) /\
  mc_length a_chunk <> 0 /\
  mc_length (resampler_convert (stage_at 100%positive resampled_hooked) a_chunk)
    <> 0 /\
  pa_source_output_push 101%positive a_chunk resampled_hooked =
    Done tt
      (fed_world 100%positive (stage_at 100%positive resampled_hooked) a_chunk
         resampled_hooked)
      [EvResamplerRun 100%positive a_chunk a_chunk;
       EvHookPush 7%positive 101%positive a_chunk;
       EvMemblockUnref [Byte.x01; Byte.x02; Byte.x03; Byte.x04]].
Proof.
  assert (H1 : w_outputs resampled_hooked !! 101%positive
               = Some (output_at 101%positive resampled_hooked)) by by_running.
  assert (H2 : so_state (output_at 101%positive resampled_hooked)
               <> PA_SOURCE_OUTPUT_CORKED) by by_running.
  assert (H3 : so_push (output_at 101%positive resampled_hooked)
               = Some 7%positive) by by_running.
  assert (H4 : so_resampler (output_at 101%positive resampled_hooked)
               = Some 100%positive) by by_running.
  assert (H5 : w_resamplers resampled_hooked !! 100%positive
               = Some (stage_at 100%positive resampled_hooked)) by by_running.
  assert (H6 : mc_length a_chunk <> 0) by by_running.
  assert (H7 : mc_length
                 (resampler_convert (stage_at 100%positive resampled_hooked)
                    a_chunk) <> 0) by by_running.
  destruct (push_through_stage resampled_hooked 101%positive 7%positive
              100%positive _ _ a_chunk H1 H2 H3 H4 H5 H6)
    as (_ & Hdeliver & _).
  exact (conj H1 (conj H2 (conj H3 (conj H4 (conj H5 (conj H6 (conj H7
           (Hdeliver H7 _ eq_refl)))))))).
Defined.

Lemma ref_then_unref_is_identity_witness :
  w_outputs studio !! 100%positive = Some (output_at 100%positive studio) /\
  1 <= so_ref (output_at 100%positive studio) /\
  so_ref (output_at 100%positive studio) < INT_MAX /\
  (_ <- pa_source_output_ref 100%positive ;;
   pa_source_output_unref 100%positive) studio = Done tt studio [].
Proof.
  assert (H1 : w_outputs studio !! 100%positive
               = Some (output_at 100%positive studio)) by by_running.
  assert (H2 : 1 <= so_ref (output_at 100%positive studio)) by by_running.
  assert (H3 : so_ref (output_at 100%positive studio) < INT_MAX)
    by by_running.
  exact (conj H1 (conj H2 (conj H3
           (ref_then_unref_is_identity studio 100%positive _ H1 H2 H3)))).
Defined.

Lemma disconnect_then_last_unref_is_last_unref_witness :
  w_outputs resampled !! 101%positive
    = Some (output_at 101%positive resampled) /\
  so_ref (output_at 101%positive resampled) = 1 /\
  so_state (output_at 101%positive resampled)
    <> PA_SOURCE_OUTPUT_DISCONNECTED /\
  so_source (output_at 101%positive resampled) = Some 1%positive /\
  w_sources resampled !! 1%positive = Some (source_at 1%positive resampled) /\
  (pa_source_output_disconnect 101%positive ;;;
   pa_source_output_unref 101%positive) resampled =
    pa_source_output_unref 101%positive resampled /\
  pa_source_output_unref 101%positive resampled =
    Done tt
      (torn_down_world 101%positive
         (Some (1%positive, source_at 1%positive resampled))
         (Some 100%positive) resampled)
      [EvSubscription PA_SUBSCRIPTION_EVENT_REMOVE 0;
       EvLog LOG_INFO msg_freed;
       EvResamplerFree 100%positive;
       EvXfreeString (Some "rec48");
       EvXfreeString None;
       EvXfree 101%positive].
Proof.
  assert (H1 : w_outputs resampled !! 101%positive
               = Some (output_at 101%positive resampled)) by by_running.
  assert (H2 : so_ref (output_at 101%positive resampled) = 1) by by_running.
  assert (H3 : so_state (output_at 101%positive resampled)
               <> PA_SOURCE_OUTPUT_DISCONNECTED) by by_running.
  assert (H4 : so_source (output_at 101%positive resampled) = Some 1%positive)
    by by_running.
  assert (H5 : w_sources resampled !! 1%positive
               = Some (source_at 1%positive resampled)) by by_running.
  assert (H6 : forall r, so_resampler (output_at 101%positive resampled) = Some r ->
                 is_Some (w_resamplers resampled !! r)).
  { intros r Hr. vm_compute in Hr. injection Hr as <-.
    vm_compute. eexists. reflexivity. }
  destruct (disconnect_then_last_unref_is_last_unref resampled 101%positive
              1%positive _ _ H1 H2 H3 H4 H5 H6) as (Hun & Hsame & _).
  exact (conj H1 (conj H2 (conj H3 (conj H4 (conj H5 (conj Hsame Hun)))))).
Defined.

Lemma disconnected_is_terminal_witness :
  consistent studio_unplugged /\
  w_outputs studio_unplugged !! 100%positive
    = Some (output_at 100%positive studio_unplugged) /\
  so_state (output_at 100%positive studio_unplugged)
    = PA_SOURCE_OUTPUT_DISCONNECTED /\
  run_calls [CallRef 100%positive; CallCork 100%positive 0;
             CallNew 2%positive None "rec2" stereo None (-1);
             CallUnref 100%positive] studio_unplugged =
    Done tt
      (world_after
         (run_calls [CallRef 100%positive; CallCork 100%positive 0;
                     CallNew 2%positive None "rec2" stereo None (-1);
                     CallUnref 100%positive]) studio_unplugged)
      (events_of
         (run_calls [CallRef 100%positive; CallCork 100%positive 0;
                     CallNew 2%positive None "rec2" stereo None (-1);
                     CallUnref 100%positive] studio_unplugged)) /\
  (w_outputs
     (world_after
        (run_calls [CallRef 100%positive; CallCork 100%positive 0;
                    CallNew 2%positive None "rec2" stereo None (-1);
                    CallUnref 100%positive]) studio_unplugged)
     !! 100%positive = None \/
   exists o',
     w_outputs
       (world_after
          (run_calls [CallRef 100%positive; CallCork 100%positive 0;
                      CallNew 2%positive None "rec2" stereo None (-1);
                      CallUnref 100%positive]) studio_unplugged)
       !! 100%positive = Some o' /\
     so_state o' = PA_SOURCE_OUTPUT_DISCONNECTED /\
     so_source o' = None).
Proof.
  assert (H0 : consistent studio_unplugged)
    by exact studio_unplugged_consistent.
  assert (H1 : w_outputs studio_unplugged !! 100%positive
               = Some (output_at 100%positive studio_unplugged)) by by_running.
  assert (H2 : so_state (output_at 100%positive studio_unplugged)
               = PA_SOURCE_OUTPUT_DISCONNECTED) by by_running.
  assert (H3 : run_calls [CallRef 100%positive; CallCork 100%positive 0;
                          CallNew 2%positive None "rec2" stereo None (-1);
                          CallUnref 100%positive] studio_unplugged =
               Done tt
                 (world_after
                    (run_calls [CallRef 100%positive; CallCork 100%positive 0;
                                CallNew 2%positive None "rec2" stereo None (-1);
                                CallUnref 100%positive]) studio_unplugged)
                 (events_of
                    (run_calls [CallRef 100%positive; CallCork 100%positive 0;
                                CallNew 2%positive None "rec2" stereo None (-1);
                                CallUnref 100%positive] studio_unplugged)))
    by by_running.
  refine (conj H0 (conj H1 (conj H2 (conj H3 _)))).
  destruct (disconnected_is_terminal _ _ _ _ _ 100%positive _ H0 H1 H2 H3)
    as [Hgone|(o' & Hl & Hst & Hs & _)].
  - left. exact Hgone.
  - right. exists o'. exact (conj Hl (conj Hst Hs)).
Defined.

Lemma identity_is_never_changed_witness :
  consistent studio /\
  w_outputs studio !! 100%positive = Some (output_at 100%positive studio) /\
  run_calls [CallSetName 100%positive "take2"; CallCork 100%positive 1;
             CallMoveTo 100%positive 4%positive None] studio =
    Done tt
      (world_after
         (run_calls [CallSetName 100%positive "take2"; CallCork 100%positive 1;
                     CallMoveTo 100%positive 4%positive None]) studio)
      (events_of
         (run_calls [CallSetName 100%positive "take2"; CallCork 100%positive 1;
                     CallMoveTo 100%positive 4%positive None] studio)) /\
  w_outputs
    (world_after
       (run_calls [CallSetName 100%positive "take2"; CallCork 100%positive 1;
                   CallMoveTo 100%positive 4%positive None]) studio)
    !! 100%positive =
    Some (output_at 100%positive
            (world_after
               (run_calls [CallSetName 100%positive "take2";
                           CallCork 100%positive 1;
                           CallMoveTo 100%positive 4%positive None]) studio)) /\
  same_identity (output_at 100%positive studio)
    (output_at 100%positive
       (world_after
          (run_calls [CallSetName 100%positive "take2";
                      CallCork 100%positive 1;
                      CallMoveTo 100%positive 4%positive None]) studio)).
Proof.
  assert (H0 : consistent studio) by exact studio_consistent.
  assert (H1 : w_outputs studio !! 100%positive
               = Some (output_at 100%positive studio)) by by_running.
  assert (H2 : run_calls [CallSetName 100%positive "take2";
                          CallCork 100%positive 1;
                          CallMoveTo 100%positive 4%positive None] studio =
               Done tt
                 (world_after
                    (run_calls [CallSetName 100%positive "take2";
                                CallCork 100%positive 1;
                                CallMoveTo 100%positive 4%positive None]) studio)
                 (events_of
                    (run_calls [CallSetName 100%positive "take2";
                                CallCork 100%positive 1;
                                CallMoveTo 100%positive 4%positive None]
                       studio))) by by_running.
  assert (H3 : w_outputs
                 (world_after
                    (run_calls [CallSetName 100%positive "take2";
                                CallCork 100%positive 1;
                                CallMoveTo 100%positive 4%positive None]) studio)
                 !! 100%positive =
               Some (output_at 100%positive
                       (world_after
                          (run_calls [CallSetName 100%positive "take2";
                                      CallCork 100%positive 1;
                                      CallMoveTo 100%positive 4%positive None])
                          studio))) by by_running.
  exact (conj H0 (conj H1 (conj H2 (conj H3
           (identity_is_never_changed _ _ _ _ _ 100%positive _ _
              H0 H1 H2 H3))))).
Defined.

Lemma capacity_is_never_exceeded_witness :
  consistent fresh_world /\
  within_capacity fresh_world /\
  run_calls [CallNew 1%positive None "rec" stereo None (-1);
             CallMoveTo 100%positive 2%positive None] fresh_world =
    Done tt
      (world_after (pa_source_output_move_to 100%positive 2%positive None)
         studio)
      (events_of
         (run_calls [CallNew 1%positive None "rec" stereo None (-1);
                     CallMoveTo 100%positive 2%positive None] fresh_world)) /\
  within_capacity
    (world_after (pa_source_output_move_to 100%positive 2%positive None)
       studio).
Proof.
  assert (H0 : consistent fresh_world) by exact fresh_world_consistent.
  assert (H1 : within_capacity fresh_world)
    by exact fresh_world_within_capacity.
  assert (H2 : run_calls [CallNew 1%positive None "rec" stereo None (-1);
                          CallMoveTo 100%positive 2%positive None] fresh_world =
               Done tt
                 (world_after
                    (pa_source_output_move_to 100%positive 2%positive None)
                    studio)
                 (events_of
                    (run_calls [CallNew 1%positive None "rec" stereo None (-1);
                                CallMoveTo 100%positive 2%positive None]
                       fresh_world))) by by_running.
  exact (conj H0 (conj H1 (conj H2
           (capacity_is_never_exceeded _ _ _ _ _ H0 H1 H2)))).
Defined.

End FurtherExamples.
